(** * CryptoRiskGuard: the four risk scorers and the aggregation engine

    A shallow embedding of the scoring code of the agents
    (blockchain-agent.ts, social-agent.ts, the market analysis agent, the
    DexScreener agent and the analysis agent) and the properties the
    specification states about it.

    A JavaScript [number] is an IEEE 754 binary64 value; it is modelled by
    Rocq's primitive [float], whose operations are the same binary64
    operations (round to nearest, ties to even), so that the arithmetic and
    the comparisons of the models are those of the TypeScript, NaN and
    infinities included.  Where the specification gives a formula in exact
    arithmetic, the formula is stated over the rationals and compared with
    the binary64 result through the rounding lemmas of the operations. *)

From Stdlib Require Import Ascii.
From Stdlib Require Import ZArith List Bool Lia String.
From Stdlib Require Import QArith Qpower Qround Lqa.
From Stdlib Require Import Floats.
Import ListNotations.

Close Scope Q_scope.

Set Warnings "-inexact-float".

Local Open Scope float_scope.

(** ** JavaScript numbers *)

Module JS.

Definition number := float.

(** [a > b] and [a >= b] of the source, so that conditions read as written. *)
Notation "a >? b" := (PrimFloat.ltb b a)
  (at level 70, no associativity, only parsing) : float_scope.
Notation "a >=? b" := (PrimFloat.leb b a)
  (at level 70, no associativity, only parsing) : float_scope.

(** ToBoolean on a number: [0], [-0] and [NaN] are falsy. *)
Definition truthy (x : number) : bool := negb (is_nan x || is_zero x).

(** [x || d] where [x] is a number that may be [undefined]
    ([pair.liquidity?.usd || 0]). *)
Definition or_else (x : option number) (d : number) : number :=
  match x with
  | Some v => if truthy v then v else d
  | None => d
  end.

(** ToBoolean on a string that may be [null]/[undefined]: the empty string
    is falsy. *)
Definition truthy_str (s : option string) : bool :=
  match s with
  | Some EmptyString => false
  | Some _ => true
  | None => false
  end.

(** [a || b] on such strings. *)
Definition or_str (a b : option string) : option string :=
  if truthy_str a then a else b.

(** An integer as a number (exact below 2^53). *)
Definition of_Z (z : Z) : number :=
  match z with
  | Z0 => 0
  | Zpos _ => of_uint63 (Uint63.of_Z z)
  | Zneg p => - of_uint63 (Uint63.of_Z (Zpos p))
  end.

Definition of_nat (n : nat) : number := of_Z (Z.of_nat n).

(** Every binary64 value of magnitude 2^52 or more is an integer. *)
Definition two52 : number := 4503599627370496.

(** [Math.floor]. *)
Definition Math_floor (x : number) : number :=
  if abs x <? two52 then
    if is_zero x then x
    else match Prim2SF x with
         | S754_finite s m e =>
             let n := if s then Zneg m else Zpos m in
             of_Z (if (0 <=? e)%Z then n * 2 ^ e else n / 2 ^ (- e))%Z
         | _ => x
         end
  else x.

(** [Math.round]: the nearest integer, a tie going towards +Infinity;
    a result of zero keeps the sign of the argument. *)
Definition Math_round (x : number) : number :=
  if abs x <? two52 then
    if is_zero x then x
    else match Prim2SF x with
         | S754_finite s m e =>
             let n := if s then Zneg m else Zpos m in
             let z := (if 0 <=? e then n * 2 ^ e
                       else (2 * n + 2 ^ (- e)) / 2 ^ (1 - e))%Z in
             if (z =? 0)%Z && s then neg_zero else of_Z z
         | _ => x
         end
  else x.

(** [Math.min] and [Math.max] of two arguments: NaN if either is NaN,
    and [-0] counts as smaller than [+0]. *)
Definition Math_min (a b : number) : number :=
  if is_nan a || is_nan b then nan
  else if a <? b then a
  else if b <? a then b
  else if get_sign a then a else b.

Definition Math_max (a b : number) : number :=
  if is_nan a || is_nan b then nan
  else if a >? b then a
  else if b >? a then b
  else if get_sign a then b else a.

(** How two successive comparisons, neither of them [Gt], compose. *)
Definition cmp_then (c1 c2 : comparison) : comparison :=
  match c1, c2 with Eq, Eq => Eq | _, _ => Lt end.

(** [Array.prototype.slice(0, n)]. *)
Definition slice0 {A} (n : nat) (l : list A) : list A := firstn n l.

End JS.

Import JS.

(** ** Binary64 numbers as rationals

    What the specification states in exact arithmetic is compared with what
    the code computes in binary64 through the rational number a finite
    binary64 value denotes. *)

Module Exact.

Local Open Scope Q_scope.

Definition pow2 (k : Z) : Q := Qpower 2 k.

(** The rational a value denotes; 0 for the infinities and NaN, which the
    statements exclude with [finite]. *)
Definition SF2Q (x : spec_float) : Q :=
  match x with
  | S754_finite s m e =>
      (if s then - inject_Z (Zpos m) else inject_Z (Zpos m)) * pow2 e
  | _ => 0
  end.

Definition is_finite_SF (x : spec_float) : bool :=
  match x with
  | S754_zero _ | S754_finite _ _ _ => true
  | _ => false
  end.

Definition SFsign (x : spec_float) : bool :=
  match x with
  | S754_zero s | S754_infinity s | S754_finite s _ _ => s
  | S754_nan => false
  end.

Definition valueOf (x : float) : Q := SF2Q (Prim2SF x).

Definition finite (x : float) : bool := is_finite_SF (Prim2SF x).

Definition signOf (x : float) : bool := SFsign (Prim2SF x).

(** Where the number [y] lies between the integer [shr_m mrs] and the next
    one, as the round and sticky bits of a shifted mantissa record it. *)
Definition located (mrs : shr_record) (y : Q) : Prop :=
  (0 <= shr_m mrs)%Z /\
  match shr_r mrs, shr_s mrs with
  | false, false => y == inject_Z (shr_m mrs)
  | false, true => inject_Z (shr_m mrs) < y /\ y < inject_Z (shr_m mrs) + (1#2)
  | true, false => y == inject_Z (shr_m mrs) + (1#2)
  | true, true => inject_Z (shr_m mrs) + (1#2) < y /\ y < inject_Z (shr_m mrs) + 1
  end.

(** [r] is [exact] rounded at the precision of the numbers below [2^E]: it
    is within half a unit in the last place of [exact], and on the same
    side as [exact] of every multiple of a power of two from [2^(E-53)] on. *)
Definition rounds_to (exact r : Q) (E : Z) : Prop :=
  r - exact <= pow2 (E - 54) /\ exact - r <= pow2 (E - 54)
  /\ (forall G g, (E - 53 <= g)%Z ->
       exact <= inject_Z G * pow2 g -> r <= inject_Z G * pow2 g)
  /\ (forall G g, (E - 53 <= g)%Z ->
       inject_Z G * pow2 g <= exact -> inject_Z G * pow2 g <= r).

(** Modelled on the specification's [round]: the nearest integer, a tie
    going up, in exact arithmetic. *)
Definition roundHalfUp (q : Q) : Z := Qfloor (q + (1#2)).

(** How close to a tie of [round] an exact value has to be for the
    binary64 computations of the scorers to round it the other way. *)
Definition tieMargin : Q := 1 # 1000000000000.

End Exact.

Import Exact.

(** The risk level shared by every record of the system. *)
Inductive RiskLevel := Low | Medium | High.

(** The bucketing the specification fixes: below 40 is Low, 40 through 70
    inclusive is Medium, only above 70 is High. *)
Definition bucketsHighAbove70 (score : number) (level : RiskLevel) : Prop :=
  ((score <? 40) = true -> level = Low) /\
  ((score >=? 40) = true -> (score <=? 70) = true -> level = Medium) /\
  ((score >? 70) = true -> level = High).

(** The other convention: High from 70 on. *)
Definition bucketsHighFrom70 (score : number) (level : RiskLevel) : Prop :=
  ((score <? 40) = true -> level = Low) /\
  ((score >=? 40) = true -> (score <? 70) = true -> level = Medium) /\
  ((score >=? 70) = true -> level = High).


(** ** ChainRiskScorer: blockchain-agent.ts *)

Module Blockchain.

Record TokenHolder := {
  address : string;
  balance : string;
  percentage : number
}.

Record Transaction := {
  hash : string;
  timeStamp : string;
  value : string
}.

Inductive Severity := SevHigh | SevMedium | SevLow | SevInfo.

Record SecurityPattern := {
  name : string;
  description : string;
  severity : Severity;
  found : bool
}.

(** What [getContractInfo] returns ([{}] on failure: every field absent).
    [createdTimestamp] holds the integer [parseInt] reads from the
    timestamp string, in seconds; [None] stands for a null or empty field. *)
Record ContractInfo := {
  contractName : option string;
  createdTimestamp : option number;
  implementation : option string;
  sourceCode : option string
}.

(** What [getTokenInfo] returns ([{}] on failure). *)
Record TokenInfo := {
  tokenName : option string;
  symbol : option string
}.

Record ConcentrationMetrics := {
  topHolderPercentage : number;
  top10Percentage : number;
  holderCount : nat
}.

(** [[...holders].sort((a, b) => b.percentage - a.percentage)]: a stable
    sort; [x] stays ahead of a later [y] unless the comparator is positive. *)
Fixpoint insertHolder (x : TokenHolder) (sorted : list TokenHolder) : list TokenHolder :=
  match sorted with
  | [] => [x]
  | y :: rest =>
      if (percentage y - percentage x) >? 0 then y :: insertHolder x rest
      else x :: sorted
  end.

Definition sortHolders (holders : list TokenHolder) : list TokenHolder :=
  fold_right insertHolder [] holders.

Definition calculateConcentrationMetrics (holders : list TokenHolder) : ConcentrationMetrics :=
  match holders with
  | [] => {| topHolderPercentage := 0; top10Percentage := 0; holderCount := 0 |}
  | _ =>
      let sortedHolders := sortHolders holders in
      let topHolderPercentage := or_else (option_map percentage (hd_error sortedHolders)) 0 in
      let top10Holders := slice0 10 sortedHolders in
      let top10Percentage :=
        fold_left (fun acc holder => acc + percentage holder) top10Holders 0 in
      {| topHolderPercentage := topHolderPercentage;
         top10Percentage := top10Percentage;
         holderCount := List.length holders |}
  end.

(** [new Date(ms).getTime()]: the time value, NaN outside the range of
    dates (the argument here is an integer or NaN). *)
Definition Date_getTime (ms : number) : number :=
  if abs ms <=? 8.64e15 then ms + 0 else nan.

Definition msPerDay : number := 1000 * 60 * 60 * 24.

(** The contract age in whole days, from the creation timestamp [ts]
    (seconds) and the current time [now] (milliseconds). *)
Definition ageInDaysAt (now ts : number) : number :=
  let creationDate := Date_getTime (ts * 1000) in
  Math_floor ((now - creationDate) / msPerDay).

(** [calculateBlockchainRiskScore]; [now] is the value of [new Date()] in
    milliseconds. *)
Definition calculateBlockchainRiskScore (now : number)
    (isVerified : bool) (contractInfo : ContractInfo) (tokenInfo : TokenInfo)
    (holderDistribution : list TokenHolder)
    (transactionHistory : list Transaction)
    (securityPatterns : list SecurityPattern) : number :=
  let score := 0 in
  (* Not verified is a major risk *)
  let score := if negb isVerified then score + 50 else score in
  (* Proxy contracts add risk *)
  let score := if truthy_str (implementation contractInfo) then score + 20 else score in
  (* Missing token info adds risk *)
  let score :=
    if negb (truthy_str (tokenName tokenInfo)) || negb (truthy_str (symbol tokenInfo))
    then score + 10 else score in
  (* Contract age *)
  let score :=
    match createdTimestamp contractInfo with
    | Some ts =>
        let ageInDays := ageInDaysAt now ts in
        if ageInDays <? 7 then score + 20
        else if ageInDays <? 30 then score + 10
        else if ageInDays <? 90 then score + 5
        else score
    | None => score + 5 (* Unknown age adds some risk *)
    end in
  (* Holder concentration *)
  let m := calculateConcentrationMetrics holderDistribution in
  let score :=
    if topHolderPercentage m >? 50 then score + 30
    else if topHolderPercentage m >? 20 then score + 15
    else if topHolderPercentage m >? 10 then score + 5
    else score in
  let score :=
    if top10Percentage m >? 90 then score + 20
    else if top10Percentage m >? 80 then score + 10
    else if top10Percentage m >? 70 then score + 5
    else score in
  (* Security patterns *)
  let score :=
    fold_left (fun score pattern =>
                 match severity pattern with
                 | SevHigh => score + 20
                 | SevMedium => score + 10
                 | SevLow => score + 5
                 | SevInfo => score
                 end) securityPatterns score in
  (* Cap the score at 100 *)
  Math_min 100 score.

(** The level the agent derives from the score, in [assessBlockchainRisk],
    [analyzeTokenAddress] and [getRiskBadge] alike. *)
Definition riskLevel (riskScore : number) : RiskLevel :=
  if riskScore >=? 70 then High
  else if riskScore >=? 40 then Medium
  else Low.

End Blockchain.

(** ** SentimentRiskScorer: social-agent.ts *)

Module Social.

Inductive Sentiment := positive | neutral | negative.

Record PublicMetrics := {
  retweet_count : number;
  reply_count : number;
  like_count : number
}.

Record TwitterTweet := {
  id : string;
  text : string;
  public_metrics : PublicMetrics
}.

Record TwitterUser := {
  username : string;
  verified : bool;
  followers_count : number
}.

Record TwitterSentimentAnalysis := {
  tweet : TwitterTweet;
  sentiment : Sentiment;
  sentimentScore : number
}.

Record SentimentBreakdown := {
  sb_positive : number;
  sb_neutral : number;
  sb_negative : number
}.

Record TwitterRiskAssessment := {
  overallSentiment : Sentiment;
  overallSentimentScore : number;
  riskScore : number;
  riskLevel : RiskLevel;
  redFlags : list string;
  positiveIndicators : list string;
  tweetCount : nat;
  recentTweets : list TwitterSentimentAnalysis;
  userInfo : option TwitterUser;
  tweetFrequency : number;
  engagementRate : number;
  sentimentBreakdown : SentimentBreakdown
}.

Definition is_sentiment (s : Sentiment) (t : TwitterSentimentAnalysis) : bool :=
  match s, sentiment t with
  | positive, positive | neutral, neutral | negative, negative => true
  | _, _ => false
  end.

(** [if (c) xs.push(msg)]. *)
Definition push_if (c : bool) (msg : string) (xs : list string) : list string :=
  if c then xs ++ [msg] else xs.

Definition calculateTwitterRiskAssessment
    (tweetSentiments : list TwitterSentimentAnalysis)
    (userInfo : option TwitterUser) : TwitterRiskAssessment :=
  match tweetSentiments with
  | [] =>
      (* Default neutral assessment if no tweets were found *)
      {| overallSentiment := neutral;
         overallSentimentScore := 0;
         riskScore := 50;
         riskLevel := Medium;
         redFlags := ["No recent Twitter activity found"%string];
         positiveIndicators := [];
         tweetCount := 0;
         recentTweets := [];
         userInfo := userInfo;
         tweetFrequency := 0;
         engagementRate := 0;
         sentimentBreakdown := {| sb_positive := 0; sb_neutral := 100; sb_negative := 0 |} |}
  | _ =>
      let len := of_nat (List.length tweetSentiments) in
      (* average of all tweets *)
      let totalSentimentScore :=
        fold_left (fun sum item => sum + sentimentScore item) tweetSentiments 0 in
      let overallSentimentScore := totalSentimentScore / len in
      let overallSentiment := neutral in
      let overallSentiment := if overallSentimentScore >? 0.1 then positive else overallSentiment in
      let overallSentiment := if overallSentimentScore <? -0.1 then negative else overallSentiment in
      (* Higher sentiment = lower risk *)
      let riskScore := Math_round (((1 - overallSentimentScore) / 2) * 100) in
      let riskLevel := Medium in
      let riskLevel := if riskScore <? 40 then Low else riskLevel in
      let riskLevel := if riskScore >? 70 then High else riskLevel in
      let positiveTweets := List.length (filter (is_sentiment positive) tweetSentiments) in
      let negativeTweets := List.length (filter (is_sentiment negative) tweetSentiments) in
      let neutralTweets := of_nat (List.length tweetSentiments) - of_nat positiveTweets - of_nat negativeTweets in
      let sentimentBreakdown :=
        {| sb_positive := Math_round ((of_nat positiveTweets / len) * 100);
           sb_neutral := Math_round ((neutralTweets / len) * 100);
           sb_negative := Math_round ((of_nat negativeTweets / len) * 100) |} in
      let tweetFrequency := len in
      let totalLikes :=
        fold_left (fun sum item => sum + like_count (public_metrics (tweet item))) tweetSentiments 0 in
      let totalRetweets :=
        fold_left (fun sum item => sum + retweet_count (public_metrics (tweet item))) tweetSentiments 0 in
      let totalReplies :=
        fold_left (fun sum item => sum + reply_count (public_metrics (tweet item))) tweetSentiments 0 in
      let engagementRate := (totalLikes + totalRetweets + totalReplies) / len in
      let is_user (p : TwitterUser -> bool) :=
        match userInfo with Some u => p u | None => false end in
      let redFlags := [] in
      let redFlags := push_if (sb_negative sentimentBreakdown >? 50)
                        "Majority negative sentiment on Twitter" redFlags in
      let redFlags := push_if (List.length tweetSentiments <? 10)%nat
                        "Very low Twitter discussion volume" redFlags in
      let redFlags := push_if (engagementRate <? 1)
                        "Low engagement with tweets about this project" redFlags in
      let redFlags := push_if (is_user (fun u => negb (verified u)))
                        "Official Twitter account is not verified" redFlags in
      let redFlags := push_if (is_user (fun u => followers_count u <? 1000))
                        "Official account has very few followers" redFlags in
      let positiveIndicators := [] in
      let positiveIndicators := push_if (sb_positive sentimentBreakdown >? 60)
                        "Strong positive sentiment on Twitter" positiveIndicators in
      let positiveIndicators := push_if (50 <? List.length tweetSentiments)%nat
                        "High volume of Twitter discussion" positiveIndicators in
      let positiveIndicators := push_if (engagementRate >? 10)
                        "High engagement with tweets about this project" positiveIndicators in
      let positiveIndicators := push_if (is_user verified)
                        "Project has a verified official Twitter account" positiveIndicators in
      let positiveIndicators := push_if (is_user (fun u => followers_count u >? 100000))
                        "Official account has a large follower base" positiveIndicators in
      {| overallSentiment := overallSentiment;
         overallSentimentScore := overallSentimentScore;
         riskScore := riskScore;
         riskLevel := riskLevel;
         redFlags := redFlags;
         positiveIndicators := positiveIndicators;
         tweetCount := List.length tweetSentiments;
         recentTweets := slice0 5 tweetSentiments;
         userInfo := userInfo;
         tweetFrequency := tweetFrequency;
         engagementRate := engagementRate;
         sentimentBreakdown := sentimentBreakdown |}
  end.

(** The averaged sentiment value the specification's formula is applied
    to: the mean of the per-tweet sentiment scores. *)
Definition averageSentiment (tweetSentiments : list TwitterSentimentAnalysis) : number :=
  fold_left (fun sum item => sum + sentimentScore item) tweetSentiments 0
  / of_nat (List.length tweetSentiments).

(** The scorer's expression for the risk score, in binary64, as a
    function of the averaged sentiment. *)
Definition linearInversion (sentiment : number) : number :=
  Math_round (((1 - sentiment) / 2) * 100).

(** Modelled on the specification's formula, in exact arithmetic: the
    value [((1 - sentiment) / 2) * 100] that
    [score = round(((1 - sentiment) / 2) * 100)] rounds. *)
Definition exactInversion (sentiment : Q) : Q := (((1 - sentiment) / 2) * 100)%Q.

End Social.

(** ** MarketRiskScorer: the market analysis agent *)

Module Market.

Record CoinData := {
  id : string;
  symbol : string;
  name : string;
  current_price : number;
  market_cap : number;
  market_cap_rank : number;
  total_volume : number;
  price_change_24h : number;
  price_change_percentage_24h : number;
  ath_change_percentage : number;
  last_updated : string
}.

Record Graded := {
  score : number;
  level : RiskLevel;
  description : string
}.

(** The assessment, without the display-only [metrics] and [priceTrends]. *)
Record MarketRiskAssessment := {
  assessedName : string;
  currentPrice : number;
  marketCap : number;
  marketCapRank : number;
  riskScore : number;
  riskLevel : RiskLevel;
  redFlags : list string;
  positiveIndicators : list string;
  liquidity : Graded;
  volatility : Graded;
  lastUpdated : string
}.

(** The day-over-day returns [(prices[i] - prices[i-1]) / prices[i-1]]. *)
Fixpoint dailyReturns (prices : list number) : list number :=
  match prices with
  | p0 :: (p1 :: _) as rest => (p1 - p0) / p0 :: dailyReturns rest
  | _ => []
  end.

(** [Math.pow(x, 2)], taken as the correctly rounded square. *)
Definition Math_pow2 (x : number) : number := x * x.

(** Standard deviation of daily returns. *)
Definition calculatePriceVolatility (prices : list number) : number :=
  if (List.length prices <? 2)%nat then 0
  else
    let returns := dailyReturns prices in
    let n := of_nat (List.length returns) in
    let mean := fold_left (fun sum value => sum + value) returns 0 / n in
    let variance :=
      fold_left (fun sum value => sum + Math_pow2 (value - mean)) returns 0 / n in
    sqrt variance.

Definition push_if (c : bool) (msg : string) (xs : list string) : list string :=
  if c then xs ++ [msg] else xs.

(** The first block of [calculateMarketRiskAssessment]: volatility score,
    level and description from the price history.  [priceHistory] is the
    [prices] series of [[timestamp, price]] points, [None] when the history
    is null or has no such series. *)
Definition assessVolatility (priceHistory : option (list (number * number)))
    : number * RiskLevel * string :=
    match priceHistory with
    | Some points =>
        if (1 <? List.length points)%nat then
          let prices := map snd points in
          let volatilityScore := calculatePriceVolatility prices in
          if volatilityScore <? 0.03 then
            (volatilityScore, Low,
             "Price shows low volatility, suggesting stability but potentially limited growth opportunities."%string)
          else if volatilityScore >? 0.08 then
            (volatilityScore, High,
             "Price shows high volatility, indicating potential for large price swings and increased risk."%string)
          else
            (volatilityScore, Medium,
             "Price shows moderate volatility, balancing potential growth with acceptable risk levels."%string)
        else
          (0, Medium,
           "Price volatility could not be calculated due to insufficient historical data."%string)
    | None =>
        (0, Medium,
         "Price volatility could not be calculated due to insufficient historical data."%string)
    end.

Definition calculateMarketRiskAssessment (coinData : CoinData)
    (priceHistory : option (list (number * number))) : MarketRiskAssessment :=
  (* Calculate volatility from price history *)
  let '(volatilityScore, volatilityLevel, volatilityDescription) :=
    assessVolatility priceHistory in
  (* Liquidity score based on volume to market cap ratio *)
  let volumeToMarketCapRatio := total_volume coinData / market_cap coinData in
  let liquidityScore := volumeToMarketCapRatio * 100 in
  let '(liquidityLevel, liquidityDescription) :=
    if liquidityScore <? 3 then
      (Low, "Low trading volume relative to market cap, indicating potential liquidity risk."%string)
    else if liquidityScore >? 15 then
      (High, "High trading volume relative to market cap, suggesting good liquidity."%string)
    else
      (Medium, "Average liquidity compared to market capitalization."%string) in
  (* Red flags and positive indicators *)
  let redFlags := [] in
  let redFlags := push_if (market_cap coinData <? 5000000)
      "Very low market capitalization (<$5M) indicates higher risk" redFlags in
  let redFlags := push_if (volumeToMarketCapRatio <? 0.02)
      "Low trading volume relative to market cap may cause price slippage" redFlags in
  let redFlags := push_if (volatilityScore >? 0.1)
      "Extremely high price volatility" redFlags in
  let redFlags := push_if (market_cap_rank coinData >? 1000)
      "Very low market cap ranking" redFlags in
  let redFlags := push_if (ath_change_percentage coinData <? -90)
      "Price is down over 90% from all-time high" redFlags in
  let positiveIndicators := [] in
  let positiveIndicators := push_if (market_cap coinData >? 1000000000)
      "Large market capitalization (>$1B) suggests established project" positiveIndicators in
  let positiveIndicators := push_if (market_cap_rank coinData <=? 50)
      "Top 50 cryptocurrency by market cap" positiveIndicators in
  let positiveIndicators := push_if (volumeToMarketCapRatio >? 0.15)
      "High trading volume indicates strong market interest" positiveIndicators in
  let positiveIndicators := push_if (volatilityScore <? 0.02)
      "Low price volatility suggests price stability" positiveIndicators in
  (* Overall risk score (0-100, higher = riskier) *)
  let riskScore := 50 in (* Start at medium risk *)
  (* Market cap factor (lower = higher risk) *)
  let riskScore :=
    if market_cap coinData >? 10000000000 then riskScore - 15
    else if market_cap coinData >? 1000000000 then riskScore - 10
    else if market_cap coinData <? 10000000 then riskScore + 15
    else if market_cap coinData <? 100000000 then riskScore + 5
    else riskScore in
  (* Rank factor *)
  let riskScore :=
    if market_cap_rank coinData <=? 10 then riskScore - 15
    else if market_cap_rank coinData <=? 50 then riskScore - 10
    else if market_cap_rank coinData <=? 100 then riskScore - 5
    else if market_cap_rank coinData >? 500 then riskScore + 10
    else if market_cap_rank coinData >? 1000 then riskScore + 15
    else riskScore in
  (* Liquidity factor *)
  let riskScore :=
    if volumeToMarketCapRatio >? 0.2 then riskScore - 10
    else if volumeToMarketCapRatio >? 0.1 then riskScore - 5
    else if volumeToMarketCapRatio <? 0.02 then riskScore + 15
    else if volumeToMarketCapRatio <? 0.05 then riskScore + 5
    else riskScore in
  (* Volatility factor *)
  let riskScore :=
    if volatilityScore >? 0.1 then riskScore + 15
    else if volatilityScore >? 0.05 then riskScore + 5
    else if volatilityScore <? 0.02 then riskScore - 5
    else riskScore in
  (* ATH distance factor *)
  let riskScore :=
    if ath_change_percentage coinData >? -20 then riskScore - 5
    else if ath_change_percentage coinData <? -80 then riskScore + 5
    else riskScore in
  (* Ensure score is within bounds *)
  let riskScore := Math_max 0 (Math_min 100 riskScore) in
  (* Determine risk level *)
  let riskLevel :=
    if riskScore <? 40 then Low
    else if riskScore >? 70 then High
    else Medium in
  {| assessedName := name coinData;
     currentPrice := current_price coinData;
     marketCap := market_cap coinData;
     marketCapRank := market_cap_rank coinData;
     riskScore := riskScore;
     riskLevel := riskLevel;
     redFlags := redFlags;
     positiveIndicators := positiveIndicators;
     liquidity := {| score := liquidityScore; level := liquidityLevel;
                     description := liquidityDescription |};
     volatility := {| score := volatilityScore * 100; level := volatilityLevel;
                      description := volatilityDescription |};
     lastUpdated := last_updated coinData |}.

(** Every factor of the score other than the rank sits in its neutral
    tier: none of the market-cap, liquidity-ratio, volatility and
    ATH-distance conditions holds. *)
Definition otherFactorsNeutral (coinData : CoinData)
    (priceHistory : option (list (number * number))) : bool :=
  let volatilityScore := fst (fst (assessVolatility priceHistory)) in
  let volumeToMarketCapRatio := total_volume coinData / market_cap coinData in
  negb (market_cap coinData >? 10000000000) && negb (market_cap coinData >? 1000000000)
  && negb (market_cap coinData <? 10000000) && negb (market_cap coinData <? 100000000)
  && negb (volumeToMarketCapRatio >? 0.2) && negb (volumeToMarketCapRatio >? 0.1)
  && negb (volumeToMarketCapRatio <? 0.02) && negb (volumeToMarketCapRatio <? 0.05)
  && negb (volatilityScore >? 0.1) && negb (volatilityScore >? 0.05)
  && negb (volatilityScore <? 0.02)
  && negb (ath_change_percentage coinData >? -20)
  && negb (ath_change_percentage coinData <? -80).

End Market.

(** ** DexRiskScorer: the DexScreener agent *)

Module Dex.

Record Token := {
  tokenAddress : string;
  tokenName : string;
  tokenSymbol : string
}.

Record Txns := {
  buys : option number;
  sells : option number
}.

(** A trading pair as the DexScreener API delivers it.  The code reads
    every numeric field through [?.] and [|| 0], so each may be missing:
    [liquidity_usd] is [liquidity?.usd], [volume_h24] is [volume?.h24],
    [txns_h24] is [txns?.h24] and [priceChange_h24] is [priceChange?.h24]. *)
Record TokenPair := {
  chainId : string;
  dexId : string;
  url : string;
  pairAddress : string;
  baseToken : Token;
  quoteToken : Token;
  priceUsd : option string;
  liquidity_usd : option number;
  volume_h24 : option number;
  priceChange_h24 : option number;
  txns_h24 : option Txns;
  fdv : option number;
  marketCap : option number
}.

Record DexRiskAssessment := {
  assessedSymbol : string;
  assessedName : string;
  chain : string;
  dex : string;
  assessedPriceUsd : option string;
  liquidity : number;
  volume24h : number;
  assessedMarketCap : option number;
  assessedFdv : option number;
  buyToSellRatio : number;
  priceChange24h : number;
  riskScore : number;
  riskLevel : RiskLevel;
  liquidityScore : number;
  liquidityLevel : RiskLevel;
  redFlags : list string;
  positiveIndicators : list string;
  tokenUrl : string
}.

Definition push_if (c : bool) (msg : string) (xs : list string) : list string :=
  if c then xs ++ [msg] else xs.

(** [x || null] on a number that may be missing. *)
Definition or_null (x : option number) : option number :=
  match x with
  | Some v => if truthy v then Some v else None
  | None => None
  end.

(** [allPairs.reduce((sum, pair) => sum + (pair.liquidity?.usd || 0), 0)]. *)
Definition totalLiquidityOf (allPairs : list TokenPair) : number :=
  fold_left (fun sum pair => sum + or_else (liquidity_usd pair) 0) allPairs 0.

Definition totalVolume24hOf (allPairs : list TokenPair) : number :=
  fold_left (fun sum pair => sum + or_else (volume_h24 pair) 0) allPairs 0.

(** [primaryPair.txns?.h24?.buys || 0] and [primaryPair.txns?.h24?.sells || 0]. *)
Definition totalBuysOf (primaryPair : TokenPair) : number :=
  or_else (match txns_h24 primaryPair with Some t => buys t | None => None end) 0.

Definition totalSellsOf (primaryPair : TokenPair) : number :=
  or_else (match txns_h24 primaryPair with Some t => sells t | None => None end) 0.

(** [new Set(allPairs.map(pair => pair.dexId)).size]. *)
Definition uniqueDexesOf (allPairs : list TokenPair) : nat :=
  List.length (nodup string_dec (map dexId allPairs)).

Section Formatting.

(** The number formatting used inside the factor strings:
    [this.formatNumber(x)], [x.toFixed(2)] and the default conversion of a
    count to a string. *)
Variable formatNumber : number -> string.
Variable toFixed2 : number -> string.
Variable natToString : nat -> string.

Definition calculateDexRiskAssessment (primaryPair : TokenPair)
    (allPairs : list TokenPair) : DexRiskAssessment :=
  (* Total liquidity and 24h volume across all pairs *)
  let totalLiquidity := totalLiquidityOf allPairs in
  let totalVolume24h := totalVolume24hOf allPairs in
  (* Buy/sell ratio *)
  let totalBuys := totalBuysOf primaryPair in
  let totalSells := totalSellsOf primaryPair in
  let buyToSellRatio :=
    if totalSells >? 0 then totalBuys / totalSells
    else if totalBuys >? 0 then 2 else 1 in
  let priceChange24h := or_else (priceChange_h24 primaryPair) 0 in
  let redFlags := [] in
  let positiveIndicators := [] in
  (* Assess liquidity *)
  let '(liquidityScore, liquidityLevel, redFlags, positiveIndicators) :=
    if totalLiquidity <? 10000 then
      (90, Low,
       redFlags ++ ["Extremely low liquidity (<$10K) creates high vulnerability to price manipulation"%string],
       positiveIndicators)
    else if totalLiquidity <? 50000 then
      (70, Low,
       redFlags ++ ["Very low liquidity (<$50K) suggests high risk of price manipulation"%string],
       positiveIndicators)
    else if totalLiquidity <? 100000 then
      (60, Low,
       redFlags ++ ["Low liquidity (<$100K) may lead to high price impact on trades"%string],
       positiveIndicators)
    else if totalLiquidity <? 500000 then
      (50, Medium,
       redFlags ++ ["Moderate liquidity (<$500K) means larger trades will have notable price impact"%string],
       positiveIndicators)
    else if totalLiquidity <? 1000000 then
      (30, Medium, redFlags, positiveIndicators)
    else if totalLiquidity >=? 1000000 then
      (10, High, redFlags,
       positiveIndicators ++
         [("Strong liquidity of $" ++ formatNumber totalLiquidity ++ " reduces price impact risk")%string])
    else
      (0, Medium, redFlags, positiveIndicators) in
  (* Assess volume *)
  let '(redFlags, positiveIndicators) :=
    if totalVolume24h <? 1000 then
      (redFlags ++ ["Extremely low trading volume (<$1K) indicates limited market interest"%string],
       positiveIndicators)
    else if totalVolume24h <? 10000 then
      (redFlags ++ ["Very low trading volume (<$10K) suggests limited market activity"%string],
       positiveIndicators)
    else if totalVolume24h >? 1000000 then
      (redFlags,
       positiveIndicators ++
         [("High trading volume of $" ++ formatNumber totalVolume24h ++ " indicates strong market interest")%string])
    else (redFlags, positiveIndicators) in
  (* Assess volume to liquidity ratio *)
  let volumeToLiquidityRatio :=
    if totalLiquidity >? 0 then totalVolume24h / totalLiquidity else 0 in
  let '(redFlags, positiveIndicators) :=
    if volumeToLiquidityRatio <? 0.05 then
      (redFlags ++ ["Very low volume-to-liquidity ratio indicates stagnant trading"%string],
       positiveIndicators)
    else if volumeToLiquidityRatio >? 1 then
      (redFlags,
       positiveIndicators ++ ["Healthy volume-to-liquidity ratio indicates active trading"%string])
    else (redFlags, positiveIndicators) in
  (* Assess buy/sell ratio *)
  let '(redFlags, positiveIndicators) :=
    if buyToSellRatio <? 0.5 then
      (redFlags ++ ["Significantly more sells than buys in the last 24 hours"%string],
       positiveIndicators)
    else if buyToSellRatio >? 2 then
      (redFlags,
       positiveIndicators ++ ["More buys than sells in the last 24 hours"%string])
    else (redFlags, positiveIndicators) in
  (* Assess price change *)
  let '(redFlags, positiveIndicators) :=
    if priceChange24h <? -20 then
      (redFlags ++
         [("Sharp price decrease of " ++ toFixed2 priceChange24h ++ "% in the last 24 hours")%string],
       positiveIndicators)
    else if priceChange24h >? 50 then
      (redFlags ++
         [("Suspicious price increase of +" ++ toFixed2 priceChange24h ++ "% in the last 24 hours")%string],
       positiveIndicators)
    else if (priceChange24h >? 10) && (priceChange24h <? 50) then
      (redFlags,
       positiveIndicators ++
         [("Positive price movement of +" ++ toFixed2 priceChange24h ++ "% in the last 24 hours")%string])
    else (redFlags, positiveIndicators) in
  (* Assess number of pairs and DEXes *)
  let uniqueDexes := uniqueDexesOf allPairs in
  let positiveIndicators :=
    push_if (3 <? uniqueDexes)%nat
      ("Listed on " ++ natToString uniqueDexes ++ " different DEXes, suggesting wider adoption")%string
      positiveIndicators in
  (* Calculate overall risk score *)
  let riskScore := 50 in (* Start at medium risk *)
  (* Liquidity factor *)
  let riskScore := riskScore + liquidityScore in
  (* Volume factor *)
  let riskScore :=
    if totalVolume24h <? 1000 then riskScore + 20
    else if totalVolume24h <? 10000 then riskScore + 10
    else if totalVolume24h >? 1000000 then riskScore - 10
    else riskScore in
  (* Buy/sell ratio factor *)
  let riskScore :=
    if buyToSellRatio <? 0.5 then riskScore + 15
    else if buyToSellRatio >? 2 then riskScore - 10
    else riskScore in
  (* Price change factor *)
  let riskScore :=
    if priceChange24h <? -20 then riskScore + 10
    else if priceChange24h >? 50 then riskScore + 15
    else riskScore in
  (* Number of DEXes factor *)
  let riskScore := if (3 <? uniqueDexes)%nat then riskScore - 10 else riskScore in
  (* Ensure score is within bounds *)
  let riskScore := Math_max 0 (Math_min 100 riskScore) in
  (* Determine risk level *)
  let riskLevel :=
    if riskScore <? 40 then Low
    else if riskScore >? 70 then High
    else Medium in
  {| assessedSymbol := tokenSymbol (baseToken primaryPair);
     assessedName := tokenName (baseToken primaryPair);
     chain := chainId primaryPair;
     dex := dexId primaryPair;
     assessedPriceUsd := or_str (priceUsd primaryPair) None;
     liquidity := totalLiquidity;
     volume24h := totalVolume24h;
     assessedMarketCap := or_null (marketCap primaryPair);
     assessedFdv := or_null (fdv primaryPair);
     buyToSellRatio := buyToSellRatio;
     priceChange24h := priceChange24h;
     riskScore := riskScore;
     riskLevel := riskLevel;
     liquidityScore := liquidityScore;
     liquidityLevel := liquidityLevel;
     redFlags := redFlags;
     positiveIndicators := positiveIndicators;
     tokenUrl := url primaryPair |}.

End Formatting.

End Dex.

(** ** AggregationEngine: the analysis agent *)

Module Analysis.

Record HolderConcentration := {
  topHolderPercentage : number;
  top10Percentage : number
}.

Record BlockchainRiskData := {
  b_tokenAddress : string;
  b_riskScore : number;
  b_riskLevel : RiskLevel;
  b_isVerified : bool;
  b_contractName : option string;
  b_tokenSymbol : option string;
  b_holderConcentration : option HolderConcentration;
  b_riskFactors : list string
}.

Record SocialRiskData := {
  s_projectName : string;
  s_sentimentScore : number;
  s_riskLevel : RiskLevel;
  s_tweetCount : number;
  s_engagementLevel : RiskLevel;
  s_positiveCount : number;
  s_negativeCount : number;
  s_neutralCount : number;
  s_riskFactors : list string;
  s_positiveFactors : list string
}.

Record MarketRiskData := {
  m_symbol : string;
  m_name : string;
  m_priceUsd : number;
  m_marketCap : number;
  m_volume24h : number;
  m_priceChange24h : number;
  m_priceChange7d : number;
  m_volatility : number;
  m_liquidity : number;
  m_riskScore : number;
  m_riskLevel : RiskLevel;
  m_riskFactors : list string;
  m_positiveFactors : list string
}.

Record DexRiskData := {
  d_token : string;
  d_name : string;
  dex_risk_score : number;
  dex_risk_level : RiskLevel;
  d_liquidity : number;
  liquidity_level : RiskLevel;
  volume_24h : number;
  price_change_24h : number;
  red_flags : list string;
  positive_indicators : list string
}.

Record RiskComponent := {
  score : number;
  level : RiskLevel;
  keyIssues : list string;
  positiveFactorsOf : list string
}.

Record RiskBreakdown := {
  blockchain : number;
  social : number;
  market : number;
  dex : number
}.

Record ComprehensiveRiskAssessment := {
  projectName : string;
  tokenSymbol : string;
  tokenAddress : option string;
  overallRiskScore : number;
  overallRiskLevel : RiskLevel;
  blockchainRisk : option RiskComponent;
  socialRisk : option RiskComponent;
  marketRisk : option RiskComponent;
  dexRisk : option RiskComponent;
  riskBreakdown : RiskBreakdown;
  riskFactors : list string;
  positiveFactors : list string;
  analysisTime : string
}.

(** [a || b] where both are strings, [a] possibly missing. *)
Definition or_string (a : option string) (b : string) : string :=
  match a with
  | Some s => if truthy_str a then s else b
  | None => b
  end.

(** [xs.slice(0, n).forEach(factor => out.push(`[Tag] ${factor}`))]. *)
Definition push_tagged (tag : string) (n : nat) (xs out : list string) : list string :=
  out ++ map (fun factor => (tag ++ " " ++ factor)%string) (slice0 n xs).

(** [calculateComprehensiveRisk]; [now] is [new Date().toISOString()]. *)
Definition calculateComprehensiveRisk (now : string) (projectIdentifier : string)
    (blockchainData : option BlockchainRiskData)
    (socialData : option SocialRiskData)
    (marketData : option MarketRiskData)
    (dexData : option DexRiskData) : ComprehensiveRiskAssessment :=
  (* Extract project name and symbol *)
  let projectName :=
    or_string
      (or_str (or_str (or_str (option_map s_projectName socialData)
                              (option_map m_name marketData))
                      (match blockchainData with Some b => b_contractName b | None => None end))
              (option_map d_name dexData))
      projectIdentifier in
  let tokenSymbol :=
    or_string
      (or_str (or_str (option_map m_symbol marketData)
                      (match blockchainData with Some b => b_tokenSymbol b | None => None end))
              (option_map d_token dexData))
      projectIdentifier in
  (* Initialize risk breakdown *)
  let riskBreakdown := {| blockchain := 0; social := 0; market := 0; dex := 0 |} in
  (* Set individual risk scores and calculate weighted components *)
  let totalWeight := 0 in
  let weightedScore := 0 in
  (* Blockchain risk (35% weight when available) *)
  let '(riskBreakdown, weightedScore, totalWeight) :=
    match blockchainData with
    | Some b =>
        ({| blockchain := b_riskScore b; social := social riskBreakdown;
            market := market riskBreakdown; dex := dex riskBreakdown |},
         weightedScore + b_riskScore b * 0.35,
         totalWeight + 0.35)
    | None => (riskBreakdown, weightedScore, totalWeight)
    end in
  (* Social risk (20% weight when available) *)
  let '(riskBreakdown, weightedScore, totalWeight) :=
    match socialData with
    | Some sd =>
        (* Normalize sentiment score to 0-100 scale where 100 is highest risk *)
        let normalizedScore := (1 - (s_sentimentScore sd + 1) / 2) * 100 in
        ({| blockchain := blockchain riskBreakdown; social := normalizedScore;
            market := market riskBreakdown; dex := dex riskBreakdown |},
         weightedScore + normalizedScore * 0.2,
         totalWeight + 0.2)
    | None => (riskBreakdown, weightedScore, totalWeight)
    end in
  (* Market risk (25% weight when available) *)
  let '(riskBreakdown, weightedScore, totalWeight) :=
    match marketData with
    | Some md =>
        ({| blockchain := blockchain riskBreakdown; social := social riskBreakdown;
            market := m_riskScore md; dex := dex riskBreakdown |},
         weightedScore + m_riskScore md * 0.25,
         totalWeight + 0.25)
    | None => (riskBreakdown, weightedScore, totalWeight)
    end in
  (* DEX risk (20% weight when available) *)
  let '(riskBreakdown, weightedScore, totalWeight) :=
    match dexData with
    | Some dd =>
        ({| blockchain := blockchain riskBreakdown; social := social riskBreakdown;
            market := market riskBreakdown; dex := dex_risk_score dd |},
         weightedScore + dex_risk_score dd * 0.2,
         totalWeight + 0.2)
    | None => (riskBreakdown, weightedScore, totalWeight)
    end in
  (* Overall risk score (normalized by total weight) *)
  let overallRiskScore :=
    if totalWeight >? 0 then Math_round (weightedScore / totalWeight) else 50 in
  (* Overall risk level *)
  let overallRiskLevel :=
    if overallRiskScore <? 40 then Low
    else if overallRiskScore >? 70 then High
    else Medium in
  (* Compile risk factors and positive factors *)
  let riskFactors := [] in
  let positiveFactors := [] in
  let riskFactors :=
    match blockchainData with
    | Some b => push_tagged "[Blockchain]" 3 (b_riskFactors b) riskFactors
    | None => riskFactors
    end in
  let '(riskFactors, positiveFactors) :=
    match socialData with
    | Some sd => (push_tagged "[Social]" 2 (s_riskFactors sd) riskFactors,
                  push_tagged "[Social]" 2 (s_positiveFactors sd) positiveFactors)
    | None => (riskFactors, positiveFactors)
    end in
  let '(riskFactors, positiveFactors) :=
    match marketData with
    | Some md => (push_tagged "[Market]" 2 (m_riskFactors md) riskFactors,
                  push_tagged "[Market]" 2 (m_positiveFactors md) positiveFactors)
    | None => (riskFactors, positiveFactors)
    end in
  let '(riskFactors, positiveFactors) :=
    match dexData with
    | Some dd => (push_tagged "[DEX]" 2 (red_flags dd) riskFactors,
                  push_tagged "[DEX]" 2 (positive_indicators dd) positiveFactors)
    | None => (riskFactors, positiveFactors)
    end in
  {| projectName := projectName;
     tokenSymbol := tokenSymbol;
     (* Add token address if available *)
     tokenAddress :=
       match blockchainData with
       | Some b => if truthy_str (Some (b_tokenAddress b)) then Some (b_tokenAddress b) else None
       | None => None
       end;
     overallRiskScore := overallRiskScore;
     overallRiskLevel := overallRiskLevel;
     (* Add detailed risk components if available *)
     blockchainRisk :=
       option_map (fun b => {| score := b_riskScore b; level := b_riskLevel b;
                               keyIssues := slice0 3 (b_riskFactors b);
                               positiveFactorsOf := [] |}) blockchainData;
     socialRisk :=
       option_map (fun sd => {| score := social riskBreakdown; level := s_riskLevel sd;
                                keyIssues := slice0 3 (s_riskFactors sd);
                                positiveFactorsOf := slice0 3 (s_positiveFactors sd) |}) socialData;
     marketRisk :=
       option_map (fun md => {| score := m_riskScore md; level := m_riskLevel md;
                                keyIssues := slice0 3 (m_riskFactors md);
                                positiveFactorsOf := slice0 3 (m_positiveFactors md) |}) marketData;
     dexRisk :=
       option_map (fun dd => {| score := dex_risk_score dd; level := dex_risk_level dd;
                                keyIssues := slice0 3 (red_flags dd);
                                positiveFactorsOf := slice0 3 (positive_indicators dd) |}) dexData;
     riskBreakdown := riskBreakdown;
     riskFactors := riskFactors;
     positiveFactors := positiveFactors;
     analysisTime := now |}.

(** *** The aggregation as the specification words it *)

Inductive Category := CBlockchain | CSocial | CMarket | CDex.

(** The fixed per-category weights. *)
Definition weight (c : Category) : number :=
  match c with
  | CBlockchain => 0.35
  | CSocial => 0.2
  | CMarket => 0.25
  | CDex => 0.2
  end.

(** The score a present category enters the mean with: the scorer's risk
    score, and for the social category the sentiment score brought onto the
    0-100 scale. *)
Definition categoryScore (c : Category)
    (blockchainData : option BlockchainRiskData) (socialData : option SocialRiskData)
    (marketData : option MarketRiskData) (dexData : option DexRiskData) : option number :=
  match c with
  | CBlockchain => option_map b_riskScore blockchainData
  | CSocial => option_map (fun sd => (1 - (s_sentimentScore sd + 1) / 2) * 100) socialData
  | CMarket => option_map m_riskScore marketData
  | CDex => option_map dex_risk_score dexData
  end.

(** A category's entry in the breakdown and its detail component. *)
Definition breakdownOf (c : Category) (r : RiskBreakdown) : number :=
  match c with
  | CBlockchain => blockchain r
  | CSocial => social r
  | CMarket => market r
  | CDex => dex r
  end.

Definition componentOf (c : Category) (a : ComprehensiveRiskAssessment) : option RiskComponent :=
  match c with
  | CBlockchain => blockchainRisk a
  | CSocial => socialRisk a
  | CMarket => marketRisk a
  | CDex => dexRisk a
  end.

(** The present categories with their scores, in the fixed order. *)
Definition present
    (blockchainData : option BlockchainRiskData) (socialData : option SocialRiskData)
    (marketData : option MarketRiskData) (dexData : option DexRiskData)
    : list (Category * number) :=
  flat_map (fun c => match categoryScore c blockchainData socialData marketData dexData with
                     | Some sc => [(c, sc)]
                     | None => []
                     end)
           [CBlockchain; CSocial; CMarket; CDex].

(** The renormalized weighted mean as the engine computes it, in binary64:
    [Math.round(weightedScore / totalWeight)], the sums taken in the fixed
    category order. *)
Definition renormalizedWeightedMean (signals : list (Category * number)) : number :=
  Math_round
    (fold_left (fun sum cs => sum + snd cs * weight (fst cs)) signals 0
     / fold_left (fun sum cs => sum + weight (fst cs)) signals 0).

(** *** The aggregation in exact arithmetic *)

(** The weights as the specification gives them. *)
Definition exactWeight (c : Category) : Q :=
  match c with
  | CBlockchain => 35 # 100
  | CSocial => 20 # 100
  | CMarket => 25 # 100
  | CDex => 20 # 100
  end.

(** The score of a present category as a rational: the scorer's risk
    score, and for the social category the engine's own normalisation
    [(1 - (sentiment + 1) / 2) * 100] of the sentiment score (not the
    rounded score of the sentiment scorer). *)
Definition exactScore (c : Category)
    (blockchainData : option BlockchainRiskData) (socialData : option SocialRiskData)
    (marketData : option MarketRiskData) (dexData : option DexRiskData) : option Q :=
  match c with
  | CBlockchain => option_map (fun b => valueOf (b_riskScore b)) blockchainData
  | CSocial =>
      option_map (fun sd => ((1 - (valueOf (s_sentimentScore sd) + 1) / 2) * 100)%Q)
                 socialData
  | CMarket => option_map (fun md => valueOf (m_riskScore md)) marketData
  | CDex => option_map (fun dd => valueOf (dex_risk_score dd)) dexData
  end.

Definition exactPresent
    (blockchainData : option BlockchainRiskData) (socialData : option SocialRiskData)
    (marketData : option MarketRiskData) (dexData : option DexRiskData)
    : list (Category * Q) :=
  flat_map (fun c => match exactScore c blockchainData socialData marketData dexData with
                     | Some sc => [(c, sc)]
                     | None => []
                     end)
           [CBlockchain; CSocial; CMarket; CDex].

(** Modelled on the specification's formula, in exact arithmetic:
    [sum_{c in present} weight[c]*score[c] / sum_{c in present} weight[c]],
    the value that [overall] rounds. *)
Definition exactMean (signals : list (Category * Q)) : Q :=
  (fold_right (fun cs acc => exactWeight (fst cs) * snd cs + acc) 0 signals
   / fold_right (fun cs acc => exactWeight (fst cs) + acc) 0 signals)%Q.

(** [lo <= x && x <= hi]. *)
Definition inRange (lo hi x : float) : bool := (lo <=? x) && (x <=? hi).

(** The inputs the specification describes: every scorer's score in
    [0, 100] and the sentiment score in [-1, 1]. *)
Definition scoresInRange
    (blockchainData : option BlockchainRiskData) (socialData : option SocialRiskData)
    (marketData : option MarketRiskData) (dexData : option DexRiskData) : bool :=
  match blockchainData with Some b => inRange 0 100 (b_riskScore b) | None => true end
  && match socialData with Some sd => inRange (-1) 1 (s_sentimentScore sd) | None => true end
  && match marketData with Some md => inRange 0 100 (m_riskScore md) | None => true end
  && match dexData with Some dd => inRange 0 100 (dex_risk_score dd) | None => true end.

End Analysis.

(** ** Sample inputs *)

Module Samples.

Definition analysisTime : string := "2025-01-01T00:00:00.000Z".

Definition marketData : Analysis.MarketRiskData :=
  {| Analysis.m_symbol := "TKN"; Analysis.m_name := "Token";
     Analysis.m_priceUsd := 1.5; Analysis.m_marketCap := 500000000;
     Analysis.m_volume24h := 40000000; Analysis.m_priceChange24h := 1;
     Analysis.m_priceChange7d := 2; Analysis.m_volatility := 3;
     Analysis.m_liquidity := 8; Analysis.m_riskScore := 60;
     Analysis.m_riskLevel := Medium;
     Analysis.m_riskFactors := ["Very low market cap ranking"%string];
     Analysis.m_positiveFactors := [] |}.

Definition socialData : Analysis.SocialRiskData :=
  {| Analysis.s_projectName := "Token"; Analysis.s_sentimentScore := 0.25;
     Analysis.s_riskLevel := Low; Analysis.s_tweetCount := 12;
     Analysis.s_engagementLevel := Medium; Analysis.s_positiveCount := 6;
     Analysis.s_negativeCount := 2; Analysis.s_neutralCount := 4;
     Analysis.s_riskFactors := []; Analysis.s_positiveFactors := [] |}.

(** An unverified contract for which every Etherscan call failed:
    [getContractInfo] and [getTokenInfo] both returned [{}]. *)
Definition unknownContract : Blockchain.ContractInfo :=
  {| Blockchain.contractName := None; Blockchain.createdTimestamp := None;
     Blockchain.implementation := None; Blockchain.sourceCode := None |}.

Definition unknownToken : Blockchain.TokenInfo :=
  {| Blockchain.tokenName := None; Blockchain.symbol := None |}.

(** 2025-01-01T00:00:00Z in milliseconds, and a contract created a year
    before (2024-01-01T00:00:00Z, in seconds). *)
Definition nowMs : number := 1735689600000.

Definition oldContract : Blockchain.ContractInfo :=
  {| Blockchain.contractName := None; Blockchain.createdTimestamp := Some 1704067200;
     Blockchain.implementation := None; Blockchain.sourceCode := None |}.

Definition namedToken : Blockchain.TokenInfo :=
  {| Blockchain.tokenName := Some "Token"%string; Blockchain.symbol := Some "TKN"%string |}.

(** A coin ranked 1500 whose other factors are all in their neutral tier:
    market cap $500M, volume/market-cap 0.08, 50% below the all-time high,
    and a price series of volatility about 0.03. *)
Definition coinRank (rank : number) : Market.CoinData :=
  {| Market.id := "token"; Market.symbol := "tkn"; Market.name := "Token";
     Market.current_price := 1.5; Market.market_cap := 500000000;
     Market.market_cap_rank := rank; Market.total_volume := 40000000;
     Market.price_change_24h := 0.01; Market.price_change_percentage_24h := 1;
     Market.ath_change_percentage := -50;
     Market.last_updated := "2025-01-01T00:00:00.000Z" |}.

Definition priceHistory : option (list (number * number)) :=
  Some [(1, 100); (2, 103); (3, 100); (4, 103); (5, 100)].

(** The pair of the trading-pattern example: 100 buys, 10 sells, volume
    $100,000, liquidity $1,000,000. *)
Definition token (sym : string) : Dex.Token :=
  {| Dex.tokenAddress := "0x0"; Dex.tokenName := sym; Dex.tokenSymbol := sym |}.

Definition pairOf (dexId : string) (liquidityUsd volumeH24 : option number)
    (txns : option Dex.Txns) : Dex.TokenPair :=
  {| Dex.chainId := "ethereum"; Dex.dexId := dexId; Dex.url := "";
     Dex.pairAddress := "0x1"; Dex.baseToken := token "TKN";
     Dex.quoteToken := token "WETH"; Dex.priceUsd := None;
     Dex.liquidity_usd := liquidityUsd; Dex.volume_h24 := volumeH24;
     Dex.priceChange_h24 := None; Dex.txns_h24 := txns;
     Dex.fdv := None; Dex.marketCap := None |}.

Definition imbalancedPair : Dex.TokenPair :=
  pairOf "uniswap" (Some 1000000) (Some 100000)
         (Some {| Dex.buys := Some 100; Dex.sells := Some 10 |}).

(** Four pairs on four venues, in the order the caller's sort by
    liquidity leaves them; the liquidity figures of the first and the last
    are [Infinity] and [-Infinity] (what [JSON.parse] makes of [1e999] and
    [-1e999]), so that the sum is NaN. *)
Definition nanLiquidityPrimary : Dex.TokenPair :=
  pairOf "uniswap" (Some infinity) (Some 2000000)
         (Some {| Dex.buys := Some 30; Dex.sells := Some 10 |}).

Definition nanLiquidityPairs : list Dex.TokenPair :=
  [ nanLiquidityPrimary;
    pairOf "pancakeswap" None None None;
    pairOf "curve" None None None;
    pairOf "sushiswap" (Some neg_infinity) None None ].

(** Stand-ins for the number formatting inside the factor strings. *)
Definition formatNumber (x : number) : string := "1.00M".
Definition toFixed2 (x : number) : string := "0.00".
Definition natToString (n : nat) : string := "4".

(** Three tweets with sentiment scores 0.5, 0 and 0.25. *)
Definition tweetScored (sentiment : Social.Sentiment) (score : number)
    : Social.TwitterSentimentAnalysis :=
  {| Social.tweet :=
       {| Social.id := "1"; Social.text := "";
          Social.public_metrics :=
            {| Social.retweet_count := 1; Social.reply_count := 0;
               Social.like_count := 3 |} |};
     Social.sentiment := sentiment; Social.sentimentScore := score |}.

Definition tweets : list Social.TwitterSentimentAnalysis :=
  [tweetScored Social.positive 0.5; tweetScored Social.neutral 0;
   tweetScored Social.positive 0.25].

End Samples.

(** ** Strings *)

Module Str.

(** [s.includes(sub)]. *)
Fixpoint includes (s sub : string) : bool :=
  if prefix sub s then true
  else match s with
       | EmptyString => false
       | String _ rest => includes rest sub
       end.

(** [s.startsWith(sub)]. *)
Definition startsWith (s sub : string) : bool := prefix sub s.

(** [keywords.some(keyword => s.includes(keyword))]. *)
Definition includesSome (s : string) (keywords : list string) : bool :=
  existsb (fun keyword => includes s keyword) keywords.

(** Whether the character [c] occurs in [s]. *)
Fixpoint occurs (c : Ascii.ascii) (s : string) : bool :=
  match s with
  | EmptyString => false
  | String d rest => Ascii.eqb c d || occurs c rest
  end.

End Str.

(** ** The analysis agent around the engine *)

Module AnalysisAgent.

Import Analysis.

(** The factors one source contributes: its first [n] factors, each behind
    the source's tag; nothing when the source is absent. *)
Definition tagged (tag : string) (n : nat) (factors : option (list string)) : list string :=
  match factors with
  | Some xs => map (fun factor => (tag ++ " " ++ factor)%string) (slice0 n xs)
  | None => []
  end.

(** [callAgentCapability]: the simulated call, which returns [null]. *)
Definition callAgentCapability (agentName capabilityName tokenIdentifier : string)
    : option string := None.

Section Fetch.

(** [JSON.parse] of an agent's response into each of the four data
    records; [None] when it throws or yields [null]. *)
Variable parseBlockchain : string -> option BlockchainRiskData.
Variable parseSocial : string -> option SocialRiskData.
Variable parseMarket : string -> option MarketRiskData.
Variable parseDex : string -> option DexRiskData.

(** [getBlockchainRiskData]: only a 42-character identifier that starts
    with 0x is looked up. *)
Definition getBlockchainRiskData (projectIdentifier : string) : option BlockchainRiskData :=
  let isAddress := Str.startsWith projectIdentifier "0x"
                   && (String.length projectIdentifier =? 42)%nat in
  if negb isAddress then None
  else match callAgentCapability "BlockchainAgent" "assessBlockchainRisk" projectIdentifier with
       | None => None
       | Some response => parseBlockchain response
       end.

Definition getSocialRiskData (projectIdentifier : string) : option SocialRiskData :=
  match callAgentCapability "SocialMediaAgent" "analyzeSentiment" projectIdentifier with
  | None => None
  | Some response => parseSocial response
  end.

Definition getMarketRiskData (projectIdentifier : string) : option MarketRiskData :=
  match callAgentCapability "MarketAnalysisAgent" "analyzeMarketRisk" projectIdentifier with
  | None => None
  | Some response => parseMarket response
  end.

Definition getDexRiskData (projectIdentifier : string) : option DexRiskData :=
  match callAgentCapability "DexScreenerAgent" "assessDexRisk" projectIdentifier with
  | None => None
  | Some response => parseDex response
  end.

(** The body of the [performRiskAssessment] capability once the four
    sources have answered: an error object when all four are null, the
    assessment otherwise. *)
Definition assessFetched (now projectIdentifier : string)
    (blockchainData : option BlockchainRiskData) (socialData : option SocialRiskData)
    (marketData : option MarketRiskData) (dexData : option DexRiskData)
    : string + ComprehensiveRiskAssessment :=
  match blockchainData, socialData, marketData, dexData with
  | None, None, None, None =>
      inl ("Insufficient data available for " ++ projectIdentifier)%string
  | _, _, _, _ =>
      inr (calculateComprehensiveRisk now projectIdentifier
             blockchainData socialData marketData dexData)
  end.

(** The [performRiskAssessment] capability. *)
Definition performRiskAssessment (now projectIdentifier : string)
    : string + ComprehensiveRiskAssessment :=
  let blockchainData := getBlockchainRiskData projectIdentifier in
  let socialData := getSocialRiskData projectIdentifier in
  let marketData := getMarketRiskData projectIdentifier in
  let dexData := getDexRiskData projectIdentifier in
  assessFetched now projectIdentifier blockchainData socialData marketData dexData.

End Fetch.


(** [xs.forEach(factor => out.push(`[Tag] ${factor}`))]. *)
Definition push_all_tagged (tag : string) (xs out : list string) : list string :=
  out ++ map (fun factor => (tag ++ " " ++ factor)%string) xs.


End AnalysisAgent.

(** ** The coordinator agent: routing of a chat message *)

Module Coordinator.

Record ChatMessage := {
  author : string;
  message : string
}.

(** The handler a message is passed to. *)
Inductive Handler :=
  | BlockchainAnalysis | SocialMediaAnalysis | MarketAnalysis
  | RiskAssessment | DefaultResponse.

(** What [respondToChat] does: it throws (the message list is empty and
    [latestMessage] is undefined), returns without a response, or hands
    the message to a handler. *)
Inductive Outcome := Throws | NoResponse | Handled (h : Handler).

Definition blockchainKeywords : list string :=
  ["blockchain analysis"; "on-chain"; "contract"; "token"; "smart contract";
   "verify contract"; "blockchain agent"; "token holders"; "eth"; "ethereum"]%string.

Definition socialKeywords : list string :=
  ["social media"; "twitter"; "sentiment"; "social"; "community";
   "tweets"; "social sentiment"; "twitter sentiment"; "social analysis"]%string.

Definition marketKeywords : list string :=
  ["market analysis"; "price"; "trading"; "volume"; "liquidity";
   "volatility"; "market cap"; "price trend"; "price history";
   "market data"; "chart"; "market performance"]%string.

Definition riskKeywords : list string :=
  ["risk assessment"; "full analysis"; "comprehensive analysis";
   "risk profile"; "analyze project"; "assess risk"; "complete assessment"]%string.

Section Routing.

(** [String.prototype.toLowerCase]. *)
Variable toLowerCase : string -> string.

Definition isFullRiskAssessmentRequest (message : string) : bool :=
  Str.includesSome (toLowerCase message) riskKeywords.

Definition isBlockchainAnalysisRequest (message : string) : bool :=
  Str.includesSome (toLowerCase message) blockchainKeywords
  && negb (isFullRiskAssessmentRequest message).

Definition isSocialMediaAnalysisRequest (message : string) : bool :=
  Str.includesSome (toLowerCase message) socialKeywords
  && negb (isFullRiskAssessmentRequest message).

Definition isMarketAnalysisRequest (message : string) : bool :=
  Str.includesSome (toLowerCase message) marketKeywords
  && negb (isFullRiskAssessmentRequest message).

Definition isRiskAssessmentRequest (message : string) : bool :=
  isFullRiskAssessmentRequest message
  || Str.includes (toLowerCase message) "analyze"
  || Str.includes (toLowerCase message) "assessment"
  || Str.includes (toLowerCase message) "evaluate"
  || Str.includes (toLowerCase message) "cryptocurrency".

Definition respondToChat (messages : list ChatMessage) : Outcome :=
  match last (map Some messages) None with
  | None => Throws
  | Some latestMessage =>
      if negb (String.eqb (author latestMessage) "user") then NoResponse
      else
        let messageText := message latestMessage in
        if isBlockchainAnalysisRequest messageText then Handled BlockchainAnalysis
        else if isSocialMediaAnalysisRequest messageText then Handled SocialMediaAnalysis
        else if isMarketAnalysisRequest messageText then Handled MarketAnalysis
        else if isRiskAssessmentRequest messageText then Handled RiskAssessment
        else Handled DefaultResponse
  end.

End Routing.

End Coordinator.

(** ** The blockchain agent around the score *)

Module BlockchainAgent.

Import Blockchain.

(** The catalogue [securityPatterns] the agent is constructed with. *)
Definition securityPatterns : list SecurityPattern :=
  [ {| name := "Owner privileges";
       description := "Contract has functions that only the owner can call, potentially allowing centralized control";
       severity := SevMedium; found := false |};
    {| name := "Hidden minting";
       description := "Contract allows the creation of new tokens without clear limits";
       severity := SevHigh; found := false |};
    {| name := "Fee manipulation";
       description := "Contract fees can be changed by admin/owner after deployment";
       severity := SevMedium; found := false |};
    {| name := "Proxy pattern";
       description := "Contract uses upgradable proxy pattern allowing logic to be changed";
       severity := SevMedium; found := false |};
    {| name := "Transfer restrictions";
       description := "Contract contains functions that can freeze or restrict token transfers";
       severity := SevMedium; found := false |} ].

Definition setFound (pattern : SecurityPattern) (flag : bool) : SecurityPattern :=
  {| name := name pattern; description := description pattern;
     severity := severity pattern; found := flag |}.

(** The body of the [forEach]: the [switch] on the pattern name, which
    assigns [pattern.found]. *)
Definition checkPattern (sourceCode : string) (pattern : SecurityPattern) : SecurityPattern :=
  if String.eqb (name pattern) "Owner privileges" then
    setFound pattern
      (Str.includes sourceCode "onlyOwner"
       || Str.includes sourceCode "require(msg.sender == owner"
       || Str.includes sourceCode "require(owner == msg.sender")
  else if String.eqb (name pattern) "Hidden minting" then
    setFound pattern
      ((Str.includes sourceCode "mint" && negb (Str.includes sourceCode "totalSupply"))
       || (Str.includes sourceCode "_mint(" && Str.includes sourceCode "onlyOwner"))
  else if String.eqb (name pattern) "Fee manipulation" then
    setFound pattern
      (Str.includes sourceCode "setFee"
       || Str.includes sourceCode "changeFee"
       || Str.includes sourceCode "updateFee")
  else if String.eqb (name pattern) "Proxy pattern" then
    setFound pattern
      (Str.includes sourceCode "delegatecall"
       || Str.includes sourceCode "upgradeability"
       || Str.includes sourceCode "Proxy")
  else if String.eqb (name pattern) "Transfer restrictions" then
    setFound pattern
      (Str.includes sourceCode "pausable"
       || Str.includes sourceCode "blacklist"
       || Str.includes sourceCode "freeze")
  else pattern.

(** [analyzeContractCode].  The copy [[...this.securityPatterns]] shares
    the pattern objects with the agent, so the assignments to [found]
    change the agent's catalogue: the function takes the catalogue as it
    stands and returns, with the patterns found, the catalogue it leaves. *)
Definition analyzeContractCode (catalogue : list SecurityPattern) (sourceCode : string)
    : list SecurityPattern * list SecurityPattern :=
  let patterns := map (checkPattern sourceCode) catalogue in
  (filter found patterns, patterns).

(** A catalogue that differs from the initial one in the [found] flags
    only. *)
Definition sameCatalogue (catalogue : list SecurityPattern) : Prop :=
  map (fun p => (name p, description p, severity p)) catalogue
  = map (fun p => (name p, description p, severity p)) securityPatterns.

(** [getMockTokenHolders]: the holders [getTokenHolders] falls back to
    without an API key, on an unexpected response and on any error. *)
Definition getMockTokenHolders : list TokenHolder :=
  [ {| address := "0x123..."; balance := "1000000000000000000000000"; percentage := 25 |};
    {| address := "0x456..."; balance := "500000000000000000000000"; percentage := 12.5 |};
    {| address := "0x789..."; balance := "300000000000000000000000"; percentage := 7.5 |};
    {| address := "0xabc..."; balance := "200000000000000000000000"; percentage := 5 |};
    {| address := "0xdef..."; balance := "200000000000000000000000"; percentage := 5 |};
    {| address := "0x111..."; balance := "100000000000000000000000"; percentage := 2.5 |};
    {| address := "0x222..."; balance := "100000000000000000000000"; percentage := 2.5 |};
    {| address := "0x333..."; balance := "100000000000000000000000"; percentage := 2.5 |};
    {| address := "0x444..."; balance := "100000000000000000000000"; percentage := 2.5 |};
    {| address := "0x555..."; balance := "100000000000000000000000"; percentage := 2.5 |};
    (* Rest of holders with small balances *)
    {| address := "Others"; balance := "1300000000000000000000000"; percentage := 32.5 |} ].

Definition push_if (c : bool) (msg : string) (xs : list string) : list string :=
  if c then xs ++ [msg] else xs.

Section Conversions.

(** The conversion of a number to a string inside a template literal;
    [parseInt] on a timestamp string; and
    [parseFloat(ethers.formatEther(value))], [None] when [formatEther]
    throws. *)
Variable numberToString : number -> string.
Variable parseIntOf : string -> number.
Variable etherOf : string -> option number.

(** The [filter] of [identifyRiskFactors]: the transactions after
    [recentTime] that move more than 100 ether; [None] when a value cannot
    be formatted. *)
Fixpoint largeRecentTransactions (recentTime : number) (transactions : list Transaction)
    : option (list Transaction) :=
  match transactions with
  | [] => Some []
  | tx :: rest =>
      if parseIntOf (timeStamp tx) >? recentTime then
        match etherOf (value tx) with
        | None => None
        | Some amount =>
            match largeRecentTransactions recentTime rest with
            | None => None
            | Some large => Some (if amount >? 100 then tx :: large else large)
            end
        end
      else largeRecentTransactions recentTime rest
  end.

(** [identifyRiskFactors]; [now] is [new Date()] and [dateNow] is
    [Date.now()], both in milliseconds.  [None] when it throws. *)
Definition identifyRiskFactors (now dateNow : number)
    (isVerified : bool) (contractInfo : ContractInfo) (tokenInfo : TokenInfo)
    (holderDistribution : list TokenHolder)
    (transactionHistory : list Transaction)
    (securityPatterns : list SecurityPattern) : option (list string) :=
  let riskFactors := [] in
  (* Contract verification *)
  let riskFactors := push_if (negb isVerified)
    "❌ **CRITICAL RISK:** Contract source code is not verified on Etherscan, making it impossible to audit the code for vulnerabilities"
    riskFactors in
  (* Proxy contract *)
  let riskFactors := push_if (truthy_str (implementation contractInfo))
    "⚠️ **HIGH RISK:** This is a proxy contract. The implementation can be changed by the admin at any time, potentially altering token behavior"
    riskFactors in
  (* Token information *)
  let riskFactors :=
    push_if (negb (truthy_str (tokenName tokenInfo)) || negb (truthy_str (symbol tokenInfo)))
    "⚠️ **MEDIUM RISK:** Token lacks basic information (name or symbol), which is unusual for legitimate projects"
    riskFactors in
  (* Contract age *)
  let riskFactors :=
    match createdTimestamp contractInfo with
    | Some ts =>
        let ageInDays := ageInDaysAt now ts in
        push_if (ageInDays <? 30)
          ("⚠️ **MEDIUM RISK:** Contract is very new (" ++ numberToString ageInDays
           ++ " days old), which may indicate higher risk")%string
          riskFactors
    | None => riskFactors
    end in
  (* Holder concentration *)
  let m := calculateConcentrationMetrics holderDistribution in
  let riskFactors :=
    if topHolderPercentage m >? 50 then
      riskFactors ++
        [("❌ **CRITICAL RISK:** Extreme concentration of tokens ("
          ++ numberToString (topHolderPercentage m) ++ "%) in a single wallet")%string]
    else if topHolderPercentage m >? 20 then
      riskFactors ++
        [("⚠️ **HIGH RISK:** High concentration of tokens ("
          ++ numberToString (topHolderPercentage m) ++ "%) in a single wallet")%string]
    else riskFactors in
  let riskFactors := push_if (top10Percentage m >? 80)
    ("⚠️ **HIGH RISK:** Top 10 holders control " ++ numberToString (top10Percentage m)
     ++ "% of the tokens, indicating high centralization")%string
    riskFactors in
  (* Security patterns *)
  let riskFactors :=
    fold_left (fun riskFactors pattern =>
                 match severity pattern with
                 | SevHigh =>
                     riskFactors ++
                       [("❌ **CRITICAL RISK:** " ++ name pattern ++ " - "
                         ++ description pattern)%string]
                 | SevMedium =>
                     riskFactors ++
                       [("⚠️ **MEDIUM RISK:** " ++ name pattern ++ " - "
                         ++ description pattern)%string]
                 | _ => riskFactors
                 end) securityPatterns riskFactors in
  (* Transaction analysis *)
  match transactionHistory with
  | [] => Some riskFactors
  | _ =>
      let recentTime := Math_floor (dateNow / 1000) - (24 * 60 * 60) in
      match largeRecentTransactions recentTime transactionHistory with
      | None => None
      | Some large =>
          Some (push_if (5 <? List.length large)%nat
                  "⚠️ **MEDIUM RISK:** Unusual number of large transactions in past 24 hours"
                  riskFactors)
      end
  end.

(** What the [assessBlockchainRisk] capability returns. *)
Record BlockchainRiskReport := {
  r_tokenAddress : string;
  r_riskScore : number;
  r_riskLevel : RiskLevel;
  r_riskFactors : list string;
  r_isVerified : bool;
  r_contractName : option string;
  r_tokenSymbol : option string;
  r_holderConcentration : ConcentrationMetrics
}.

(** The security analysis both callers run: only on a verified contract
    whose source code is at hand. *)
Definition securityAnalysisOf (catalogue : list SecurityPattern)
    (isVerified : bool) (contractInfo : ContractInfo) : list SecurityPattern :=
  match sourceCode contractInfo with
  | Some code =>
      if isVerified && truthy_str (Some code)
      then fst (analyzeContractCode catalogue code) else []
  | None => []
  end.

(** The [assessBlockchainRisk] capability once the data is fetched;
    [nowScore] and [nowFactors] are the two readings of [new Date()] and
    [dateNow] that of [Date.now()].  [None] when it throws. *)
Definition assessBlockchainRisk (nowScore nowFactors dateNow : number)
    (catalogue : list SecurityPattern) (tokenAddress : string)
    (isVerified : bool) (contractInfo : ContractInfo) (tokenInfo : TokenInfo)
    (holderDistribution : list TokenHolder) (transactionHistory : list Transaction)
    : option BlockchainRiskReport :=
  let securityAnalysis := securityAnalysisOf catalogue isVerified contractInfo in
  let riskScore := calculateBlockchainRiskScore nowScore isVerified contractInfo tokenInfo
                     holderDistribution transactionHistory securityAnalysis in
  match identifyRiskFactors nowFactors dateNow isVerified contractInfo tokenInfo
          holderDistribution transactionHistory securityAnalysis with
  | None => None
  | Some riskFactors =>
      Some {| r_tokenAddress := tokenAddress;
              r_riskScore := riskScore;
              r_riskLevel := riskLevel riskScore;
              r_riskFactors := riskFactors;
              r_isVerified := isVerified;
              r_contractName := or_str (contractName contractInfo) (tokenName tokenInfo);
              r_tokenSymbol := symbol tokenInfo;
              r_holderConcentration := calculateConcentrationMetrics holderDistribution |}
  end.

End Conversions.

(** The factor a found pattern is reported with, if any. *)
Definition factorOf (pattern : SecurityPattern) : option string :=
  match severity pattern with
  | SevHigh =>
      Some ("❌ **CRITICAL RISK:** " ++ name pattern ++ " - "
            ++ description pattern)%string
  | SevMedium =>
      Some ("⚠️ **MEDIUM RISK:** " ++ name pattern ++ " - "
            ++ description pattern)%string
  | _ => None
  end.

(** The array [generateRecommendations] joins with newlines. *)
Definition generateRecommendations (isVerified : bool) (riskFactors : list string)
    (riskScore : number) : list string :=
  let recommendations := [] in
  let recommendations := push_if (negb isVerified)
    "⚠️ **DO NOT INVEST** without verifying the contract source code."
    recommendations in
  let recommendations :=
    if riskScore >=? 70 then
      recommendations ++
        ["⚠️ **AVOID** investing in this token due to high risk indicators."%string]
    else if riskScore >=? 40 then
      recommendations ++
        ["⚠️ **CAUTION** recommended - further research and small position sizes advised if investing."%string]
    else
      recommendations ++
        ["✅ Blockchain indicators appear favorable, but always do additional research."%string] in
  let recommendations :=
    push_if (existsb (fun factor => Str.includes factor "concentration") riskFactors)
    "⚠️ Consider the high token concentration when evaluating potential price manipulation risks."
    recommendations in
  let recommendations :=
    push_if (existsb (fun factor => Str.includes factor "Proxy") riskFactors)
    "⚠️ Monitor announcements for contract upgrades as the contract logic can change."
    recommendations in
  recommendations.

(** The recommendations of a report, as [analyzeTokenAddress] asks for
    them. *)
Definition recommendationsOf (report : BlockchainRiskReport) : list string :=
  generateRecommendations (r_isVerified report) (r_riskFactors report)
    (r_riskScore report).

End BlockchainAgent.

(** ** The DEX agent: recommendations *)

Module DexAgent.

Import Dex.

(** The array [generateDexRecommendations] joins with newlines. *)
Definition generateDexRecommendations (assessment : DexRiskAssessment) : list string :=
  let recommendations := [] in
  let recommendations :=
    match riskLevel assessment with
    | High =>
        recommendations ++
          ["⚠️ **HIGH DEX RISK DETECTED** - Consider this a highly speculative investment with significant potential for loss due to liquidity and trading issues."%string]
    | Medium =>
        recommendations ++
          ["⚠️ **MODERATE DEX RISK** - Exercise caution and limit position size due to potential liquidity constraints."%string]
    | Low =>
        recommendations ++
          ["✅ **FAVORABLE DEX METRICS** - Trading data suggests adequate liquidity and market activity."%string]
    end in
  let recommendations :=
    push_if (match liquidityLevel assessment with Low => true | _ => false end)
      "⚠️ Use limit orders and small position sizes to minimize price impact and slippage."
      recommendations in
  let recommendations :=
    push_if ((volume24h assessment <? 10000) && (liquidity assessment <? 100000))
      "⚠️ Low volume and liquidity combination make this token vulnerable to market manipulation."
      recommendations in
  let recommendations :=
    push_if (buyToSellRatio assessment <? 0.7)
      "⚠️ Selling pressure exceeds buying pressure, which may indicate a downward price trend."
      recommendations in
  let recommendations :=
    push_if (2 <? List.length (redFlags assessment))%nat
      "⚠️ Multiple DEX-related risk factors detected. Consider waiting for trading conditions to improve."
      recommendations in
  let recommendations :=
    push_if (match liquidityLevel assessment with High => true | _ => false end
             && (volume24h assessment >? 500000))
      "✅ Strong liquidity and volume provide favorable trading conditions with minimal slippage."
      recommendations in
  recommendations.

(** The buy/sell ratio and the price change an assessment reports, as
    [calculateDexRiskAssessment] computes them from the primary pair. *)
Definition buyToSellRatioOf (primaryPair : TokenPair) : number :=
  if totalSellsOf primaryPair >? 0 then totalBuysOf primaryPair / totalSellsOf primaryPair
  else if totalBuysOf primaryPair >? 0 then 2 else 1.

Definition priceChange24hOf (primaryPair : TokenPair) : number :=
  or_else (priceChange_h24 primaryPair) 0.

End DexAgent.

(** ** The social agent: the LLM pipeline and the sentiment bar *)

Module SocialAgent.

Import Social.

(** One entry of the JSON array the LLM is asked for, read at the types
    the prompt fixes: [index] a number, [sentiment] one of the three
    labels, [score] a number. *)
Record LLMSentiment := {
  l_index : number;
  l_sentiment : Sentiment;
  l_score : number
}.

(** The fallback of both functions for a tweet without a result. *)
Definition neutralFallback (t : TwitterTweet) : TwitterSentimentAnalysis :=
  {| tweet := t; sentiment := neutral; sentimentScore := 0 |}.

(** [tweets.map((tweet, index) => ...)], from the index [i] on. *)
Fixpoint mapWithIndex {A B} (f : A -> nat -> B) (i : nat) (l : list A) : list B :=
  match l with
  | [] => []
  | x :: rest => f x i :: mapWithIndex f (S i) rest
  end.

Definition batchSize : nat := 4.

Section LLM.

(** The array [analyzeTweetBatch] parses out of the answer to its
    [call]-th prompt; [None] when the request, the extraction of the JSON
    or the parse throws. *)
Variable askLLM : nat -> list TwitterTweet -> option (list LLMSentiment).

(** [analyzeTweetBatch]; [None] when it throws. *)
Definition analyzeTweetBatch (call : nat) (tweets : list TwitterTweet)
    : option (list TwitterSentimentAnalysis) :=
  match askLLM call tweets with
  | None => None
  | Some sentiments =>
      Some (mapWithIndex
              (fun tweet index =>
                 match find (fun s => l_index s =? of_nat index) sentiments with
                 | Some s => {| tweet := tweet; sentiment := l_sentiment s;
                                sentimentScore := l_score s |}
                 | None => {| tweet := tweet; sentiment := neutral; sentimentScore := 0 |}
                 end)
              0 tweets)
  end.

(** The [for] loop of [analyzeTweetSentimentsWithLLM] over what is left of
    [tweetsToAnalyze]; every round takes a batch of four, so a round per
    tweet left is enough. *)
Fixpoint analyzeBatches (rounds call : nat) (tweetsToAnalyze : list TwitterTweet)
    : list TwitterSentimentAnalysis :=
  match rounds with
  | O => []
  | S rounds =>
      match tweetsToAnalyze with
      | [] => []
      | _ =>
          let batch := firstn batchSize tweetsToAnalyze in
          let batchResults :=
            match analyzeTweetBatch call batch with
            | Some batchResults => batchResults
            | None => map neutralFallback batch
            end in
          batchResults ++ analyzeBatches rounds (S call) (skipn batchSize tweetsToAnalyze)
      end
  end.

Definition analyzeTweetSentimentsWithLLM (tweets : list TwitterTweet)
    : list TwitterSentimentAnalysis :=
  let tweetsToAnalyze := slice0 20 tweets in
  analyzeBatches (List.length tweetsToAnalyze) 0 tweetsToAnalyze.

(** What the [assessTwitterRisk] capability returns. *)
Record TwitterRiskReport := {
  t_projectIdentifier : string;
  t_sentiment : Sentiment;
  t_sentimentScore : number;
  t_riskScore : number;
  t_riskLevel : RiskLevel;
  t_redFlags : list string;
  t_positiveIndicators : list string;
  t_tweetCount : nat;
  t_hasOfficialAccount : bool;
  t_accountVerified : bool
}.

(** The [assessTwitterRisk] capability once [searchTweets] has returned
    [relatedTweets]; [projectTwitterInfo] is what [getTwitterUserInfo]
    returned for the project's handle, [None] without a handle too.  The
    error object is returned as its message. *)
Definition assessTwitterRisk (projectIdentifier : string)
    (relatedTweets : list TwitterTweet) (projectTwitterInfo : option TwitterUser)
    : string + TwitterRiskReport :=
  match relatedTweets with
  | [] => inl ("No tweets found for " ++ projectIdentifier)%string
  | _ =>
      let tweetSentiments := analyzeTweetSentimentsWithLLM relatedTweets in
      let assessment := calculateTwitterRiskAssessment tweetSentiments projectTwitterInfo in
      inr {| t_projectIdentifier := projectIdentifier;
             t_sentiment := overallSentiment assessment;
             t_sentimentScore := overallSentimentScore assessment;
             t_riskScore := riskScore assessment;
             t_riskLevel := riskLevel assessment;
             t_redFlags := redFlags assessment;
             t_positiveIndicators := positiveIndicators assessment;
             t_tweetCount := tweetCount assessment;
             t_hasOfficialAccount :=
               match projectTwitterInfo with Some _ => true | None => false end;
             t_accountVerified :=
               match projectTwitterInfo with Some u => verified u | None => false end |}
  end.

End LLM.

(** [n] copies of [s]. *)
Fixpoint copies (s : string) (n : nat) : string :=
  match n with
  | O => EmptyString
  | S n => (s ++ copies s n)%string
  end.

(** The count [String.prototype.repeat] works with: the argument
    truncated to an integer, NaN counting as 0; [None] for the RangeError
    on a negative or infinite count. *)
Definition repeatCount (count : number) : option nat :=
  match Prim2SF count with
  | S754_zero _ => Some O
  | S754_nan => Some O
  | S754_infinity _ => None
  | S754_finite sign m e =>
      let n := (if 0 <=? e then Zpos m * 2 ^ e else Zpos m / 2 ^ (- e))%Z in
      if sign && (0 <? n)%Z then None else Some (Z.to_nat n)
  end.

Definition String_repeat (s : string) (count : number) : option string :=
  option_map (copies s) (repeatCount count).

(** [generateSentimentBar]; [None] when a [repeat] raises its RangeError.
    As soon as one count exceeds 20 the last one is negative, so the
    engine's limit on the length of a string never decides the outcome. *)
Definition generateSentimentBar (positive neutral negative : number) : option string :=
  let totalBars := 20 in
  let positiveBars := Math_round (positive * totalBars / 100) in
  let neutralBars := Math_round (neutral * totalBars / 100) in
  let negativeBars := totalBars - positiveBars - neutralBars in
  match String_repeat "🟢" positiveBars with
  | None => None
  | Some positiveSection =>
      match String_repeat "⚪" neutralBars with
      | None => None
      | Some neutralSection =>
          match String_repeat "🔴" negativeBars with
          | None => None
          | Some negativeSection =>
              Some (positiveSection ++ neutralSection ++ negativeSection)%string
          end
      end
  end.

(** The bar [formatTwitterAnalysisReport] draws for an assessment. *)
Definition sentimentBarOf (assessment : TwitterRiskAssessment) : option string :=
  generateSentimentBar (sb_positive (sentimentBreakdown assessment))
                       (sb_neutral (sentimentBreakdown assessment))
                       (sb_negative (sentimentBreakdown assessment)).

(** A bar of [a] positive, [b] neutral and [c] negative symbols. *)
Definition barOf (a b c : nat) : string :=
  (copies "🟢" a ++ copies "⚪" b ++ copies "🔴" c)%string.

(** The number of symbols out of 20 that stands for [p] percent: [p / 5]
    rounded to the nearest integer. *)
Definition barsFor (p : nat) : nat := ((2 * p + 5) / 10)%nat.

(** Whether the bar for [p] percent positive and [n] percent neutral is
    the one [barsFor] describes, with 20 symbols in all. *)
Definition barAsExpected (p n : nat) : bool :=
  match generateSentimentBar (of_nat p) (of_nat n) 0 with
  | Some bar =>
      String.eqb bar (barOf (barsFor p) (barsFor n) (20 - barsFor p - barsFor n))
      && (barsFor p + barsFor n <=? 20)%nat
  | None => false
  end.

End SocialAgent.

(** ** Further sample inputs *)

Module MoreSamples.

(** A message in lower case already, on which [toLowerCase] is the
    identity. *)
Definition lowerCaseText (s : string) : string := s.

Definition priceOfSomething : Coordinator.ChatMessage :=
  {| Coordinator.author := "user";
     Coordinator.message := "what is the price of something?" |}.

(** Four pairs on four venues, sorted by liquidity, with $3.5M of
    liquidity and $3.4M of volume in all; the primary pair has three buys
    for every sell. *)
Definition deepPrimary : Dex.TokenPair :=
  Samples.pairOf "uniswap" (Some 2000000) (Some 3000000)
    (Some {| Dex.buys := Some 30; Dex.sells := Some 10 |}).

Definition deepPairs : list Dex.TokenPair :=
  [ deepPrimary;
    Samples.pairOf "sushiswap" (Some 800000) (Some 200000) None;
    Samples.pairOf "pancakeswap" (Some 500000) (Some 100000) None;
    Samples.pairOf "curve" (Some 200000) (Some 100000) None ].

(** The source code of a verified contract whose owner can mint. *)
Definition ownerMintSource : string :=
  "function mint() onlyOwner { _mint(msg.sender, 1); }".

(** A verified proxy that forwards every call, a year old. *)
Definition proxyContract : Blockchain.ContractInfo :=
  {| Blockchain.contractName := Some "Forwarder"%string;
     Blockchain.createdTimestamp := Some 1704067200;
     Blockchain.implementation := Some "0x0000000000000000000000000000000000000002"%string;
     Blockchain.sourceCode :=
       Some "fallback() external { implementation.delegatecall(msg.data); }"%string |}.

(** Conversions for the sample assessments: a number is written as a
    single mark, and the samples have no transactions, so that no
    timestamp or amount is ever parsed. *)
Definition numberToString (x : number) : string := "#".
Definition parseIntOf (s : string) : number := nan.
Definition etherOf (s : string) : option number := None.

(** Three tweets found for a project, and an LLM that cannot be reached. *)
Definition tweetOf (id text : string) : Social.TwitterTweet :=
  {| Social.id := id; Social.text := text;
     Social.public_metrics :=
       {| Social.retweet_count := 1; Social.reply_count := 0; Social.like_count := 3 |} |}.

Definition relatedTweets : list Social.TwitterTweet :=
  [tweetOf "1" "to the moon"; tweetOf "2" "new listing"; tweetOf "3" "is this a scam?"].

Definition unreachableLLM (call : nat) (batch : list Social.TwitterTweet)
    : option (list SocialAgent.LLMSentiment) := None.

(** Eight analysed tweets: five positive, three neutral. *)
Definition fivePositiveThreeNeutral : list Social.TwitterSentimentAnalysis :=
  repeat (Samples.tweetScored Social.positive 0.6) 5
  ++ repeat (Samples.tweetScored Social.neutral 0) 3.

(** One analysed tweet of sentiment -0.13. *)
Definition nearTieTweets : list Social.TwitterSentimentAnalysis :=
  [Samples.tweetScored Social.negative (-0.13)].

(** What the blockchain and the market agent report for a token, with a
    given risk score. *)
Definition blockchainScored (score : number) : Analysis.BlockchainRiskData :=
  {| Analysis.b_tokenAddress := "0x0000000000000000000000000000000000000001";
     Analysis.b_riskScore := score; Analysis.b_riskLevel := Medium;
     Analysis.b_isVerified := true; Analysis.b_contractName := Some "Token"%string;
     Analysis.b_tokenSymbol := Some "TKN"%string;
     Analysis.b_holderConcentration := None; Analysis.b_riskFactors := [] |}.

Definition marketScored (score : number) : Analysis.MarketRiskData :=
  {| Analysis.m_symbol := "TKN"; Analysis.m_name := "Token";
     Analysis.m_priceUsd := 1.5; Analysis.m_marketCap := 500000000;
     Analysis.m_volume24h := 40000000; Analysis.m_priceChange24h := 1;
     Analysis.m_priceChange7d := 2; Analysis.m_volatility := 3;
     Analysis.m_liquidity := 8; Analysis.m_riskScore := score;
     Analysis.m_riskLevel := Medium; Analysis.m_riskFactors := [];
     Analysis.m_positiveFactors := [] |}.

End MoreSamples.

Example round_half_up : Math_round 37.5 = 38 /\ Math_round 2.5 = 3
  /\ Math_round (-2.5) = (-2) /\ Math_round (-0.5) = neg_zero
  /\ Math_round 0.49999999999999994 = 0 /\ Math_round 33.4 = 33
  /\ Math_round nan = nan /\ Math_round infinity = infinity.
Proof. repeat split; vm_compute; reflexivity. Qed.

Example floor_samples : Math_floor 2.7 = 2 /\ Math_floor (-0.5) = (-1)
  /\ Math_floor 0.5 = 0 /\ Math_floor (-3) = (-3) /\ Math_floor nan = nan.
Proof. repeat split; vm_compute; reflexivity. Qed.

(** ** The order on binary64 numbers

    [<?] and [<=?] are the IEEE comparisons: false whenever an argument is
    NaN.  On the other values they form a total preorder, which the
    threshold chains of the scorers rely on. *)

Lemma SFcompare_swap x y :
  SFcompare y x = option_map CompOpp (SFcompare x y).
Proof.
  destruct x as [sx|sx| |sx mx ex], y as [sy|sy| |sy my ey]; simpl;
    try reflexivity; try (destruct sx; reflexivity); try (destruct sy; reflexivity);
    try (destruct sx, sy; reflexivity).
  destruct sx, sy; simpl; try reflexivity;
    rewrite (Z.compare_antisym ex ey); destruct (ex ?= ey)%Z; simpl; try reflexivity;
    rewrite (Pos.compare_cont_antisym); simpl; destruct (Pos.compare_cont Eq mx my); reflexivity.
Qed.

Lemma lex_trans (e1 e2 e3 : Z) (m1 m2 m3 : positive) c1 c2 :
  match (e1 ?= e2)%Z with Lt => Lt | Gt => Gt | Eq => Pos.compare m1 m2 end = c1 ->
  match (e2 ?= e3)%Z with Lt => Lt | Gt => Gt | Eq => Pos.compare m2 m3 end = c2 ->
  c1 <> Gt -> c2 <> Gt ->
  match (e1 ?= e3)%Z with Lt => Lt | Gt => Gt | Eq => Pos.compare m1 m3 end = cmp_then c1 c2.
Proof.
  intros H1 H2 N1 N2. subst c1 c2.
  destruct (Z.compare_spec e1 e2) as [E12|L12|G12]; try congruence;
  destruct (Z.compare_spec e2 e3) as [E23|L23|G23]; try congruence;
  destruct (Z.compare_spec e1 e3) as [E13|L13|G13]; try lia; try reflexivity.
  - destruct (Pos.compare_spec m1 m2); try congruence;
    destruct (Pos.compare_spec m2 m3); try congruence;
    destruct (Pos.compare_spec m1 m3); try lia; reflexivity.
  - destruct (m1 ?= m2)%positive; try congruence; reflexivity.
Qed.

Lemma cmp_then_comm c1 c2 : cmp_then c1 c2 = cmp_then c2 c1.
Proof. destruct c1, c2; reflexivity. Qed.

Lemma lex_neg (a b : Z) (p q : positive) :
  match (a ?= b)%Z with
  | Eq => CompOpp (Pos.compare_cont Eq p q) | Lt => Gt | Gt => Lt end
  = match (b ?= a)%Z with Lt => Lt | Gt => Gt | Eq => Pos.compare q p end.
Proof.
  rewrite (Z.compare_antisym a b). destruct (a ?= b)%Z; simpl; try reflexivity.
  rewrite (Pos.compare_antisym p q). reflexivity.
Qed.

Lemma SFcompare_trans x y z c1 c2 :
  SFcompare x y = Some c1 -> SFcompare y z = Some c2 ->
  c1 <> Gt -> c2 <> Gt -> SFcompare x z = Some (cmp_then c1 c2).
Proof.
  destruct x as [sx|sx| |sx mx ex], y as [sy|sy| |sy my ey], z as [sz|sz| |sz mz ez];
    simpl; intros H1 H2 N1 N2; try discriminate;
    try (destruct sx); try (destruct sy); try (destruct sz); simpl in *;
    injection H1 as H1; injection H2 as H2; try (subst c1 c2; simpl; congruence);
    f_equal.
  all: try (subst c2; destruct c1; try reflexivity; congruence).
  all: try (subst c1; destruct c2; try reflexivity; congruence).
  - rewrite lex_neg in *. rewrite cmp_then_comm.
    apply (lex_trans ez ey ex mz my mx); assumption.
  - apply (lex_trans ex ey ez mx my mz); assumption.
Qed.

Lemma ltb_Lt x y : (x <? y) = true <-> SFcompare (Prim2SF x) (Prim2SF y) = Some Lt.
Proof.
  rewrite ltb_spec. unfold SFltb.
  destruct (SFcompare (Prim2SF x) (Prim2SF y)) as [[]|]; split; congruence.
Qed.

Lemma leb_le x y :
  (x <=? y) = true <-> exists c, SFcompare (Prim2SF x) (Prim2SF y) = Some c /\ c <> Gt.
Proof.
  rewrite leb_spec. unfold SFleb.
  destruct (SFcompare (Prim2SF x) (Prim2SF y)) as [[]|]; split;
    try (intros _; eexists; split; [reflexivity|congruence]);
    try reflexivity; try discriminate;
    intros [c [E N]]; congruence.
Qed.

Lemma ltb_leb x y : (x <? y) = true -> (x <=? y) = true.
Proof.
  intros H. apply ltb_Lt in H. apply leb_le. exists Lt. split; [assumption|congruence].
Qed.

Lemma ltb_trans x y z : (x <? y) = true -> (y <? z) = true -> (x <? z) = true.
Proof.
  intros H1 H2. apply ltb_Lt in H1, H2. apply ltb_Lt.
  apply (SFcompare_trans _ _ _ Lt Lt H1 H2); congruence.
Qed.

Lemma ltb_leb_trans x y z : (x <? y) = true -> (y <=? z) = true -> (x <? z) = true.
Proof.
  intros H1 H2. apply ltb_Lt in H1. apply leb_le in H2. destruct H2 as [c [H2 N]].
  apply ltb_Lt. apply (SFcompare_trans _ _ _ Lt c H1 H2); congruence.
Qed.

Lemma leb_ltb_trans x y z : (x <=? y) = true -> (y <? z) = true -> (x <? z) = true.
Proof.
  intros H1 H2. apply ltb_Lt in H2. apply leb_le in H1. destruct H1 as [c [H1 N]].
  apply ltb_Lt. rewrite (SFcompare_trans _ _ _ c Lt H1 H2); try congruence.
  destruct c; reflexivity.
Qed.

Lemma leb_trans x y z : (x <=? y) = true -> (y <=? z) = true -> (x <=? z) = true.
Proof.
  intros H1 H2. apply leb_le in H1, H2.
  destruct H1 as [c1 [H1 N1]], H2 as [c2 [H2 N2]].
  apply leb_le. exists (cmp_then c1 c2). split.
  - apply (SFcompare_trans _ (Prim2SF y)); assumption.
  - destruct c1, c2; simpl; congruence.
Qed.

Lemma ltb_not_geb x y : (x <? y) = true -> (y <=? x) = false.
Proof.
  intros H. apply ltb_Lt in H. rewrite leb_spec. unfold SFleb.
  rewrite (SFcompare_swap (Prim2SF x) (Prim2SF y)), H. reflexivity.
Qed.

Lemma leb_not_gtb x y : (x <=? y) = true -> (y <? x) = false.
Proof.
  intros H. apply leb_le in H. destruct H as [c [H N]].
  rewrite ltb_spec. unfold SFltb. rewrite (SFcompare_swap (Prim2SF x) (Prim2SF y)), H.
  destruct c; simpl; congruence.
Qed.

Lemma not_nan_compare x y :
  is_nan x = false -> is_nan y = false ->
  exists c, SFcompare (Prim2SF x) (Prim2SF y) = Some c.
Proof.
  unfold is_nan. rewrite !eqb_spec. unfold SFeqb.
  destruct (Prim2SF x) as [sx|sx| |sx mx ex], (Prim2SF y) as [sy|sy| |sy my ey];
    simpl; intros Hx Hy; try discriminate; eexists; reflexivity.
Qed.

Lemma not_ltb_geb x y :
  is_nan x = false -> is_nan y = false -> (x <? y) = false -> (y <=? x) = true.
Proof.
  intros Hx Hy H. destruct (not_nan_compare x y Hx Hy) as [c E].
  rewrite ltb_spec in H. unfold SFltb in H. rewrite E in H.
  rewrite leb_spec. unfold SFleb. rewrite (SFcompare_swap (Prim2SF x) (Prim2SF y)), E.
  destruct c; simpl; congruence.
Qed.

(** ** Rounding in binary64

    The arithmetic of the code rounds every result to the nearest binary64
    number.  The lemmas of this section bound the difference between the
    rational a result denotes and the exact result of the operation, from
    the specification of the operations in [SpecFloat]. *)

Section FloatRounding.

Local Open Scope Q_scope.

(** *** Powers of two *)

Lemma pow2_pos k : 0 < pow2 k.
Proof. unfold pow2. apply Qpower_0_lt. reflexivity. Qed.

Lemma pow2_add a b : pow2 (a + b) == pow2 a * pow2 b.
Proof. unfold pow2. apply Qpower_plus. discriminate. Qed.

Lemma pow2_0 : pow2 0 == 1.
Proof. reflexivity. Qed.

Lemma pow2_1 : pow2 1 == 2.
Proof. reflexivity. Qed.

Lemma pow2_m1 : pow2 (-1) == 1#2.
Proof. reflexivity. Qed.

Lemma pow2_opp a : pow2 a * pow2 (- a) == 1.
Proof. rewrite <- pow2_add. rewrite Z.add_opp_diag_r. reflexivity. Qed.

Lemma pow2_Z k : (0 <= k)%Z -> pow2 k == inject_Z (2 ^ k).
Proof. intros H. unfold pow2. rewrite Zpower_Qpower by assumption. reflexivity. Qed.

Lemma pow2_le a b : (a <= b)%Z -> pow2 a <= pow2 b.
Proof. intros H. unfold pow2. apply Qpower_le_compat_l; [assumption|]. discriminate. Qed.

Lemma pow2_lt a b : (a < b)%Z -> pow2 a < pow2 b.
Proof. intros H. unfold pow2. apply Qpower_lt_compat_l; [assumption|]. reflexivity. Qed.

Lemma pow2_succ a : pow2 (a + 1) == 2 * pow2 a.
Proof. rewrite pow2_add, pow2_1. ring. Qed.

Lemma pow2_pred a : pow2 (a - 1) == (1#2) * pow2 a.
Proof. unfold Z.sub. rewrite pow2_add, pow2_m1. ring. Qed.

(** *** Digits *)

(** A mantissa of [d] binary digits lies in [[2^(d-1), 2^d)]. *)
Lemma digits2_pos_bounds m :
  (2 ^ (Zpos (digits2_pos m) - 1) <= Zpos m < 2 ^ Zpos (digits2_pos m))%Z.
Proof.
  induction m as [m IH|m IH|]; cbn [digits2_pos].
  - rewrite Pos2Z.inj_succ.
    replace (Z.succ (Zpos (digits2_pos m)) - 1)%Z with (Zpos (digits2_pos m) - 1 + 1)%Z by lia.
    rewrite Z.pow_succ_r by lia. rewrite Z.pow_add_r by lia. lia.
  - rewrite Pos2Z.inj_succ.
    replace (Z.succ (Zpos (digits2_pos m)) - 1)%Z with (Zpos (digits2_pos m) - 1 + 1)%Z by lia.
    rewrite Z.pow_succ_r by lia. rewrite Z.pow_add_r by lia. lia.
  - simpl. lia.
Qed.

(** *** Shifting right *)

Lemma inject_Z_xO p : inject_Z (Zpos p~0) == 2 * inject_Z (Zpos p).
Proof. change (Zpos p~0) with (2 * Zpos p)%Z. rewrite inject_Z_mult. reflexivity. Qed.

Lemma inject_Z_xI p : inject_Z (Zpos p~1) == 2 * inject_Z (Zpos p) + 1.
Proof.
  change (Zpos p~1) with (2 * Zpos p + 1)%Z. rewrite inject_Z_plus, inject_Z_mult.
  reflexivity.
Qed.

(** One step of the right shift halves the number located and keeps
    track of what is shifted out in the round and sticky bits. *)
Lemma located_shr_1 mrs y : located mrs y -> located (shr_1 mrs) (y * (1#2)).
Proof.
  destruct mrs as [m r s]. unfold located. cbn [shr_m shr_r shr_s].
  intros [Hm H]. destruct m as [|p|p]; [| |lia].
  - destruct r, s; cbn in *; (split; [lia|]); change (inject_Z 0) with 0 in *; lra.
  - destruct p as [p|p|]; cbn [shr_1 shr_m shr_r shr_s orb].
    + pose proof (inject_Z_xI p) as E. set (a := inject_Z (Zpos p)) in *.
      set (b := inject_Z (Zpos p~1)) in *.
      destruct r, s; cbn [orb]; (split; [lia|]); lra.
    + pose proof (inject_Z_xO p) as E. set (a := inject_Z (Zpos p)) in *.
      set (b := inject_Z (Zpos p~0)) in *.
      destruct r, s; cbn [orb]; (split; [lia|]); lra.
    + change (inject_Z 1) with 1 in *. change (inject_Z 0) with 0.
      destruct r, s; cbn [orb]; (split; [lia|]); lra.
Qed.

Lemma located_ext mrs y y' : y == y' -> located mrs y -> located mrs y'.
Proof.
  intros E [Hm H]. split; [exact Hm|].
  destruct (shr_r mrs), (shr_s mrs); lra.
Qed.

(** And so [p] steps divide it by [2^p]. *)
Lemma located_iter p : forall mrs y,
  located mrs y -> located (iter_pos shr_1 p mrs) (y * pow2 (- Zpos p)).
Proof.
  induction p as [p IH|p IH|]; intros mrs y H; cbn [iter_pos].
  - apply located_shr_1 in H. apply IH in H. apply IH in H.
    revert H. apply located_ext.
    replace (- Zpos p~1)%Z with (-1 + (- Zpos p + - Zpos p))%Z by lia.
    rewrite !pow2_add, pow2_m1. ring.
  - apply IH in H. apply IH in H. revert H. apply located_ext.
    replace (- Zpos p~0)%Z with (- Zpos p + - Zpos p)%Z by lia.
    rewrite !pow2_add. ring.
  - apply located_shr_1 in H. revert H. apply located_ext.
    change (pow2 (-1)) with (1#2). reflexivity.
Qed.

Lemma shr_exponent mrs e n : snd (shr mrs e n) = (e + Z.max n 0)%Z.
Proof. destruct n; cbn [shr snd]; lia. Qed.

(** [shr] on a mantissa at exponent [e]: the number located stays [x],
    read at the new exponent. *)
Lemma located_shr mrs e n x :
  located mrs (x * pow2 (- e)) ->
  located (fst (shr mrs e n)) (x * pow2 (- snd (shr mrs e n))).
Proof.
  intros H. destruct n as [|p|p]; cbn [shr fst snd]; try exact H.
  apply (located_iter p) in H. revert H. apply located_ext.
  replace (- (e + Zpos p))%Z with (- e + - Zpos p)%Z by lia.
  rewrite pow2_add. ring.
Qed.

(** The mantissa left by a shift of an exactly known integer. *)
Lemma located_floor mrs y : located mrs y -> shr_m mrs = Qfloor y.
Proof.
  intros [Hm H].
  assert (B : inject_Z (shr_m mrs) <= y /\ y < inject_Z (shr_m mrs) + 1).
  { destruct (shr_r mrs), (shr_s mrs); lra. }
  destruct B as [B1 B2].
  pose proof (Qfloor_le y) as F1. pose proof (Qlt_floor y) as F2.
  rewrite inject_Z_plus in F2. change (inject_Z 1) with 1 in F2.
  assert (L1 : (shr_m mrs < Qfloor y + 1)%Z).
  { rewrite Zlt_Qlt. rewrite inject_Z_plus. change (inject_Z 1) with 1. lra. }
  assert (L2 : (Qfloor y < shr_m mrs + 1)%Z).
  { rewrite Zlt_Qlt. rewrite inject_Z_plus. change (inject_Z 1) with 1. lra. }
  lia.
Qed.

(** *** Rounding to nearest *)

(** Rounding to nearest moves to one of the two neighbouring integers, at
    most a half away, and keeps an integer as it is. *)
Lemma round_nearest_even_near mrs y :
  located mrs y ->
  let m := round_nearest_even (shr_m mrs) (loc_of_shr_record mrs) in
  (shr_m mrs <= m <= shr_m mrs + 1)%Z
  /\ inject_Z m - y <= 1#2 /\ y - inject_Z m <= 1#2
  /\ (shr_r mrs = false -> shr_s mrs = false -> m = shr_m mrs).
Proof.
  destruct mrs as [m r s]. unfold located. cbn [shr_m shr_r shr_s].
  intros [Hm H].
  destruct r, s; cbn [loc_of_shr_record round_nearest_even].
  - rewrite inject_Z_plus. change (inject_Z 1) with 1.
    repeat split; try lia; try lra; try discriminate.
  - destruct (Z.even m).
    + repeat split; try lia; try lra; try discriminate.
    + rewrite inject_Z_plus. change (inject_Z 1) with 1.
      repeat split; try lia; try lra; try discriminate.
  - repeat split; try lia; try lra; try discriminate.
  - repeat split; try lia; try lra; try discriminate.
Qed.

(** It does not cross an integer. *)
Lemma round_nearest_even_grid mrs y G :
  located mrs y ->
  let m := round_nearest_even (shr_m mrs) (loc_of_shr_record mrs) in
  (y <= inject_Z G -> (m <= G)%Z) /\ (inject_Z G <= y -> (G <= m)%Z).
Proof.
  intros L. pose proof (round_nearest_even_near mrs y L) as R. cbv zeta in *.
  destruct R as [Rm [_ [_ Rex]]]. destruct L as [Hm L].
  set (m := round_nearest_even (shr_m mrs) (loc_of_shr_record mrs)) in *.
  split; intros HG.
  - destruct (shr_r mrs) eqn:Er; [|destruct (shr_s mrs) eqn:Es].
    + assert (shr_m mrs < G)%Z by (rewrite Zlt_Qlt; destruct (shr_s mrs); lra). lia.
    + assert (shr_m mrs < G)%Z by (rewrite Zlt_Qlt; lra). lia.
    + rewrite (Rex eq_refl eq_refl). rewrite Zle_Qle. lra.
  - assert (G < shr_m mrs + 1)%Z.
    { rewrite Zlt_Qlt, inject_Z_plus. change (inject_Z 1) with 1.
      destruct (shr_r mrs), (shr_s mrs); lra. }
    lia.
Qed.

(** *** The rounding step of every operation *)

Lemma fexp_eq e : fexp prec emax e = Z.max (e - 53) (-1074).
Proof. reflexivity. Qed.

Lemma Zdigits2_bounds m :
  (0 < m)%Z -> (2 ^ (Zdigits2 m - 1) <= m < 2 ^ Zdigits2 m)%Z.
Proof.
  destruct m as [|p|p]; try lia. intros _. apply digits2_pos_bounds.
Qed.

Lemma Zdigits2_nonneg m : (0 <= Zdigits2 m)%Z.
Proof. destruct m; simpl; lia. Qed.

Lemma Zdigits2_le_of_lt m K : (0 <= K)%Z -> (0 <= m < 2 ^ K)%Z -> (Zdigits2 m <= K)%Z.
Proof.
  intros HK [H0 H]. destruct (Z.eq_dec m 0) as [->|Hm]; [simpl; lia|].
  destruct (Zdigits2_bounds m ltac:(lia)) as [L _].
  destruct (Z_lt_le_dec K (Zdigits2 m)) as [C|C]; [|exact C]. exfalso.
  assert (2 ^ K <= 2 ^ (Zdigits2 m - 1))%Z by (apply Z.pow_le_mono_r; lia). lia.
Qed.

Lemma Zdigits2_pow2 K : (0 <= K)%Z -> Zdigits2 (2 ^ K) = (K + 1)%Z.
Proof.
  intros HK. assert (P : (0 < 2 ^ K)%Z) by (apply Z.pow_pos_nonneg; lia).
  destruct (Zdigits2_bounds _ P) as [L U].
  pose proof (Zdigits2_nonneg (2 ^ K)) as N.
  destruct (Z_lt_le_dec (Zdigits2 (2 ^ K)) (K + 1)) as [C|C].
  - exfalso. assert (2 ^ Zdigits2 (2 ^ K) <= 2 ^ K)%Z by (apply Z.pow_le_mono_r; lia). lia.
  - destruct (Z_lt_le_dec (K + 1) (Zdigits2 (2 ^ K))) as [D|D]; [|lia]. exfalso.
    assert (2 ^ (K + 1) <= 2 ^ (Zdigits2 (2 ^ K) - 1))%Z by (apply Z.pow_le_mono_r; lia).
    rewrite Z.pow_add_r in H by lia. lia.
Qed.

(** After rounding, the mantissa has at most one digit too many, and then
    it is a power of two: the second shift of [binary_round_aux] is by at
    most one place and loses nothing. *)
Lemma second_shift m2 e' K :
  (0 <= K <= 53)%Z -> (0 <= m2 <= 2 ^ K)%Z -> (-1074 <= e')%Z ->
  (fexp prec emax (K + e') <= e')%Z ->
  let n2 := (fexp prec emax (Zdigits2 m2 + e') - e')%Z in
  (n2 <= 0)%Z \/ (n2 = 1%Z /\ Z.even m2 = true).
Proof.
  intros HK Hm He Hf n2. subst n2. rewrite fexp_eq in *.
  destruct (Z.eq_dec m2 (2 ^ K)) as [->|Hne].
  - rewrite Zdigits2_pow2 by lia.
    destruct (Z.eq_dec K 0) as [->|HK0].
    + left. lia.
    + assert (E : Z.even (2 ^ K) = true).
      { replace K with (1 + (K - 1))%Z by lia. rewrite Z.pow_add_r by lia.
        rewrite Z.even_mul. reflexivity. }
      destruct (Z_le_gt_dec (Z.max (K + 1 + e' - 53) (-1074) - e') 0); [left; lia|].
      right. split; [lia|exact E].
  - left. assert (D : (Zdigits2 m2 <= K)%Z) by (apply Zdigits2_le_of_lt; lia). lia.
Qed.

(** [binary_round_aux] without its destructuring lets. *)
Lemma binary_round_aux_unfold sx mx ex lx :
  binary_round_aux prec emax sx mx ex lx
  = let p1 := shr_fexp prec emax mx ex lx in
    let m2 := round_nearest_even (shr_m (fst p1)) (loc_of_shr_record (fst p1)) in
    let p2 := shr_fexp prec emax m2 (snd p1) loc_Exact in
    match shr_m (fst p2) with
    | Z0 => S754_zero sx
    | Zpos m => if (snd p2 <=? emax - prec)%Z then S754_finite sx m (snd p2)
                else S754_infinity sx
    | Zneg _ => S754_nan
    end.
Proof.
  unfold binary_round_aux. destruct (shr_fexp prec emax mx ex lx) as [mrs' e'].
  cbn [fst snd]. destruct (shr_fexp prec emax _ e' loc_Exact) as [mrs'' e''].
  reflexivity.
Qed.

Lemma located_record m l y :
  located (shr_record_of_loc m l) y ->
  (0 <= m)%Z /\ inject_Z m <= y /\ y < inject_Z m + 1.
Proof.
  unfold located. destruct l as [|[ | | ]]; cbn; intros [Hm H]; (split; [exact Hm|]); lra.
Qed.

Lemma Qmult_pow2_cancel x e : x * pow2 (- e) * pow2 e == x.
Proof. rewrite <- Qmult_assoc. rewrite (Qmult_comm (pow2 (- e))), pow2_opp. ring. Qed.

Lemma Qle_pow2_shift a b e : a * pow2 (- e) <= b -> a <= b * pow2 e.
Proof.
  intros H. rewrite <- (Qmult_pow2_cancel a e).
  apply Qmult_le_compat_r; [exact H|]. apply Qlt_le_weak, pow2_pos.
Qed.

Lemma Qge_pow2_shift a b e : b <= a * pow2 (- e) -> b * pow2 e <= a.
Proof.
  intros H. rewrite <- (Qmult_pow2_cancel a e).
  apply Qmult_le_compat_r; [exact H|]. apply Qlt_le_weak, pow2_pos.
Qed.

Lemma Qlt_pow2_shift a b e : a * pow2 (- e) < b -> a < b * pow2 e.
Proof.
  intros H. rewrite <- (Qmult_pow2_cancel a e).
  apply Qmult_lt_compat_r; [apply pow2_pos|exact H].
Qed.

(** A shift by no place, or by one place of an even mantissa, is exact. *)
Lemma shr_exact_even m e n :
  (0 <= m)%Z -> ((n <= 0)%Z \/ (n = 1%Z /\ Z.even m = true)) ->
  let p := shr (shr_record_of_loc m loc_Exact) e n in
  (0 <= shr_m (fst p))%Z
  /\ inject_Z (shr_m (fst p)) * pow2 (snd p) == inject_Z m * pow2 e
  /\ (snd p <= e + 1)%Z.
Proof.
  intros Hm [Hn|[-> Hev]].
  - destruct n as [|q|q]; try lia; cbn; (split; [exact Hm|]); (split; [reflexivity|lia]).
  - cbn [shr shr_record_of_loc iter_pos shr_1 fst snd].
    destruct m as [|[q|q|]|q]; try discriminate Hev; try lia; cbn [shr_m orb].
    + split; [lia|]. split; [|lia]. change (inject_Z 0) with 0. ring.
    + split; [lia|]. split; [|lia]. rewrite inject_Z_xO, pow2_succ. ring.
Qed.

(** The rounding step: when the truncated mantissa [mx] at exponent [ex]
    with location [lx] stands for the number [x], and the result does not
    overflow, [binary_round_aux] returns a finite number of the given sign
    whose magnitude [v] is within half a unit of the rounding exponent of
    [x], is [x] itself when nothing had to be shifted out, and is on the
    same side of every multiple of that unit as [x]. *)
Lemma binary_round_aux_spec sx mx ex lx x :
  located (shr_record_of_loc mx lx) (x * pow2 (- ex)) ->
  let e1 := Z.max ex (fexp prec emax (Zdigits2 mx + ex)) in
  (e1 + 1 <= 971)%Z ->
  let r := binary_round_aux prec emax sx mx ex lx in
  is_finite_SF r = true /\ SFsign r = sx
  /\ exists v, SF2Q r == (if sx then - v else v) /\ 0 <= v
       /\ v - x <= pow2 (e1 - 1) /\ x - v <= pow2 (e1 - 1)
       /\ (lx = loc_Exact -> e1 = ex -> v == x)
       /\ (forall G, x <= inject_Z G * pow2 e1 -> v <= inject_Z G * pow2 e1)
       /\ (forall G, inject_Z G * pow2 e1 <= x -> inject_Z G * pow2 e1 <= v).
Proof.
  intros Hloc e1 Hover r. subst r. rewrite binary_round_aux_unfold. cbv zeta.
  set (d := Zdigits2 mx) in *.
  set (p1 := shr_fexp prec emax mx ex lx).
  set (m2 := round_nearest_even (shr_m (fst p1)) (loc_of_shr_record (fst p1))).
  set (p2 := shr_fexp prec emax m2 (snd p1) loc_Exact).
  set (n := (fexp prec emax (d + ex) - ex)%Z).
  assert (Hp1 : p1 = shr (shr_record_of_loc mx lx) ex n) by reflexivity.
  assert (He' : snd p1 = e1).
  { rewrite Hp1, shr_exponent. unfold n, e1. lia. }
  pose proof (located_shr _ ex n x Hloc) as L1. rewrite <- Hp1, He' in L1.
  assert (Hp2 : p2 = shr (shr_record_of_loc m2 loc_Exact) e1
                       (fexp prec emax (Zdigits2 m2 + e1) - e1)).
  { unfold p2, shr_fexp. rewrite He'. reflexivity. }
  clearbody p2. subst p2.
  set (mrs' := fst p1) in *.
  pose proof (round_nearest_even_near mrs' _ L1) as R. cbv zeta in R. fold m2 in R.
  destruct R as [Rm [R1 [R2 Rex]]].
  destruct (located_record _ _ _ Hloc) as [Hmx [X1 X2]].
  assert (Hm1 : (0 <= shr_m mrs')%Z) by (apply L1).
  assert (He1 : (-1074 <= e1)%Z) by (unfold e1; rewrite fexp_eq; lia).
  set (k := (d + ex - e1)%Z).
  assert (Hd : (0 <= d)%Z) by apply Zdigits2_nonneg.
  assert (Hmxd : inject_Z mx + 1 <= pow2 d).
  { rewrite pow2_Z by exact Hd.
    setoid_replace (inject_Z mx + 1) with (inject_Z (mx + 1))
      by (rewrite inject_Z_plus; reflexivity).
    rewrite <- Zle_Qle.
    destruct (Z.eq_dec mx 0) as [E|E].
    - rewrite E. assert (0 < 2 ^ d)%Z by (apply Z.pow_pos_nonneg; lia). lia.
    - pose proof (Zdigits2_bounds mx ltac:(lia)) as B. fold d in B. lia. }
  assert (Hy : x * pow2 (- e1) < pow2 k).
  { assert (E : x * pow2 (- e1) == x * pow2 (- ex) * pow2 (ex - e1)).
    { replace (- e1)%Z with (- ex + (ex - e1))%Z by lia. rewrite pow2_add. ring. }
    rewrite E. unfold k. replace (d + ex - e1)%Z with (d + (ex - e1))%Z by lia.
    rewrite pow2_add. apply Qmult_lt_compat_r; [apply pow2_pos|]. lra. }
  assert (Y1 : inject_Z (shr_m mrs') <= x * pow2 (- e1)).
  { destruct L1 as [_ L1]. destruct (shr_r mrs'), (shr_s mrs'); lra. }
  set (K := Z.max k 0).
  assert (HK : (0 <= K <= 53)%Z).
  { unfold K, k, e1. rewrite fexp_eq. lia. }
  assert (Hm2 : (0 <= m2 <= 2 ^ K)%Z).
  { split; [lia|].
    assert (shr_m mrs' < 2 ^ K)%Z; [|lia].
    rewrite Zlt_Qlt. rewrite <- pow2_Z by lia.
    apply Qle_lt_trans with (1 := Y1). apply Qlt_le_trans with (1 := Hy).
    apply pow2_le. unfold K. lia. }
  assert (Hf : (fexp prec emax (K + e1) <= e1)%Z).
  { unfold K, k, e1. rewrite !fexp_eq. lia. }
  pose proof (second_shift m2 e1 K HK Hm2 He1 Hf) as S2. cbv zeta in S2.
  destruct (shr_exact_even m2 e1 _ (proj1 Hm2) S2) as [F0 [F1 F2]].
  set (p2 := shr (shr_record_of_loc m2 loc_Exact) e1
               (fexp prec emax (Zdigits2 m2 + e1) - e1)) in *.
  assert (Hv : inject_Z m2 * pow2 e1 - x <= pow2 (e1 - 1)
               /\ x - inject_Z m2 * pow2 e1 <= pow2 (e1 - 1)).
  { pose proof (Qmult_pow2_cancel x e1) as C. pose proof (pow2_pos e1) as P.
    rewrite pow2_pred.
    set (y := x * pow2 (- e1)) in *. set (P1 := pow2 e1) in *.
    split; nra. }
  assert (Hex : lx = loc_Exact -> e1 = ex -> inject_Z m2 * pow2 e1 == x).
  { intros El E.
    assert (Hn : (n <= 0)%Z) by (unfold n; unfold e1 in E; lia).
    assert (Em : mrs' = shr_record_of_loc mx loc_Exact).
    { unfold mrs'. rewrite Hp1, El. destruct n; try lia; reflexivity. }
    assert (E2 : m2 = mx).
    { unfold m2. fold mrs'. rewrite Em. reflexivity. }
    rewrite E2, E.
    assert (Hx : x * pow2 (- ex) == inject_Z mx).
    { destruct Hloc as [_ Hl]. rewrite El in Hl. cbn in Hl. exact Hl. }
    rewrite <- (Qmult_pow2_cancel x ex). rewrite Hx. reflexivity. }
  assert (Hgrid : (forall G, x <= inject_Z G * pow2 e1
                             -> inject_Z m2 * pow2 e1 <= inject_Z G * pow2 e1)
                  /\ (forall G, inject_Z G * pow2 e1 <= x
                                -> inject_Z G * pow2 e1 <= inject_Z m2 * pow2 e1)).
  { pose proof (pow2_pos e1) as P. pose proof (pow2_pos (- e1)) as P'.
    pose proof (pow2_opp e1) as O.
    split; intros G HG.
    - apply Qmult_le_compat_r; [|lra]. rewrite <- Zle_Qle.
      apply (proj1 (round_nearest_even_grid mrs' _ G L1)).
      setoid_replace (inject_Z G) with (inject_Z G * pow2 e1 * pow2 (- e1))
        by (rewrite <- Qmult_assoc, O; ring).
      apply Qmult_le_compat_r; lra.
    - apply Qmult_le_compat_r; [|lra]. rewrite <- Zle_Qle.
      apply (proj2 (round_nearest_even_grid mrs' _ G L1)).
      setoid_replace (inject_Z G) with (inject_Z G * pow2 e1 * pow2 (- e1))
        by (rewrite <- Qmult_assoc, O; ring).
      apply Qmult_le_compat_r; lra. }
  destruct (shr_m (fst p2)) as [|q|q] eqn:Eq; [| |lia].
  - split; [reflexivity|]. split; [reflexivity|]. exists (inject_Z m2 * pow2 e1).
    cbn [SF2Q].
    assert (Z0 : inject_Z m2 * pow2 e1 == 0).
    { rewrite <- F1. change (inject_Z 0) with 0. ring. }
    split; [destruct sx; rewrite Z0; reflexivity|].
    split; [rewrite Z0; apply Qle_refl|].
    split; [apply Hv|]. split; [apply Hv|]. split; [exact Hex|exact Hgrid].
  - replace (snd p2 <=? emax - prec)%Z with true
      by (symmetry; apply Z.leb_le; change (emax - prec)%Z with 971%Z; lia).
    split; [reflexivity|]. split; [reflexivity|]. exists (inject_Z m2 * pow2 e1).
    cbn [SF2Q].
    split; [destruct sx; rewrite <- F1; ring|].
    split.
    { apply Qmult_le_0_compat; [|apply Qlt_le_weak, pow2_pos].
      change 0 with (inject_Z 0). rewrite <- Zle_Qle. lia. }
    split; [apply Hv|]. split; [apply Hv|]. split; [exact Hex|exact Hgrid].
Qed.

(** *** Valid numbers *)

(** A valid finite number has at most 53 digits, and exactly 53 unless its
    exponent is the least one. *)
Lemma valid_finite s m e :
  valid_binary (S754_finite s m e) = true ->
  (Zpos (digits2_pos m) <= 53)%Z /\ (-1074 <= e <= 971)%Z
  /\ (Zpos (digits2_pos m) = 53%Z \/ e = (-1074)%Z).
Proof.
  cbn [valid_binary]. unfold bounded, canonical_mantissa. rewrite fexp_eq.
  intros H. apply andb_prop in H. destruct H as [H1 H2].
  apply Z.eqb_eq in H1. apply Z.leb_le in H2. change (emax - prec)%Z with 971%Z in H2.
  lia.
Qed.

(** The digits of a mantissa bound by the magnitude of the number. *)
Lemma digits_magnitude m e x E :
  (0 < m)%Z -> inject_Z m * pow2 e <= x -> x < pow2 E -> (Zdigits2 m + e <= E)%Z.
Proof.
  intros Hm H1 H2. destruct (Zdigits2_bounds m Hm) as [L _].
  destruct (Z_le_gt_dec (Zdigits2 m + e) E) as [C|C]; [exact C|]. exfalso.
  assert (D : (0 <= Zdigits2 m - 1)%Z).
  { destruct m; try lia. cbn [Zdigits2]. lia. }
  assert (P : pow2 E <= pow2 (Zdigits2 m - 1 + e)) by (apply pow2_le; lia).
  rewrite pow2_add in P. rewrite (pow2_Z (Zdigits2 m - 1)) in P by exact D.
  assert (Q1 : inject_Z (2 ^ (Zdigits2 m - 1)) <= inject_Z m) by (rewrite <- Zle_Qle; exact L).
  pose proof (pow2_pos e) as Pe.
  set (a := inject_Z (2 ^ (Zdigits2 m - 1))) in *. set (b := inject_Z m) in *.
  set (p := pow2 e) in *.
  assert (a * p <= b * p) by (apply Qmult_le_compat_r; lra). lra.
Qed.

Lemma Zdigits2_lower m k : (0 <= k)%Z -> (2 ^ k <= m)%Z -> (k + 1 <= Zdigits2 m)%Z.
Proof.
  intros Hk H. assert (Hm : (0 < m)%Z).
  { assert (0 < 2 ^ k)%Z by (apply Z.pow_pos_nonneg; lia). lia. }
  destruct (Zdigits2_bounds m Hm) as [_ U].
  destruct (Z_le_gt_dec (k + 1) (Zdigits2 m)) as [C|C]; [exact C|]. exfalso.
  pose proof (Zdigits2_nonneg m).
  assert (2 ^ Zdigits2 m <= 2 ^ k)%Z by (apply Z.pow_le_mono_r; lia). lia.
Qed.

(** *** Aligning mantissas *)

(** Shifting a mantissa left. *)
Lemma iter_xO m d : Zpos (Pos.iter xO m d) = (Zpos m * 2 ^ Zpos d)%Z.
Proof.
  induction d as [|d IH] using Pos.peano_ind.
  - cbn. lia.
  - rewrite Pos.iter_succ, Pos2Z.inj_succ, Z.pow_succ_r by lia.
    rewrite Pos2Z.inj_xO, IH. lia.
Qed.

Lemma shl_align_spec m e e' :
  let p := shl_align m e e' in
  snd p = Z.min e e' /\ Zpos (fst p) = (Zpos m * 2 ^ (e - snd p))%Z.
Proof.
  unfold shl_align. destruct (e' - e)%Z as [|q|q] eqn:E; cbn [fst snd].
  - split; [lia|]. rewrite Z.sub_diag. lia.
  - split; [lia|]. rewrite Z.sub_diag. lia.
  - split; [lia|]. rewrite iter_xO. f_equal. f_equal. lia.
Qed.

Lemma Zdigits2_unique n a :
  (2 ^ (a - 1) <= n < 2 ^ a)%Z -> (1 <= a)%Z -> Zdigits2 n = a.
Proof.
  intros [L U] Ha.
  assert (Zdigits2 n <= a)%Z.
  { apply Zdigits2_le_of_lt; [lia|]. split; [|exact U].
    assert (0 < 2 ^ (a - 1))%Z by (apply Z.pow_pos_nonneg; lia). lia. }
  assert (a - 1 + 1 <= Zdigits2 n)%Z by (apply Zdigits2_lower; [lia|exact L]).
  lia.
Qed.

Lemma Zdigits2_shift m k :
  (0 < m)%Z -> (0 <= k)%Z -> Zdigits2 (m * 2 ^ k) = (Zdigits2 m + k)%Z.
Proof.
  intros Hm Hk. destruct (Zdigits2_bounds m Hm) as [L U].
  assert (D : (1 <= Zdigits2 m)%Z) by (destruct m; try lia; cbn [Zdigits2]; lia).
  assert (P : (0 < 2 ^ k)%Z) by (apply Z.pow_pos_nonneg; lia).
  apply Zdigits2_unique; [|lia]. split.
  - replace (Zdigits2 m + k - 1)%Z with (Zdigits2 m - 1 + k)%Z by lia.
    rewrite Z.pow_add_r by lia. apply Z.mul_le_mono_nonneg_r; lia.
  - rewrite Z.pow_add_r by lia. apply Z.mul_lt_mono_pos_r; lia.
Qed.

Lemma inject_Z_pow2_shift m a b :
  (b <= a)%Z -> inject_Z (m * 2 ^ (a - b)) * pow2 b == inject_Z m * pow2 a.
Proof.
  intros H. rewrite inject_Z_mult, <- pow2_Z by lia.
  rewrite <- Qmult_assoc, <- pow2_add. replace (a - b + b)%Z with a by lia. reflexivity.
Qed.

(** *** Rounded results *)

(** An exact result is a rounded one. *)
Lemma rounds_of_eq x v E : v == x -> rounds_to x v E.
Proof.
  intros H. pose proof (pow2_pos (E - 54)) as P.
  split; [lra|]. split; [lra|]. split; intros G g _ HG; lra.
Qed.

(** So is a result within half a unit of an exponent no larger than that
    of the numbers below [2^E]. *)
Lemma rounds_of_near x v e1 E :
  (e1 <= E - 53)%Z ->
  v - x <= pow2 (e1 - 1) -> x - v <= pow2 (e1 - 1) ->
  (forall G, x <= inject_Z G * pow2 e1 -> v <= inject_Z G * pow2 e1) ->
  (forall G, inject_Z G * pow2 e1 <= x -> inject_Z G * pow2 e1 <= v) ->
  rounds_to x v E.
Proof.
  intros He H1 H2 U L.
  assert (P : pow2 (e1 - 1) <= pow2 (E - 54)) by (apply pow2_le; lia).
  split; [lra|]. split; [lra|].
  split; intros G g Hg HG.
  - rewrite <- (inject_Z_pow2_shift G g e1) in * by lia. apply U. exact HG.
  - rewrite <- (inject_Z_pow2_shift G g e1) in * by lia. apply L. exact HG.
Qed.

Lemma rounds_to_opp x v E : rounds_to x v E -> rounds_to (- x) (- v) E.
Proof.
  intros [H1 [H2 [U L]]]. split; [lra|]. split; [lra|].
  split; intros G g Hg HG.
  - specialize (L (- G)%Z g Hg). rewrite inject_Z_opp in L. lra.
  - specialize (U (- G)%Z g Hg). rewrite inject_Z_opp in U. lra.
Qed.

Lemma rounds_to_ext x x' v v' E :
  x == x' -> v == v' -> rounds_to x v E -> rounds_to x' v' E.
Proof.
  intros Ex Ev [H1 [H2 [U L]]]. split; [lra|]. split; [lra|].
  split; intros G g Hg HG.
  - specialize (U G g Hg). lra.
  - specialize (L G g Hg). lra.
Qed.

Lemma rounds_to_signed (sx : bool) x v E :
  rounds_to x v E ->
  rounds_to (if sx then - x else x) (if sx then - v else v) E.
Proof. destruct sx; [apply rounds_to_opp|exact (fun H => H)]. Qed.

(** *** Multiplication *)

(** The product of two finite numbers, when it is below [2^E] in
    magnitude, is the exact product rounded. *)
Lemma SFmul_spec x y E :
  is_finite_SF x = true -> is_finite_SF y = true ->
  valid_binary x = true -> valid_binary y = true ->
  (-1021 <= E <= 1023)%Z ->
  - pow2 E < SF2Q x * SF2Q y -> SF2Q x * SF2Q y < pow2 E ->
  let r := SFmul prec emax x y in
  is_finite_SF r = true /\ SFsign r = xorb (SFsign x) (SFsign y)
  /\ rounds_to (SF2Q x * SF2Q y) (SF2Q r) E.
Proof.
  intros Fx Fy Vx Vy HE L U r. subst r.
  destruct x as [sx|sx| |sx mx ex], y as [sy|sy| |sy my ey];
    try discriminate Fx; try discriminate Fy; cbn [SFmul].
  1-3: split; [reflexivity|]; split; [reflexivity|]; apply rounds_of_eq;
       cbn [SF2Q]; ring.
  destruct (valid_finite _ _ _ Vx) as [Dx [Ex Nx]].
  destruct (valid_finite _ _ _ Vy) as [Dy [Ey Ny]].
  set (v := inject_Z (Zpos (mx * my)) * pow2 (ex + ey)).
  assert (Hv : SF2Q (S754_finite sx mx ex) * SF2Q (S754_finite sy my ey)
               == if xorb sx sy then - v else v).
  { unfold v. cbn [SF2Q].
    destruct sx, sy; cbn [xorb]; rewrite Pos2Z.inj_mul, inject_Z_mult, pow2_add; ring. }
  assert (Hvb : v < pow2 E).
  { destruct (xorb sx sy); lra. }
  assert (Hloc : located (shr_record_of_loc (Zpos (mx * my)) loc_Exact)
                   (v * pow2 (- (ex + ey)))).
  { split; [cbn; lia|]. cbn. unfold v. rewrite <- Qmult_assoc, pow2_opp. ring. }
  pose proof (digits_magnitude (Zpos (mx * my)) (ex + ey) v E eq_refl
                ltac:(unfold v; apply Qle_refl) Hvb) as Dm.
  assert (Dl : (Zpos (digits2_pos mx) + Zpos (digits2_pos my) - 1
                <= Zdigits2 (Zpos (mx * my)))%Z).
  { destruct (digits2_pos_bounds mx) as [Lx _]. destruct (digits2_pos_bounds my) as [Ly _].
    replace (Zpos (digits2_pos mx) + Zpos (digits2_pos my) - 1)%Z
      with ((Zpos (digits2_pos mx) - 1 + (Zpos (digits2_pos my) - 1)) + 1)%Z by lia.
    apply Zdigits2_lower; [lia|]. rewrite Z.pow_add_r by lia.
    rewrite Pos2Z.inj_mul. apply Z.mul_le_mono_nonneg; try lia;
      apply Z.pow_nonneg; lia. }
  set (d := Zdigits2 (Zpos (mx * my))) in *.
  assert (He1 : (Z.max (ex + ey) (fexp prec emax (d + (ex + ey))) + 1 <= 971)%Z).
  { rewrite fexp_eq. lia. }
  destruct (binary_round_aux_spec (xorb sx sy) (Zpos (mx * my)) (ex + ey) loc_Exact v
              Hloc He1) as [Fr [Sr [w [W1 [W0 [W2 [W3 [W4 [W5 W6]]]]]]]]].
  fold d in W2, W3, W4, W5, W6.
  split; [exact Fr|]. split; [exact Sr|].
  apply (rounds_to_ext (if xorb sx sy then - v else v) _
                       (if xorb sx sy then - w else w));
    [symmetry; exact Hv|symmetry; exact W1|].
  apply rounds_to_signed.
  destruct (Z_le_gt_dec (fexp prec emax (d + (ex + ey))) (ex + ey)) as [C|C].
  - apply rounds_of_eq. apply W4; [reflexivity|lia].
  -     apply rounds_of_near with (e1 := Z.max (ex + ey) (fexp prec emax (d + (ex + ey))));
      try assumption. rewrite fexp_eq in *. lia.
Qed.

(** *** Addition and subtraction *)

(** [binary_round] first shifts the mantissa left as far as the format
    allows, then rounds. *)
Lemma binary_round_spec sx m e :
  let f := fexp prec emax (Zpos (digits2_pos m) + e) in
  (f + 1 <= 971)%Z ->
  let r := binary_round prec emax sx m e in
  let x := inject_Z (Zpos m) * pow2 e in
  is_finite_SF r = true /\ SFsign r = sx
  /\ exists v, SF2Q r == (if sx then - v else v)
       /\ forall E, (f <= E - 53)%Z -> rounds_to x v E.
Proof.
  intros f Hf r x. subst r. unfold binary_round. fold f.
  destruct (shl_align_spec m e f) as [S1 S2].
  destruct (shl_align m e f) as [mz ez]. cbn [fst snd] in S1, S2.
  assert (Hx : inject_Z (Zpos mz) * pow2 ez == x).
  { unfold x. rewrite S2. apply inject_Z_pow2_shift. lia. }
  assert (Hd : (Zdigits2 (Zpos mz) + ez = Zpos (digits2_pos m) + e)%Z).
  { rewrite S2, Zdigits2_shift by lia. cbn [Zdigits2]. lia. }
  assert (Hloc : located (shr_record_of_loc (Zpos mz) loc_Exact) (x * pow2 (- ez))).
  { split; [cbn; lia|]. cbn. rewrite <- Hx, <- Qmult_assoc, pow2_opp. ring. }
  assert (He1 : Z.max ez (fexp prec emax (Zdigits2 (Zpos mz) + ez)) = f).
  { rewrite Hd. fold f. lia. }
  destruct (binary_round_aux_spec sx (Zpos mz) ez loc_Exact x Hloc)
    as [Fr [Sr [w [W1 [W0 [W2 [W3 [W4 [W5 W6]]]]]]]]].
  { rewrite He1. exact Hf. }
  rewrite He1 in W2, W3, W4, W5, W6.
  split; [exact Fr|]. split; [exact Sr|]. exists w. split; [exact W1|].
  intros E HE. apply rounds_of_near with (e1 := f); assumption.
Qed.

(** [binary_normalize] of an integer [M] at exponent [e]. *)
Lemma binary_normalize_spec M e E :
  (-1021 <= E <= 1023)%Z ->
  - pow2 E < inject_Z M * pow2 e -> inject_Z M * pow2 e < pow2 E ->
  let r := binary_normalize prec emax M e false in
  is_finite_SF r = true /\ SFsign r = (M <? 0)%Z
  /\ rounds_to (inject_Z M * pow2 e) (SF2Q r) E.
Proof.
  intros HE L U r. subst r.
  destruct M as [|m|m]; cbn [binary_normalize].
  - split; [reflexivity|]. split; [reflexivity|]. apply rounds_of_eq.
    cbn [SF2Q]. change (inject_Z 0) with 0. ring.
  - assert (D : (Zpos (digits2_pos m) + e <= E)%Z).
    { apply (digits_magnitude (Zpos m) e _ E eq_refl (Qle_refl _) U). }
    destruct (binary_round_spec false m e) as [Fr [Sr [w [W1 W2]]]].
    { rewrite fexp_eq. lia. }
    split; [exact Fr|]. split; [exact Sr|].
    apply (rounds_to_ext (inject_Z (Zpos m) * pow2 e) _ w);
      [reflexivity|symmetry; exact W1|].
    apply W2. rewrite fexp_eq. lia.
  - assert (N : inject_Z (Zneg m) == - inject_Z (Zpos m)).
    { change (Zneg m) with (- Zpos m)%Z. rewrite inject_Z_opp. reflexivity. }
    assert (U' : inject_Z (Zpos m) * pow2 e < pow2 E) by (rewrite N in L; lra).
    assert (D : (Zpos (digits2_pos m) + e <= E)%Z).
    { apply (digits_magnitude (Zpos m) e _ E eq_refl (Qle_refl _) U'). }
    destruct (binary_round_spec true m e) as [Fr [Sr [w [W1 W2]]]].
    { rewrite fexp_eq. lia. }
    split; [exact Fr|]. split; [exact Sr|].
    apply (rounds_to_ext (- (inject_Z (Zpos m) * pow2 e)) _ (- w));
      [rewrite N; ring|symmetry; exact W1|].
    apply rounds_to_opp. apply W2. rewrite fexp_eq. lia.
Qed.

(** A mantissa brought to a smaller exponent denotes the same number. *)
Lemma aligned_value s m e ez :
  (ez <= e)%Z ->
  inject_Z (cond_Zopp s (Zpos (fst (shl_align m e ez)))) * pow2 ez
  == SF2Q (S754_finite s m e).
Proof.
  intros H. destruct (shl_align_spec m e ez) as [S1 S2].
  rewrite S2, S1. replace (Z.min e ez) with ez by lia. cbn [SF2Q].
  destruct s; cbn [cond_Zopp].
  - rewrite inject_Z_opp.
    setoid_replace (- inject_Z (Zpos m * 2 ^ (e - ez)) * pow2 ez)
      with (- (inject_Z (Zpos m * 2 ^ (e - ez)) * pow2 ez)) by ring.
    rewrite inject_Z_pow2_shift by lia. ring.
  - apply inject_Z_pow2_shift. lia.
Qed.

Lemma nonneg_scaled M e : 0 <= inject_Z M * pow2 e -> (0 <= M)%Z.
Proof.
  intros H. pose proof (pow2_pos e) as P.
  destruct (Z_le_gt_dec 0 M) as [C|C]; [exact C|]. exfalso.
  assert (inject_Z M < 0) by (change 0 with (inject_Z 0); rewrite <- Zlt_Qlt; lia).
  set (a := inject_Z M) in *. set (p := pow2 e) in *. nra.
Qed.

Lemma finite_nonneg_sign s m e : 0 <= SF2Q (S754_finite s m e) -> s = false.
Proof.
  destruct s; [|reflexivity]. cbn [SF2Q]. intros H. exfalso.
  assert (P : 0 < inject_Z (Zpos m) * pow2 e).
  { apply Qmult_lt_0_compat; [reflexivity|apply pow2_pos]. }
  lra.
Qed.

(** The sum of two finite numbers, when it is below [2^E] in magnitude,
    is the exact sum rounded; it is not [-0] when the exact sum is not
    negative and one of the terms is not negative either. *)
Lemma SFadd_spec x y E :
  is_finite_SF x = true -> is_finite_SF y = true ->
  (-1021 <= E <= 1023)%Z ->
  - pow2 E < SF2Q x + SF2Q y -> SF2Q x + SF2Q y < pow2 E ->
  let r := SFadd prec emax x y in
  is_finite_SF r = true
  /\ (0 <= SF2Q x + SF2Q y -> SFsign x = false \/ SFsign y = false -> SFsign r = false)
  /\ rounds_to (SF2Q x + SF2Q y) (SF2Q r) E.
Proof.
  intros Fx Fy HE L U r. subst r.
  destruct x as [sx|sx| |sx mx ex], y as [sy|sy| |sy my ey];
    try discriminate Fx; try discriminate Fy; cbn [SFadd].
  - destruct sx, sy; (split; [reflexivity|]);
      (split; [cbn; intros _ [H|H]; congruence|]); apply rounds_of_eq; cbn [SF2Q]; ring.
  - split; [reflexivity|].
    split; [intros Hn _; apply (finite_nonneg_sign sy my ey); cbn [SF2Q] in *; lra|].
    apply rounds_of_eq. cbn [SF2Q]. ring.
  - split; [reflexivity|].
    split; [intros Hn _; apply (finite_nonneg_sign sx mx ex); cbn [SF2Q] in *; lra|].
    apply rounds_of_eq. cbn [SF2Q]. ring.
  - set (ez := Z.min ex ey).
    pose proof (aligned_value sx mx ex ez ltac:(unfold ez; lia)) as Ax.
    pose proof (aligned_value sy my ey ez ltac:(unfold ez; lia)) as Ay.
    set (ax := cond_Zopp sx (Zpos (fst (shl_align mx ex ez)))) in *.
    set (ay := cond_Zopp sy (Zpos (fst (shl_align my ey ez)))) in *.
    assert (Es : inject_Z (ax + ay) * pow2 ez
                 == SF2Q (S754_finite sx mx ex) + SF2Q (S754_finite sy my ey)).
    { rewrite inject_Z_plus, <- Ax, <- Ay. ring. }
    rewrite <- Es in L, U.
    destruct (binary_normalize_spec (ax + ay) ez E HE L U) as [Fr [Sr B]].
    split; [exact Fr|]. split.
    + intros Hn _. rewrite Sr. apply Z.ltb_ge. apply (nonneg_scaled _ ez).
      rewrite Es. exact Hn.
    + revert B. apply rounds_to_ext; [exact Es|reflexivity].
Qed.

(** The same for the difference. *)
Lemma SFsub_spec x y E :
  is_finite_SF x = true -> is_finite_SF y = true ->
  (-1021 <= E <= 1023)%Z ->
  - pow2 E < SF2Q x - SF2Q y -> SF2Q x - SF2Q y < pow2 E ->
  let r := SFsub prec emax x y in
  is_finite_SF r = true
  /\ (0 <= SF2Q x - SF2Q y -> SFsign x = false \/ SFsign y = true -> SFsign r = false)
  /\ rounds_to (SF2Q x - SF2Q y) (SF2Q r) E.
Proof.
  intros Fx Fy HE L U r. subst r.
  destruct x as [sx|sx| |sx mx ex], y as [sy|sy| |sy my ey];
    try discriminate Fx; try discriminate Fy; cbn [SFsub].
  - destruct sx, sy; (split; [reflexivity|]);
      (split; [cbn; intros _ [H|H]; congruence|]); apply rounds_of_eq; cbn [SF2Q]; ring.
  - split; [reflexivity|].
    split.
    { intros Hn _. apply (finite_nonneg_sign (negb sy) my ey).
      cbn [SF2Q] in *. destruct sy; cbn [negb]; lra. }
    apply rounds_of_eq. cbn [SF2Q]. destruct sy; cbn [negb]; ring.
  - split; [reflexivity|].
    split; [intros Hn _; apply (finite_nonneg_sign sx mx ex); cbn [SF2Q] in *; lra|].
    apply rounds_of_eq. cbn [SF2Q]. ring.
  - set (ez := Z.min ex ey).
    pose proof (aligned_value sx mx ex ez ltac:(unfold ez; lia)) as Ax.
    pose proof (aligned_value sy my ey ez ltac:(unfold ez; lia)) as Ay.
    set (ax := cond_Zopp sx (Zpos (fst (shl_align mx ex ez)))) in *.
    set (ay := cond_Zopp sy (Zpos (fst (shl_align my ey ez)))) in *.
    assert (Es : inject_Z (ax - ay) * pow2 ez
                 == SF2Q (S754_finite sx mx ex) - SF2Q (S754_finite sy my ey)).
    { unfold Z.sub. rewrite inject_Z_plus, inject_Z_opp, <- Ax, <- Ay. ring. }
    rewrite <- Es in L, U.
    destruct (binary_normalize_spec (ax - ay) ez E HE L U) as [Fr [Sr B]].
    split; [exact Fr|]. split.
    + intros Hn _. rewrite Sr. apply Z.ltb_ge. apply (nonneg_scaled _ ez).
      rewrite Es. exact Hn.
    + revert B. apply rounds_to_ext; [exact Es|reflexivity].
Qed.

(** *** Division *)

(** The location [new_location] computes from the remainder of a
    division is that of the quotient. *)
Lemma located_div q r m2 y :
  (0 < m2)%Z -> (0 <= q)%Z -> (0 <= r < m2)%Z ->
  y * inject_Z m2 == inject_Z q * inject_Z m2 + inject_Z r ->
  located (shr_record_of_loc q (new_location m2 r)) y.
Proof.
  intros Hm Hq [Hr0 Hr] Hy.
  assert (M : 0 < inject_Z m2) by (change 0 with (inject_Z 0); rewrite <- Zlt_Qlt; lia).
  assert (R0 : 0 <= inject_Z r) by (change 0 with (inject_Z 0); rewrite <- Zle_Qle; lia).
  assert (R1 : inject_Z r < inject_Z m2) by (rewrite <- Zlt_Qlt; lia).
  set (t := y - inject_Z q).
  assert (Ht : t * inject_Z m2 == inject_Z r) by (unfold t; lra).
  assert (Half : forall c, (2 * r ?= m2)%Z = c ->
                 match c with
                 | Lt => t < 1#2
                 | Eq => t == 1#2
                 | Gt => 1#2 < t
                 end).
  { intros c Hc.
    assert (E2 : inject_Z (2 * r) == 2 * inject_Z r) by (rewrite inject_Z_mult; reflexivity).
    destruct c.
    - apply Z.compare_eq in Hc.
      assert (2 * inject_Z r == inject_Z m2) by (rewrite <- E2, Hc; reflexivity).
      set (a := inject_Z r) in *. set (b := inject_Z m2) in *. nra.
    - rewrite Z.compare_lt_iff, Zlt_Qlt, E2 in Hc.
      set (a := inject_Z r) in *. set (b := inject_Z m2) in *. nra.
    - rewrite Z.compare_gt_iff, Zlt_Qlt, E2 in Hc.
      set (a := inject_Z r) in *. set (b := inject_Z m2) in *. nra. }
  assert (T0 : r <> 0%Z -> 0 < t).
  { intros Hne. assert (0 < inject_Z r)
      by (change 0 with (inject_Z 0); rewrite <- Zlt_Qlt; lia).
    set (a := inject_Z r) in *. set (b := inject_Z m2) in *. nra. }
  assert (T1 : t < 1).
  { set (a := inject_Z r) in *. set (b := inject_Z m2) in *. nra. }
  unfold new_location.
  destruct (Z.even m2) eqn:Ev; unfold new_location_even, new_location_odd;
    destruct (r =? 0)%Z eqn:Er.
  - apply Z.eqb_eq in Er. subst r. change (inject_Z 0) with 0 in *.
    assert (t == 0).
    { set (b := inject_Z m2) in *. nra. }
    split; [exact Hq|]. cbn. unfold t in *. lra.
  - apply Z.eqb_neq in Er. specialize (T0 Er).
    specialize (Half _ eq_refl).
    destruct (2 * r ?= m2)%Z; (split; [exact Hq|]); cbn; unfold t in *; lra.
  - apply Z.eqb_eq in Er. subst r. change (inject_Z 0) with 0 in *.
    assert (t == 0).
    { set (b := inject_Z m2) in *. nra. }
    split; [exact Hq|]. cbn. unfold t in *. lra.
  - apply Z.eqb_neq in Er. specialize (T0 Er).
    destruct (2 * r + 1 ?= m2)%Z eqn:C.
    + apply Z.compare_eq in C.
      assert (H2 : (2 * r ?= m2)%Z = Lt) by (apply Z.compare_lt_iff; lia).
      specialize (Half _ H2). split; [exact Hq|]. cbn. unfold t in *. lra.
    + rewrite Z.compare_lt_iff in C.
      assert (H2 : (2 * r ?= m2)%Z = Lt) by (apply Z.compare_lt_iff; lia).
      specialize (Half _ H2). split; [exact Hq|]. cbn. unfold t in *. lra.
    + rewrite Z.compare_gt_iff in C.
      assert (H2 : (2 * r ?= m2)%Z = Gt).
      { apply Z.compare_gt_iff.
        assert (m2 <> 2 * r)%Z.
        { intros E. rewrite E, Z.even_mul in Ev. discriminate Ev. }
        lia. }
        specialize (Half _ H2). split; [exact Hq|]. cbn. unfold t in *. lra.
Qed.

(** [SFdiv_core_binary] returns the truncated quotient with its location,
    at an exponent that leaves at least 53 digits. *)
Lemma SFdiv_core_spec m1 e1 m2 e2 z :
  z * (inject_Z (Zpos m2) * pow2 e2) == inject_Z (Zpos m1) * pow2 e1 ->
  let c := SFdiv_core_binary prec emax (Zpos m1) e1 (Zpos m2) e2 in
  located (shr_record_of_loc (fst (fst c)) (snd c)) (z * pow2 (- snd (fst c)))
  /\ (snd (fst c)
      <= fexp prec emax (Zpos (digits2_pos m1) + e1 - (Zpos (digits2_pos m2) + e2)))%Z.
Proof.
  intros Hz c. subst c. unfold SFdiv_core_binary. cbn [Zdigits2].
  set (D := (Zpos (digits2_pos m1) + e1 - (Zpos (digits2_pos m2) + e2))%Z).
  set (e' := Z.min (fexp prec emax D) (e1 - e2)).
  set (s := (e1 - e2 - e')%Z).
  assert (Hs : (0 <= s)%Z) by (unfold s, e'; lia).
  set (m' := match s with
             | 0%Z => Zpos m1
             | Zpos _ => Z.shiftl (Zpos m1) s
             | Zneg _ => 0%Z
             end).
  assert (Hm' : m' = (Zpos m1 * 2 ^ s)%Z).
  { unfold m'. destruct s as [|p|p] eqn:Es; try lia.
    rewrite Z.shiftl_mul_pow2 by lia. reflexivity. }
  pose proof (Z_div_mod m' (Zpos m2) eq_refl) as Hdiv.
  destruct (Z.div_eucl m' (Zpos m2)) as [q r]. cbn [fst snd].
  destruct Hdiv as [Hqr Hr].
  split; [|unfold e'; lia].
  assert (Hm0 : (0 <= m')%Z) by (rewrite Hm'; apply Z.mul_nonneg_nonneg; [lia|apply Z.pow_nonneg; lia]).
  assert (Hq : (0 <= q)%Z) by nia.
  apply located_div; try assumption; try lia.
  rewrite <- inject_Z_mult, <- inject_Z_plus.
  replace (q * Zpos m2 + r)%Z with m' by lia. rewrite Hm'.
  assert (E1 : inject_Z (Zpos m1 * 2 ^ s) * pow2 e' * pow2 e2 == inject_Z (Zpos m1) * pow2 e1).
  { rewrite inject_Z_mult, <- pow2_Z by lia.
    rewrite <- !Qmult_assoc, <- !pow2_add. replace (s + (e' + e2))%Z with e1 by (unfold s; lia).
    reflexivity. }
  pose proof (pow2_opp e') as O. pose proof (pow2_pos e2) as P2.
  set (a := inject_Z (Zpos m1 * 2 ^ s)) in *. set (b := inject_Z (Zpos m2)) in *.
  set (p' := pow2 e') in *. set (n' := pow2 (- e')) in *. set (p2 := pow2 e2) in *.
  set (X := inject_Z (Zpos m1) * pow2 e1) in *.
  assert (G : (z * n' * b - a) * (p' * p2) == 0).
  { setoid_replace ((z * n' * b - a) * (p' * p2))
      with (z * (b * p2) * (p' * n') - a * p' * p2) by ring.
    rewrite Hz, O, E1. ring. }
  assert (PP : 0 < p' * p2).
  { apply Qmult_lt_0_compat; [apply pow2_pos|exact P2]. }
  apply Qmult_integral in G. destruct G as [G|G]; lra.
Qed.

(** The quotient of a finite number by a finite number other than zero,
    when it is below [2^E] in magnitude, is the exact quotient [z]
    rounded. *)
Lemma SFdiv_spec x sy my ey z E :
  is_finite_SF x = true ->
  (-1021 <= E <= 1023)%Z ->
  z * SF2Q (S754_finite sy my ey) == SF2Q x ->
  - pow2 E < z -> z < pow2 E ->
  let r := SFdiv prec emax x (S754_finite sy my ey) in
  is_finite_SF r = true /\ SFsign r = xorb (SFsign x) sy
  /\ rounds_to z (SF2Q r) E.
Proof.
  intros Fx HE Hz L U r. subst r.
  assert (Ypos : 0 < inject_Z (Zpos my) * pow2 ey).
  { apply Qmult_lt_0_compat; [reflexivity|apply pow2_pos]. }
  destruct x as [sx|sx| |sx mx ex]; try discriminate Fx; cbn [SFdiv].
  - split; [reflexivity|]. split; [reflexivity|]. cbn [SF2Q] in *.
    assert (Z0 : z == 0).
    { assert (G : z * (inject_Z (Zpos my) * pow2 ey) == 0) by (destruct sy; lra).
      apply Qmult_integral in G. destruct G as [G|G]; lra. }
    apply rounds_of_eq. lra.
  - set (zm := if xorb sx sy then - z else z).
    assert (Hzm : zm * (inject_Z (Zpos my) * pow2 ey) == inject_Z (Zpos mx) * pow2 ex).
    { unfold zm. cbn [SF2Q] in Hz. destruct sx, sy; cbn [xorb]; lra. }
    assert (Zb : zm < pow2 E) by (unfold zm; destruct (xorb sx sy); lra).
    destruct (SFdiv_core_spec mx ex my ey zm Hzm) as [Hloc Hez]. cbv zeta in Hloc, Hez.
    destruct (SFdiv_core_binary prec emax (Zpos mx) ex (Zpos my) ey) as [[q ez] lz].
    cbn [fst snd] in Hloc, Hez.
    set (D := (Zpos (digits2_pos mx) + ex - (Zpos (digits2_pos my) + ey))%Z) in *.
    assert (HD : (D <= E)%Z).
    { destruct (Z_le_gt_dec D E) as [C|C]; [exact C|]. exfalso.
      destruct (digits2_pos_bounds mx) as [Lx _]. destruct (digits2_pos_bounds my) as [_ Uy].
      assert (X1 : pow2 (Zpos (digits2_pos mx) - 1 + ex) <= inject_Z (Zpos mx) * pow2 ex).
      { rewrite pow2_add, (pow2_Z (Zpos (digits2_pos mx) - 1)) by lia.
        apply Qmult_le_compat_r.
        - rewrite <- Zle_Qle. exact Lx.
        - apply Qlt_le_weak, pow2_pos. }
      assert (Y1 : inject_Z (Zpos my) * pow2 ey < pow2 (Zpos (digits2_pos my) + ey)).
      { rewrite pow2_add, (pow2_Z (Zpos (digits2_pos my))) by lia.
        apply Qmult_lt_compat_r.
        - apply pow2_pos.
        - rewrite <- Zlt_Qlt. exact Uy. }
      assert (P : pow2 E * pow2 (Zpos (digits2_pos my) + ey)
                  <= pow2 (Zpos (digits2_pos mx) - 1 + ex)).
      { rewrite <- pow2_add. apply pow2_le. unfold D in C. lia. }
      pose proof (pow2_pos E) as PE0.
      pose proof (pow2_pos (Zpos (digits2_pos my) + ey)) as PY.
      set (X := inject_Z (Zpos mx) * pow2 ex) in *.
      set (Y := inject_Z (Zpos my) * pow2 ey) in *.
      set (a := pow2 (Zpos (digits2_pos my) + ey)) in *.
      set (b := pow2 (Zpos (digits2_pos mx) - 1 + ex)) in *.
      set (pe := pow2 E) in *.
      assert (zm * Y < pe * a).
      { apply Qle_lt_trans with (pe * Y).
        - apply Qmult_le_compat_r; lra.
        - apply Qmult_lt_l; lra. }
      lra. }
    destruct (located_record _ _ _ Hloc) as [Hq [Q1 Q2]].
    assert (Hdq : (fexp prec emax (Zdigits2 q + ez) <= fexp prec emax E)%Z).
    { destruct (Z.eq_dec q 0) as [->|Hq0].
      - cbn [Zdigits2]. rewrite !fexp_eq in *. lia.
      - assert (Zdigits2 q + ez <= E)%Z.
        { apply (digits_magnitude q ez zm E); [lia| |exact Zb].
          apply Qge_pow2_shift. exact Q1. }
        rewrite !fexp_eq. lia. }
    assert (He1 : (Z.max ez (fexp prec emax (Zdigits2 q + ez)) <= E - 53)%Z).
    { rewrite !fexp_eq in *. lia. }
    destruct (binary_round_aux_spec (xorb sx sy) q ez lz zm Hloc)
      as [Fr [Sr [w [W1 [W0 [W2 [W3 [W4 [W5 W6]]]]]]]]]; [lia|].
    split; [exact Fr|]. split; [exact Sr|].
    apply (rounds_to_ext (if xorb sx sy then - zm else zm) _
                         (if xorb sx sy then - w else w));
      [unfold zm; destruct (xorb sx sy); ring|symmetry; exact W1|].
    apply rounds_to_signed.
    apply rounds_of_near with (e1 := Z.max ez (fexp prec emax (Zdigits2 q + ez)));
      assumption.
Qed.

(** *** Comparisons *)

Lemma Qcompare_Lt a b : a < b -> (a ?= b) = Lt.
Proof. intros H. apply Qlt_alt. exact H. Qed.

Lemma Qcompare_Gt a b : b < a -> (a ?= b) = Gt.
Proof. intros H. apply Qgt_alt. exact H. Qed.

Lemma Qcompare_Eq a b : a == b -> (a ?= b) = Eq.
Proof. intros H. apply Qeq_alt. exact H. Qed.

Lemma finite_value_pos m e : 0 < inject_Z (Zpos m) * pow2 e.
Proof. apply Qmult_lt_0_compat; [reflexivity|apply pow2_pos]. Qed.

Lemma valid_mantissa_lt m e s :
  valid_binary (S754_finite s m e) = true -> (Zpos m < 2 ^ 53)%Z.
Proof.
  intros V. destruct (valid_finite _ _ _ V) as [D _].
  destruct (digits2_pos_bounds m) as [_ U].
  assert (2 ^ Zpos (digits2_pos m) <= 2 ^ 53)%Z by (apply Z.pow_le_mono_r; lia). lia.
Qed.

(** Among valid numbers the one of smaller exponent is the smaller. *)
Lemma exponent_lt_value s1 m1 e1 s2 m2 e2 :
  valid_binary (S754_finite s1 m1 e1) = true ->
  valid_binary (S754_finite s2 m2 e2) = true ->
  (e1 < e2)%Z ->
  inject_Z (Zpos m1) * pow2 e1 < inject_Z (Zpos m2) * pow2 e2.
Proof.
  intros V1 V2 He.
  pose proof (valid_mantissa_lt _ _ _ V1) as U1.
  destruct (valid_finite _ _ _ V1) as [_ [E1 _]].
  destruct (valid_finite _ _ _ V2) as [_ [E2 N2]].
  assert (D2 : Zpos (digits2_pos m2) = 53%Z) by lia.
  destruct (digits2_pos_bounds m2) as [L2 _]. rewrite D2 in L2.
  apply Qlt_le_trans with (pow2 (53 + e1)).
  - rewrite pow2_add, (pow2_Z 53) by lia. apply Qmult_lt_compat_r; [apply pow2_pos|].
    rewrite <- Zlt_Qlt. exact U1.
  - apply Qle_trans with (pow2 (52 + e2)); [apply pow2_le; lia|].
    rewrite pow2_add, (pow2_Z 52) by lia.
    apply Qmult_le_compat_r; [|apply Qlt_le_weak, pow2_pos].
    rewrite <- Zle_Qle. exact L2.
Qed.

(** So that the magnitudes compare as exponent and mantissa do. *)
Lemma magnitude_compare s1 m1 e1 s2 m2 e2 :
  valid_binary (S754_finite s1 m1 e1) = true ->
  valid_binary (S754_finite s2 m2 e2) = true ->
  (inject_Z (Zpos m1) * pow2 e1 ?= inject_Z (Zpos m2) * pow2 e2)
  = match (e1 ?= e2)%Z with
    | Lt => Lt
    | Gt => Gt
    | Eq => Pos.compare_cont Eq m1 m2
    end.
Proof.
  intros V1 V2. destruct (Z.compare_spec e1 e2) as [E|E|E].
  - subst e2. change (Pos.compare_cont Eq m1 m2) with (Pos.compare m1 m2).
    pose proof (pow2_pos e1) as P.
    destruct (Pos.compare_spec m1 m2) as [C|C|C].
    + subst m2. apply Qcompare_Eq. reflexivity.
    + apply Qcompare_Lt. apply Qmult_lt_compat_r; [exact P|]. rewrite <- Zlt_Qlt. lia.
    + apply Qcompare_Gt. apply Qmult_lt_compat_r; [exact P|]. rewrite <- Zlt_Qlt. lia.
  - apply Qcompare_Lt. apply (exponent_lt_value s1 m1 e1 s2 m2 e2); assumption.
  - apply Qcompare_Gt. apply (exponent_lt_value s2 m2 e2 s1 m1 e1); assumption.
Qed.

Lemma Qcompare_opp_opp a b : (- a ?= - b) = CompOpp (a ?= b).
Proof.
  destruct (Qcompare_spec a b) as [E|E|E]; cbn [CompOpp].
  - apply Qcompare_Eq. rewrite E. reflexivity.
  - apply Qcompare_Gt. lra.
  - apply Qcompare_Lt. lra.
Qed.

(** The comparison of two finite numbers is that of the rationals they
    denote. *)
Lemma SFcompare_value x y :
  is_finite_SF x = true -> is_finite_SF y = true ->
  valid_binary x = true -> valid_binary y = true ->
  SFcompare x y = Some (SF2Q x ?= SF2Q y).
Proof.
  intros Fx Fy Vx Vy.
  destruct x as [sx|sx| |sx mx ex], y as [sy|sy| |sy my ey];
    try discriminate Fx; try discriminate Fy; cbn [SFcompare SF2Q].
  - reflexivity.
  - pose proof (finite_value_pos my ey) as P. f_equal. symmetry.
    destruct sy; [apply Qcompare_Gt|apply Qcompare_Lt]; lra.
  - pose proof (finite_value_pos mx ex) as P. f_equal. symmetry.
    destruct sx; [apply Qcompare_Lt|apply Qcompare_Gt]; lra.
  - pose proof (finite_value_pos mx ex) as Px. pose proof (finite_value_pos my ey) as Py.
    pose proof (magnitude_compare sx mx ex sy my ey Vx Vy) as M.
    f_equal. symmetry. destruct sx, sy.
    + setoid_replace (- inject_Z (Zpos mx) * pow2 ex)
        with (- (inject_Z (Zpos mx) * pow2 ex)) by ring.
      setoid_replace (- inject_Z (Zpos my) * pow2 ey)
        with (- (inject_Z (Zpos my) * pow2 ey)) by ring.
      rewrite Qcompare_opp_opp, M. destruct (ex ?= ey)%Z; reflexivity.
    + apply Qcompare_Lt. lra.
    + apply Qcompare_Gt. lra.
    + exact M.
Qed.

Lemma ltb_value x y :
  finite x = true -> finite y = true ->
  (x <? y)%float = true <-> valueOf x < valueOf y.
Proof.
  intros Fx Fy. rewrite ltb_spec. unfold SFltb.
  rewrite (SFcompare_value _ _ Fx Fy (Prim2SF_valid x) (Prim2SF_valid y)).
  rewrite Qlt_alt. fold (valueOf x) (valueOf y).
  destruct (valueOf x ?= valueOf y); split; congruence.
Qed.

Lemma leb_value x y :
  finite x = true -> finite y = true ->
  (x <=? y)%float = true <-> valueOf x <= valueOf y.
Proof.
  intros Fx Fy. rewrite leb_spec. unfold SFleb.
  rewrite (SFcompare_value _ _ Fx Fy (Prim2SF_valid x) (Prim2SF_valid y)).
  rewrite Qle_alt. fold (valueOf x) (valueOf y).
  destruct (valueOf x ?= valueOf y); split; congruence.
Qed.

(** A number between two finite ones is finite: neither NaN nor an
    infinity. *)
Lemma between_finite lo x hi :
  finite lo = true -> finite hi = true ->
  (lo <=? x)%float = true -> (x <=? hi)%float = true -> finite x = true.
Proof.
  unfold finite. rewrite !leb_spec. unfold SFleb. intros Fl Fh.
  destruct (Prim2SF lo) as [sl|sl| |sl ml el]; try discriminate Fl;
    destruct (Prim2SF hi) as [sh|sh| |sh mh eh]; try discriminate Fh;
    destruct (Prim2SF x) as [s|s| |s m e]; cbn [SFcompare is_finite_SF];
    intros H1 H2; try reflexivity; try discriminate H1; try discriminate H2;
    destruct s; try discriminate H1; try discriminate H2.
Qed.

(** *** The operations on numbers *)

(** The four operations on primitive numbers. *)
Lemma mul_value a b E :
  finite a = true -> finite b = true -> (-1021 <= E <= 1023)%Z ->
  - pow2 E < valueOf a * valueOf b -> valueOf a * valueOf b < pow2 E ->
  finite (a * b) = true /\ signOf (a * b) = xorb (signOf a) (signOf b)
  /\ rounds_to (valueOf a * valueOf b) (valueOf (a * b)) E.
Proof.
  unfold finite, valueOf, signOf. rewrite mul_spec. intros Fa Fb.
  apply SFmul_spec; try assumption; apply Prim2SF_valid.
Qed.

Lemma add_value a b E :
  finite a = true -> finite b = true -> (-1021 <= E <= 1023)%Z ->
  - pow2 E < valueOf a + valueOf b -> valueOf a + valueOf b < pow2 E ->
  finite (a + b) = true
  /\ (0 <= valueOf a + valueOf b -> signOf a = false \/ signOf b = false ->
      signOf (a + b) = false)
  /\ rounds_to (valueOf a + valueOf b) (valueOf (a + b)) E.
Proof.
  unfold finite, valueOf, signOf. rewrite add_spec. intros Fa Fb.
  apply SFadd_spec; assumption.
Qed.

Lemma sub_value a b E :
  finite a = true -> finite b = true -> (-1021 <= E <= 1023)%Z ->
  - pow2 E < valueOf a - valueOf b -> valueOf a - valueOf b < pow2 E ->
  finite (a - b) = true
  /\ (0 <= valueOf a - valueOf b -> signOf a = false \/ signOf b = true ->
      signOf (a - b) = false)
  /\ rounds_to (valueOf a - valueOf b) (valueOf (a - b)) E.
Proof.
  unfold finite, valueOf, signOf. rewrite sub_spec. intros Fa Fb.
  apply SFsub_spec; assumption.
Qed.

Lemma div_value a b z E :
  finite a = true -> finite b = true -> ~ valueOf b == 0 ->
  (-1021 <= E <= 1023)%Z ->
  z * valueOf b == valueOf a ->
  - pow2 E < z -> z < pow2 E ->
  finite (a / b) = true /\ signOf (a / b) = xorb (signOf a) (signOf b)
  /\ rounds_to z (valueOf (a / b)) E.
Proof.
  unfold finite, valueOf, signOf. rewrite div_spec. intros Fa Fb Nb.
  destruct (Prim2SF b) as [sb|sb| |sb mb eb]; try discriminate Fb.
  - exfalso. apply Nb. reflexivity.
  - apply SFdiv_spec; assumption.
Qed.

(** *** Math.round *)

(** Rounding an integer. *)
Lemma Qfloor_half_Z k : Qfloor (inject_Z k + (1#2))%Q = k.
Proof.
  pose proof (Qfloor_le (inject_Z k + (1#2))) as L.
  pose proof (Qlt_floor (inject_Z k + (1#2))) as U.
  set (f := Qfloor (inject_Z k + (1#2))%Q) in *.
  rewrite inject_Z_plus in U. change (inject_Z 1) with 1%Q in U.
  assert (f < k + 1)%Z.
  { rewrite Zlt_Qlt, inject_Z_plus. change (inject_Z 1) with 1%Q. lra. }
  assert (k < f + 1)%Z.
  { rewrite Zlt_Qlt, inject_Z_plus. change (inject_Z 1) with 1%Q. lra. }
  lia.
Qed.

(** The integer [Math_round] computes from mantissa and exponent is the
    number rounded half up. *)
Lemma round_mantissa m e :
  (if 0 <=? e then Zpos m * 2 ^ e else (2 * Zpos m + 2 ^ (- e)) / 2 ^ (1 - e))%Z
  = roundHalfUp (inject_Z (Zpos m) * pow2 e).
Proof.
  unfold roundHalfUp. destruct (Z.leb_spec 0 e) as [He|He].
  - rewrite pow2_Z by exact He. rewrite <- inject_Z_mult. symmetry. apply Qfloor_half_Z.
  - rewrite Zdiv_Qdiv. apply Qfloor_comp.
    assert (P : (0 < inject_Z (2 ^ (- e)))%Q).
    { change 0%Q with (inject_Z 0). rewrite <- Zlt_Qlt. apply Z.pow_pos_nonneg; lia. }
    assert (E1 : (pow2 e * inject_Z (2 ^ (- e)) == 1)%Q).
    { rewrite <- pow2_Z by lia. apply pow2_opp. }
    replace (1 - e)%Z with (1 + - e)%Z by lia. rewrite Z.pow_add_r by lia.
    rewrite inject_Z_plus, !inject_Z_mult. change (inject_Z (2 ^ 1)) with 2%Q.
    change (inject_Z 2) with 2%Q.
    set (a := inject_Z (Zpos m)) in *. set (p := inject_Z (2 ^ (- e))) in *.
    set (q := pow2 e) in *.
    assert (Hq : (q == / p)%Q).
    { apply Qmult_inj_r with p; [lra|]. rewrite E1. field. lra. }
    rewrite Hq. field. lra.
Qed.

(** [Math.round] of a finite number that is not negative, not [-0] and
    below [2^52] is the number rounded half up, in exact arithmetic. *)
Lemma Math_round_value x :
  finite x = true -> signOf x = false -> (valueOf x < 4503599627370496)%Q ->
  Math_round x = of_Z (roundHalfUp (valueOf x)).
Proof.
  intros Fx Sx Hx. unfold Math_round.
  assert (A : (abs x <? two52) = true).
  { rewrite ltb_spec, abs_spec. unfold SFltb.
    assert (Ea : SFabs (Prim2SF x) = Prim2SF x).
    { unfold signOf, finite in *. destruct (Prim2SF x); try discriminate Fx;
        cbn in Sx; subst; reflexivity. }
    rewrite Ea.
    rewrite (SFcompare_value (Prim2SF x) (Prim2SF two52) Fx eq_refl
               (Prim2SF_valid x) (Prim2SF_valid two52)).
    assert (Hx' : (valueOf x < valueOf two52)%Q) by exact Hx.
    unfold valueOf in Hx'. rewrite (Qcompare_Lt _ _ Hx'). reflexivity. }
  rewrite A. unfold is_zero. rewrite eqb_spec. unfold SFeqb.
  unfold valueOf, signOf, finite in *.
  destruct (Prim2SF x) as [s|s| |s m e] eqn:Ex; try discriminate Fx; cbn in Sx; subst s.
  - change (SFcompare (S754_zero false) (Prim2SF zero)) with (Some Eq).
    cbn [SF2Q]. change (roundHalfUp 0) with 0%Z. cbn [of_Z].
    apply Prim2SF_inj. rewrite Ex. reflexivity.
  - change (SFcompare (S754_finite false m e) (Prim2SF zero)) with (Some Gt).
    cbn [SF2Q]. rewrite andb_false_r. f_equal. apply round_mantissa.
Qed.

(** *** Using a rounded result *)

Lemma rounds_to_le exact r E c G g :
  rounds_to exact r E -> c == inject_Z G * pow2 g -> (E - 53 <= g)%Z ->
  exact <= c -> r <= c.
Proof. intros [_ [_ [U _]]] Hc Hg H. rewrite Hc in *. apply U; assumption. Qed.

Lemma rounds_to_ge exact r E c G g :
  rounds_to exact r E -> c == inject_Z G * pow2 g -> (E - 53 <= g)%Z ->
  c <= exact -> c <= r.
Proof. intros [_ [_ [_ L]]] Hc Hg H. rewrite Hc in *. apply L; assumption. Qed.

Lemma rounds_to_err exact r E e :
  rounds_to exact r E -> pow2 (E - 54) == e ->
  r - exact <= e /\ exact - r <= e.
Proof. intros [H1 [H2 _]] He. rewrite He in *. split; assumption. Qed.

Lemma sign_nonneg (x : float) : signOf x = false -> 0 <= valueOf x.
Proof.
  unfold signOf, valueOf. destruct (Prim2SF x) as [sx|sx| |sx m e]; cbn [SFsign SF2Q];
    intros H; try apply Qle_refl.
  subst sx. apply Qlt_le_weak, finite_value_pos.
Qed.

(** A value within a margin of an exact one rounds between the roundings
    of the exact value moved down and up by the margin. *)
Lemma roundHalfUp_bracket v x eps :
  v - x <= eps -> x - v <= eps ->
  (roundHalfUp (x - eps) <= roundHalfUp v <= roundHalfUp (x + eps))%Z
  /\ (roundHalfUp (x - eps) = roundHalfUp (x + eps) ->
      0 <= eps -> roundHalfUp v = roundHalfUp x).
Proof.
  intros H1 H2. unfold roundHalfUp.
  assert (A : (Qfloor (x - eps + (1#2)) <= Qfloor (v + (1#2)))%Z)
    by (apply Qfloor_resp_le; lra).
  assert (B : (Qfloor (v + (1#2)) <= Qfloor (x + eps + (1#2)))%Z)
    by (apply Qfloor_resp_le; lra).
  split; [split; assumption|]. intros E He.
  assert (C : (Qfloor (x - eps + (1#2)) <= Qfloor (x + (1#2)))%Z)
    by (apply Qfloor_resp_le; lra).
  assert (D : (Qfloor (x + (1#2)) <= Qfloor (x + eps + (1#2)))%Z)
    by (apply Qfloor_resp_le; lra).
  lia.
Qed.

Lemma roundHalfUp_within v lo hi :
  inject_Z lo - (1#2) <= v -> v < inject_Z hi + (1#2) -> (lo <= roundHalfUp v <= hi)%Z.
Proof.
  intros L U. unfold roundHalfUp.
  pose proof (Qfloor_le (v + (1#2))) as F1. pose proof (Qlt_floor (v + (1#2))) as F2.
  rewrite inject_Z_plus in F2. change (inject_Z 1) with 1 in F2.
  assert (lo < Qfloor (v + (1#2)) + 1)%Z.
  { rewrite Zlt_Qlt, inject_Z_plus. change (inject_Z 1) with 1. lra. }
  assert (Qfloor (v + (1#2)) < hi + 1)%Z.
  { rewrite Zlt_Qlt, inject_Z_plus. change (inject_Z 1) with 1. lra. }
  lia.
Qed.

Lemma Qdiv_mult_den n d : ~ d == 0 -> (n / d) * d == n.
Proof. intros H. field. exact H. Qed.

Lemma Qfloor_unique y q : inject_Z q <= y -> y < inject_Z q + 1 -> Qfloor y = q.
Proof.
  intros L U.
  pose proof (Qfloor_le y) as F1. pose proof (Qlt_floor y) as F2.
  rewrite inject_Z_plus in F2. change (inject_Z 1) with 1 in F2.
  assert (q < Qfloor y + 1)%Z.
  { rewrite Zlt_Qlt, inject_Z_plus. change (inject_Z 1) with 1. lra. }
  assert (Qfloor y < q + 1)%Z.
  { rewrite Zlt_Qlt, inject_Z_plus. change (inject_Z 1) with 1. lra. }
  lia.
Qed.

(** A mean that is a fraction of denominator at most 100 and not halfway
    between two integers is farther than the margin from every tie. *)
Lemma fraction_round mu n dd eps :
  (0 < dd <= 100)%Z -> mu * inject_Z dd == inject_Z n ->
  ((2 * n + dd) mod (2 * dd) <> 0)%Z ->
  - (1 # 200) < eps -> eps < 1 # 200 ->
  roundHalfUp (mu + eps) = ((2 * n + dd) / (2 * dd))%Z.
Proof.
  intros Hd Hmu Hr e1 e2. unfold roundHalfUp.
  set (t := (2 * n + dd)%Z) in *. set (M := (2 * dd)%Z) in *.
  assert (HM : (0 < M)%Z) by (unfold M; lia).
  pose proof (Z.div_mod t M ltac:(lia)) as Ht.
  pose proof (Z.mod_pos_bound t M HM) as Hb.
  set (q := (t / M)%Z) in *. set (r := (t mod M)%Z) in *.
  assert (Qt : inject_Z t == inject_Z M * inject_Z q + inject_Z r).
  { rewrite <- inject_Z_mult, <- inject_Z_plus. rewrite <- Ht. reflexivity. }
  assert (QM : inject_Z M == 2 * inject_Z dd).
  { unfold M. rewrite inject_Z_mult. reflexivity. }
  assert (Qt2 : inject_Z t == 2 * inject_Z n + inject_Z dd).
  { unfold t. rewrite inject_Z_plus, inject_Z_mult. reflexivity. }
  assert (R1 : 1 <= inject_Z r).
  { change 1 with (inject_Z 1). rewrite <- Zle_Qle. lia. }
  assert (R2 : inject_Z r <= inject_Z M - 1).
  { change 1 with (inject_Z 1). unfold Qminus. rewrite <- inject_Z_opp, <- inject_Z_plus.
    rewrite <- Zle_Qle. lia. }
  assert (D1 : 1 <= inject_Z dd).
  { change 1 with (inject_Z 1). rewrite <- Zle_Qle. lia. }
  assert (D2 : inject_Z dd <= 100).
  { change 100 with (inject_Z 100). rewrite <- Zle_Qle. lia. }
  set (x := mu + eps + (1#2)).
  assert (Hx : (x - inject_Z q) * inject_Z M == inject_Z r + eps * inject_Z M).
  { unfold x. rewrite QM in *.
    set (a := inject_Z dd) in *. set (b := inject_Z n) in *. set (c := inject_Z q) in *.
    set (rr := inject_Z r) in *. set (tt := inject_Z t) in *. nra. }
  set (Mq := inject_Z M) in *. set (rq := inject_Z r) in *.
  assert (M200 : Mq <= 200) by lra.
  assert (Mpos : 0 < Mq) by lra.
  assert (Mnn : 0 <= Mq) by (apply Qlt_le_weak; exact Mpos).
  assert (P1 : - (1#200) * Mq < eps * Mq) by (apply Qmult_lt_compat_r; assumption).
  assert (P2 : eps * Mq < (1#200) * Mq) by (apply Qmult_lt_compat_r; assumption).
  set (y := x - inject_Z q) in *. set (em := eps * Mq) in *.
  assert (Hy : y == x - inject_Z q) by reflexivity.
  clearbody y em x. clear Hmu Qt Qt2 QM D1 D2.
  apply Qfloor_unique.
  - assert (H0 : 0 <= y * Mq) by (rewrite Hx; lra).
    destruct (Qlt_le_dec y 0) as [C|C].
    + exfalso.
      assert (y * Mq < 0 * Mq) by (apply Qmult_lt_compat_r; assumption). lra.
    + lra.
  - assert (H1 : y * Mq < 1 * Mq) by (rewrite Hx; lra).
    destruct (Qlt_le_dec y 1) as [C|C].
    + lra.
    + exfalso.
      assert (1 * Mq <= y * Mq) by (apply Qmult_le_compat_r; assumption). lra.
Qed.

(** So that a result inside the bracket of such a mean is the rounded mean. *)
Lemma bracket_fraction mu k n dd :
  (roundHalfUp (mu - tieMargin) <= k <= roundHalfUp (mu + tieMargin))%Z ->
  (0 < dd <= 100)%Z -> mu * inject_Z dd == inject_Z n ->
  ((2 * n + dd) mod (2 * dd) <> 0)%Z ->
  k = roundHalfUp mu /\ roundHalfUp mu = ((2 * n + dd) / (2 * dd))%Z.
Proof.
  intros Hk Hd Hmu Hr.
  assert (L : roundHalfUp (mu - tieMargin) = ((2 * n + dd) / (2 * dd))%Z).
  { change (mu - tieMargin) with (mu + - tieMargin).
    apply fraction_round; try assumption; unfold tieMargin; reflexivity. }
  assert (U : roundHalfUp (mu + tieMargin) = ((2 * n + dd) / (2 * dd))%Z).
  { apply fraction_round; try assumption; unfold tieMargin; reflexivity. }
  assert (M : roundHalfUp mu = ((2 * n + dd) / (2 * dd))%Z).
  { rewrite <- (fraction_round mu n dd 0 Hd Hmu Hr eq_refl eq_refl).
    unfold roundHalfUp. apply Qfloor_comp. ring. }
  split; [lia|exact M].
Qed.

End FloatRounding.

(** ** The aggregation engine *)

Import Analysis.

(** The overall score of the code is the renormalized weighted mean over
    the present categories, whichever they are. *)
Lemma overall_score_mean now id b s m d :
  present b s m d <> [] ->
  overallRiskScore (calculateComprehensiveRisk now id b s m d)
  = renormalizedWeightedMean (present b s m d).
Proof.
  intros Hp.
  destruct b as [b|], s as [sd|], m as [md|], d as [dd|];
    try (exfalso; apply Hp; reflexivity);
    unfold calculateComprehensiveRisk, renormalizedWeightedMean, present, categoryScore;
    cbn [flat_map option_map app fold_left fst snd weight overallRiskScore];
    match goal with
    | |- (if ?c then _ else _) = _ =>
        replace c with true by (vm_compute; reflexivity)
    end;
    reflexivity.
Qed.

(** A category is in the list of present signals exactly when its data
    arrived, and then with the score the code adds to its breakdown. *)
Lemma present_spec b s m d c sc :
  In (c, sc) (present b s m d) <-> categoryScore c b s m d = Some sc.
Proof.
  unfold present.
  destruct b as [b|], s as [sd|], m as [md|], d as [dd|], c; simpl;
    split; intros H;
    repeat match goal with
           | H : _ \/ _ |- _ => destruct H as [H|H]
           | H : False |- _ => destruct H
           | H : (_, _) = (_, _) |- _ => inversion H; clear H
           | H : Some _ = Some _ |- _ => inversion H; clear H
           | H : None = Some _ |- _ => discriminate H
           end;
    auto; tauto.
Qed.

(** *** The overall score against the exact mean *)

Section ExactMean.

Local Open Scope Q_scope.

(** A number in a range of finite bounds is finite and denotes a rational
    in the range. *)
Lemma inRange_value lo hi x :
  finite lo = true -> finite hi = true -> inRange lo hi x = true ->
  finite x = true /\ valueOf lo <= valueOf x /\ valueOf x <= valueOf hi.
Proof.
  intros Fl Fh H. apply andb_prop in H. destruct H as [H1 H2].
  assert (Fx : finite x = true) by (apply (between_finite lo x hi); assumption).
  split; [exact Fx|]. split.
  - apply (leb_value lo x Fl Fx). exact H1.
  - apply (leb_value x hi Fx Fh). exact H2.
Qed.

(** The social score of the engine: [(1 - (s + 1) / 2) * 100]. *)
Lemma normalized_value (s : float) :
  inRange (-1) 1 s = true ->
  let n := ((1 - (s + 1) / 2) * 100)%float in
  finite n = true
  /\ valueOf n - (1 - (valueOf s + 1) / 2) * 100 <= 1 # 17592186044416
  /\ (1 - (valueOf s + 1) / 2) * 100 - valueOf n <= 1 # 17592186044416
  /\ 0 <= valueOf n /\ valueOf n <= 100.
Proof.
  intros Hr n. subst n.
  destruct (inRange_value (-1) 1 s eq_refl eq_refl Hr) as [Fs [Hlo Hhi]].
  assert (Vm1 : valueOf (-1) == -1) by (vm_compute; reflexivity).
  assert (V1 : valueOf 1 == 1) by (vm_compute; reflexivity).
  assert (V2 : valueOf 2 == 2) by (vm_compute; reflexivity).
  assert (V100 : valueOf 100 == 100) by (vm_compute; reflexivity).
  assert (Ex : (1 - (valueOf s + 1) / 2) * 100 == 50 * (1 - valueOf s)) by field.
  rewrite Ex. clear Ex.
  set (vs := valueOf s) in *.
  destruct (add_value s 1 2 Fs eq_refl ltac:(lia)) as [Fu [_ Ru]].
  { change (pow2 2) with 4. fold vs. lra. }
  { change (pow2 2) with 4. fold vs. lra. }
  fold vs in Ru.
  destruct (rounds_to_err _ _ _ (1 # 4503599627370496) Ru eq_refl) as [Eu1 Eu2].
  pose proof (rounds_to_le _ _ _ 2 1 1 Ru eq_refl ltac:(lia) ltac:(lra)) as Uu.
  pose proof (rounds_to_ge _ _ _ 0 0 0 Ru eq_refl ltac:(lia) ltac:(lra)) as Lu.
  set (u := (s + 1)%float) in *. set (vu := valueOf u) in *.
  destruct (div_value u 2 (vu * (1#2)) 1 Fu eq_refl) as [Fh [_ Rh]].
  { rewrite V2. discriminate. }
  { lia. }
  { rewrite V2. fold vu. ring. }
  { change (pow2 1) with 2. lra. }
  { change (pow2 1) with 2. lra. }
  destruct (rounds_to_err _ _ _ (1 # 9007199254740992) Rh eq_refl) as [Eh1 Eh2].
  pose proof (rounds_to_le _ _ _ 1 1 0 Rh eq_refl ltac:(lia) ltac:(lra)) as Uh.
  pose proof (rounds_to_ge _ _ _ 0 0 0 Rh eq_refl ltac:(lia) ltac:(lra)) as Lh.
  set (h := (u / 2)%float) in *. set (vh := valueOf h) in *.
  destruct (sub_value 1 h 1 eq_refl Fh ltac:(lia)) as [Fg [_ Rg]].
  { change (pow2 1) with 2. fold vh. lra. }
  { change (pow2 1) with 2. fold vh. lra. }
  fold vh in Rg.
  destruct (rounds_to_err _ _ _ (1 # 9007199254740992) Rg eq_refl) as [Eg1 Eg2].
  pose proof (rounds_to_le _ _ _ 1 1 0 Rg eq_refl ltac:(lia) ltac:(lra)) as Ug.
  pose proof (rounds_to_ge _ _ _ 0 0 0 Rg eq_refl ltac:(lia) ltac:(lra)) as Lg.
  set (g := (1 - h)%float) in *. set (vg := valueOf g) in *.
  destruct (mul_value g 100 7 Fg eq_refl ltac:(lia)) as [Fn [_ Rn]].
  { rewrite V100. change (pow2 7) with 128. fold vg. lra. }
  { rewrite V100. change (pow2 7) with 128. fold vg. lra. }
  fold vg in Rn.
  assert (Rn' : rounds_to (vg * 100) (valueOf (g * 100)) 7).
  { revert Rn. apply rounds_to_ext; [rewrite V100; reflexivity|reflexivity]. }
  destruct (rounds_to_err _ _ _ (1 # 140737488355328) Rn' eq_refl) as [En1 En2].
  pose proof (rounds_to_le _ _ _ 100 100 0 Rn' eq_refl ltac:(lia) ltac:(lra)) as Un.
  pose proof (rounds_to_ge _ _ _ 0 0 0 Rn' eq_refl ltac:(lia) ltac:(lra)) as Ln.
  split; [exact Fn|].
  set (vn := valueOf (g * 100)) in *.
  repeat split; lra.
Qed.

(** One term of the weighted sum: [weightedScore += score * weight]. *)
Lemma weighted_step c (W x : float) (N X e ex cap : Q) :
  finite W = true -> signOf W = false ->
  valueOf W - N <= e -> N - valueOf W <= e -> 0 <= N -> N <= cap ->
  0 <= e -> e <= 1 -> 0 <= cap -> cap + 100 * exactWeight c <= 100 ->
  finite x = true -> 0 <= valueOf x -> valueOf x <= 100 ->
  valueOf x - X <= ex -> X - valueOf x <= ex -> 0 <= X -> X <= 100 ->
  0 <= ex -> ex <= 1 ->
  let W' := (W + x * weight c)%float in
  let N' := N + exactWeight c * X in
  let e' := e + ex + (1 # 70368744177664) in
  finite W' = true /\ signOf W' = false
  /\ valueOf W' - N' <= e' /\ N' - valueOf W' <= e'
  /\ 0 <= N' /\ N' <= cap + 100 * exactWeight c.
Proof.
  intros FW SW E1 E2 N0 Ncap e0 e1 cap0 capw Fx x0 x100 X1 X2 HX0 HX100 ex0 ex1.
  cbv zeta.
  set (vx := valueOf x) in *. set (vW := valueOf W) in *.
  destruct c; cbn [weight exactWeight] in *;
    match goal with
    | |- context [(x * ?wf)%float] =>
        let v := eval vm_compute in (valueOf wf) in
        assert (Vw : valueOf wf == v) by reflexivity;
        destruct (mul_value x wf 6 Fx eq_refl ltac:(lia)) as [Fp [_ Rp]];
        [rewrite Vw; change (pow2 6) with 64; fold vx; lra
        |rewrite Vw; change (pow2 6) with 64; fold vx; lra
        |];
        fold vx in Rp;
        assert (Rp' : rounds_to (vx * v) (valueOf (x * wf)) 6)
          by (revert Rp; apply rounds_to_ext; [rewrite Vw; reflexivity|reflexivity]);
        destruct (rounds_to_err _ _ _ (1 # 281474976710656) Rp' eq_refl) as [Ep1 Ep2];
        pose proof (rounds_to_ge _ _ _ 0 0 0 Rp' eq_refl ltac:(lia) ltac:(lra)) as Lp;
        set (p := (x * wf)%float) in *; set (vp := valueOf p) in *;
        destruct (add_value W p 7 FW Fp ltac:(lia)) as [Fs [Ss Rs]];
        [change (pow2 7) with 128; fold vW vp; lra
        |change (pow2 7) with 128; fold vW vp; lra
        |];
        fold vW vp in Ss, Rs;
        destruct (rounds_to_err _ _ _ (1 # 140737488355328) Rs eq_refl) as [Es1 Es2];
        split; [exact Fs|];
        split; [apply Ss; [|left; exact SW]|]
    end.
  all: try (repeat split; lra).
  all: pose proof (sign_nonneg W SW) as W0; fold vW in W0; lra.
Qed.


(** The same for a category that may be absent, in which case the sum is
    left as it is. *)
Lemma weighted_opt c (W : float) (ox : option float) (oX : option Q) (N e ex cap : Q) :
  finite W = true -> signOf W = false ->
  valueOf W - N <= e -> N - valueOf W <= e -> 0 <= N -> N <= cap ->
  0 <= e -> e <= 1 -> 0 <= cap -> cap + 100 * exactWeight c <= 100 ->
  0 <= ex -> ex <= 1 ->
  match ox, oX with
  | Some x, Some X =>
      finite x = true /\ 0 <= valueOf x /\ valueOf x <= 100
      /\ valueOf x - X <= ex /\ X - valueOf x <= ex /\ 0 <= X /\ X <= 100
  | None, None => True
  | _, _ => False
  end ->
  let W' := match ox with Some x => (W + x * weight c)%float | None => W end in
  let N' := N + match oX with Some X => exactWeight c * X | None => 0 end in
  let e' := e + ex + (1 # 70368744177664) in
  finite W' = true /\ signOf W' = false
  /\ valueOf W' - N' <= e' /\ N' - valueOf W' <= e'
  /\ 0 <= N' /\ N' <= cap + 100 * exactWeight c.
Proof.
  intros FW SW E1 E2 N0 Ncap e0 e1 cap0 capw ex0 ex1 Hx.
  destruct ox as [x|], oX as [X|]; try contradiction.
  - destruct Hx as [Fx [x0 [x100 [X1 [X2 [HX0 HX100]]]]]].
    apply weighted_step; assumption.
  - cbv zeta. split; [exact FW|]. split; [exact SW|].
    assert (0 <= 100 * exactWeight c) by (destruct c; discriminate).
    repeat split; lra.
Qed.

(** What a term of the sum needs of a score: for a scorer's score, which
    is taken as it is, and for the sentiment, which the engine normalises
    first. *)
Lemma plain_score_facts (x : float) :
  inRange 0 100 x = true ->
  finite x = true /\ 0 <= valueOf x /\ valueOf x <= 100
  /\ valueOf x - valueOf x <= 0 /\ valueOf x - valueOf x <= 0
  /\ 0 <= valueOf x /\ valueOf x <= 100.
Proof.
  intros H. destruct (inRange_value 0 100 x eq_refl eq_refl H) as [Fx [L U]].
  assert (V100 : valueOf 100 == 100) by (vm_compute; reflexivity).
  change (valueOf 0) with 0 in L. rewrite V100 in U.
  repeat split; try assumption; lra.
Qed.

Lemma social_score_facts (s : float) :
  inRange (-1) 1 s = true ->
  let n := ((1 - (s + 1) / 2) * 100)%float in
  let X := (1 - (valueOf s + 1) / 2) * 100 in
  finite n = true /\ 0 <= valueOf n /\ valueOf n <= 100
  /\ valueOf n - X <= 1 # 17592186044416 /\ X - valueOf n <= 1 # 17592186044416
  /\ 0 <= X /\ X <= 100.
Proof.
  intros H. cbv zeta.
  destruct (normalized_value s H) as [Fn [E1 [E2 [L U]]]].
  destruct (inRange_value (-1) 1 s eq_refl eq_refl H) as [_ [Hlo Hhi]].
  assert (Vm1 : valueOf (-1) == -1) by (vm_compute; reflexivity).
  assert (V1 : valueOf 1 == 1) by (vm_compute; reflexivity).
  rewrite Vm1 in Hlo. rewrite V1 in Hhi.
  assert (Ex : (1 - (valueOf s + 1) / 2) * 100 == 50 * (1 - valueOf s)) by field.
  repeat split; try assumption; rewrite Ex; lra.
Qed.

(** [scoresInRange], category by category. *)
Lemma scoresInRange_parts b s m d :
  scoresInRange b s m d = true ->
  match b with Some bd => inRange 0 100 (b_riskScore bd) = true | None => True end
  /\ match s with Some sd => inRange (-1) 1 (s_sentimentScore sd) = true | None => True end
  /\ match m with Some md => inRange 0 100 (m_riskScore md) = true | None => True end
  /\ match d with Some dd => inRange 0 100 (dex_risk_score dd) = true | None => True end.
Proof.
  unfold scoresInRange. intros Hr.
  apply andb_prop in Hr. destruct Hr as [Hr Hd].
  apply andb_prop in Hr. destruct Hr as [Hr Hm].
  apply andb_prop in Hr. destruct Hr as [Hb Hs].
  destruct b, s, m, d; repeat split; assumption.
Qed.

(** The weighted sum of the engine is within 2^-43 of the exact one. *)
Lemma weighted_sum_value b s m d :
  scoresInRange b s m d = true ->
  let W := fold_left (fun sum cs => (sum + snd cs * weight (fst cs))%float)
                     (present b s m d) 0%float in
  let N := fold_right (fun cs acc => exactWeight (fst cs) * snd cs + acc) 0
                      (exactPresent b s m d) in
  finite W = true /\ signOf W = false
  /\ valueOf W - N <= 1 # 8796093022208 /\ N - valueOf W <= 1 # 8796093022208.
Proof.
  intros Hr. unfold scoresInRange in Hr.
  apply andb_prop in Hr. destruct Hr as [Hr Hd].
  apply andb_prop in Hr. destruct Hr as [Hr Hm].
  apply andb_prop in Hr. destruct Hr as [Hb Hs].
  (* blockchain *)
  assert (Sb : match option_map b_riskScore b,
                     option_map (fun x => valueOf (b_riskScore x)) b with
               | Some x, Some X =>
                   finite x = true /\ 0 <= valueOf x /\ valueOf x <= 100
                   /\ valueOf x - X <= 0 /\ X - valueOf x <= 0 /\ 0 <= X /\ X <= 100
               | None, None => True
               | _, _ => False
               end).
  { destruct b as [bd|]; cbn [option_map]; [apply plain_score_facts; exact Hb|exact I]. }
  assert (Ss : match option_map (fun sd => ((1 - (s_sentimentScore sd + 1) / 2) * 100)%float) s,
                     option_map (fun sd => (1 - (valueOf (s_sentimentScore sd) + 1) / 2) * 100) s with
               | Some x, Some X =>
                   finite x = true /\ 0 <= valueOf x /\ valueOf x <= 100
                   /\ valueOf x - X <= 1 # 17592186044416
                   /\ X - valueOf x <= 1 # 17592186044416 /\ 0 <= X /\ X <= 100
               | None, None => True
               | _, _ => False
               end).
  { destruct s as [sd|]; cbn [option_map]; [apply social_score_facts; exact Hs|exact I]. }
  assert (Sm : match option_map m_riskScore m,
                     option_map (fun x => valueOf (m_riskScore x)) m with
               | Some x, Some X =>
                   finite x = true /\ 0 <= valueOf x /\ valueOf x <= 100
                   /\ valueOf x - X <= 0 /\ X - valueOf x <= 0 /\ 0 <= X /\ X <= 100
               | None, None => True
               | _, _ => False
               end).
  { destruct m as [md|]; cbn [option_map]; [apply plain_score_facts; exact Hm|exact I]. }
  assert (Sd : match option_map dex_risk_score d,
                     option_map (fun x => valueOf (dex_risk_score x)) d with
               | Some x, Some X =>
                   finite x = true /\ 0 <= valueOf x /\ valueOf x <= 100
                   /\ valueOf x - X <= 0 /\ X - valueOf x <= 0 /\ 0 <= X /\ X <= 100
               | None, None => True
               | _, _ => False
               end).
  { destruct d as [dd|]; cbn [option_map]; [apply plain_score_facts; exact Hd|exact I]. }
  destruct (weighted_opt CBlockchain 0%float _ _ 0 0 0 0
              eq_refl eq_refl ltac:(cbn; lra) ltac:(cbn; lra) ltac:(lra) ltac:(lra)
              ltac:(lra) ltac:(lra) ltac:(lra) ltac:(cbn; lra) ltac:(lra) ltac:(lra) Sb)
    as [F1 [S1 [A1 [B1 [C1 D1]]]]].
  destruct (weighted_opt CSocial _ _ _ _ _ (1 # 17592186044416) _
              F1 S1 A1 B1 C1 D1 ltac:(lra) ltac:(lra) ltac:(cbn; lra) ltac:(cbn; lra)
              ltac:(lra) ltac:(lra) Ss)
    as [F2 [S2 [A2 [B2 [C2 D2]]]]].
  destruct (weighted_opt CMarket _ _ _ _ _ 0 _
              F2 S2 A2 B2 C2 D2 ltac:(lra) ltac:(lra) ltac:(cbn; lra) ltac:(cbn; lra)
              ltac:(lra) ltac:(lra) Sm)
    as [F3 [S3 [A3 [B3 [C3 D3]]]]].
  destruct (weighted_opt CDex _ _ _ _ _ 0 _
              F3 S3 A3 B3 C3 D3 ltac:(lra) ltac:(lra) ltac:(cbn; lra) ltac:(cbn; lra)
              ltac:(lra) ltac:(lra) Sd)
    as [F4 [S4 [A4 [B4 [C4 D4]]]]].
  clear Sb Ss Sm Sd Hb Hs Hm Hd F1 S1 A1 B1 C1 D1 F2 S2 A2 B2 C2 D2 F3 S3 A3 B3 C3 D3.
  destruct b as [bd|], s as [sd|], m as [md|], d as [dd|];
    cbn [option_map] in *;
    unfold present, exactPresent, categoryScore, exactScore;
    cbn [flat_map option_map app fold_left fold_right fst snd weight exactWeight] in *;
    (split; [exact F4|]); (split; [exact S4|]); split; lra.
Qed.


(** The quotient by the total weight, which for each of the fifteen sets
    of present categories is a fixed number, and its rounding. *)
Lemma overall_score_value now id b s m d :
  present b s m d <> [] -> scoresInRange b s m d = true ->
  exists k : Z,
    overallRiskScore (calculateComprehensiveRisk now id b s m d) = of_Z k
    /\ (0 <= k <= 100)%Z
    /\ (roundHalfUp (exactMean (exactPresent b s m d) - tieMargin) <= k
        <= roundHalfUp (exactMean (exactPresent b s m d) + tieMargin))%Z
    /\ (roundHalfUp (exactMean (exactPresent b s m d) - tieMargin)
        = roundHalfUp (exactMean (exactPresent b s m d) + tieMargin)
        -> k = roundHalfUp (exactMean (exactPresent b s m d))).
Proof.
  intros Hp Hr. rewrite overall_score_mean by exact Hp.
  unfold renormalizedWeightedMean, exactMean.
  destruct (weighted_sum_value b s m d Hr) as [FW [SW [A B]]]. cbv zeta in *.
  assert (Rb : match b with
               | Some bd => 0 <= valueOf (b_riskScore bd) /\ valueOf (b_riskScore bd) <= 100
               | None => True
               end).
  { destruct (scoresInRange_parts _ _ _ _ Hr) as [H _]. destruct b as [bd|]; [|exact I].
    destruct (plain_score_facts _ H) as [_ [L [U _]]]. split; assumption. }
  assert (Rs : match s with
               | Some sd => 0 <= (1 - (valueOf (s_sentimentScore sd) + 1) / 2) * 100
                            /\ (1 - (valueOf (s_sentimentScore sd) + 1) / 2) * 100 <= 100
               | None => True
               end).
  { destruct (scoresInRange_parts _ _ _ _ Hr) as [_ [H _]]. destruct s as [sd|]; [|exact I].
    destruct (social_score_facts _ H) as [_ [_ [_ [_ [_ [L U]]]]]]. split; assumption. }
  assert (Rm : match m with
               | Some md => 0 <= valueOf (m_riskScore md) /\ valueOf (m_riskScore md) <= 100
               | None => True
               end).
  { destruct (scoresInRange_parts _ _ _ _ Hr) as [_ [_ [H _]]]. destruct m as [md|]; [|exact I].
    destruct (plain_score_facts _ H) as [_ [L [U _]]]. split; assumption. }
  assert (Rd : match d with
               | Some dd => 0 <= valueOf (dex_risk_score dd) /\ valueOf (dex_risk_score dd) <= 100
               | None => True
               end).
  { destruct (scoresInRange_parts _ _ _ _ Hr) as [_ [_ [_ H]]]. destruct d as [dd|]; [|exact I].
    destruct (plain_score_facts _ H) as [_ [L [U _]]]. split; assumption. }
  clear Hr.
  destruct b as [bd|], s as [sd|], m as [md|], d as [dd|];
    try (exfalso; apply Hp; reflexivity); clear Hp;
    unfold present, exactPresent, categoryScore, exactScore in *;
    cbn [flat_map option_map app fold_left fold_right fst snd weight exactWeight] in *;
    repeat match goal with
           | H : _ /\ _ |- _ => destruct H
           | H : True |- _ => clear H
           end;
    repeat match goal with
           | |- context [((1 - (valueOf ?v + 1) / 2) * 100)%Q] =>
               set (Xs := ((1 - (valueOf v + 1) / 2) * 100)%Q) in *
           end;
    match goal with
    | |- context [Math_round (?W / ?T)%float] =>
        let vT := eval vm_compute in (valueOf T) in
        let ci := eval vm_compute in (Qinv vT) in
        assert (VT : valueOf T == vT) by reflexivity;
        pose proof (sign_nonneg W SW) as W0;
        set (vW := valueOf W) in *;
        destruct (div_value W T (vW * ci) 7 FW eq_refl) as [Fq [Sq Rq]];
        [ rewrite VT; discriminate
        | lia
        | rewrite VT; fold vW; lra
        | change (pow2 7) with 128; lra
        | change (pow2 7) with 128; lra
        | ];
        rewrite SW in Sq; change (xorb false (signOf T)) with false in Sq;
        destruct (rounds_to_err _ _ _ (1 # 140737488355328) Rq eq_refl) as [Eq1 Eq2];
        pose proof (rounds_to_ge _ _ _ 0 0 0 Rq eq_refl ltac:(lia) ltac:(lra)) as Lq;
        set (q := (W / T)%float) in *; set (vq := valueOf q) in *;
        match goal with
        | |- context [Qdiv ?n ?dn] =>
            pose proof (Qdiv_mult_den n dn ltac:(discriminate)) as Hmu;
            set (mu := Qdiv n dn) in *
        end;
        exists (roundHalfUp vq);
        split; [apply Math_round_value; [exact Fq|exact Sq|fold vq; lra]|];
        split; [apply roundHalfUp_within; change (inject_Z 0) with 0;
                change (inject_Z 100) with 100; lra|];
        assert (E1 : vq - mu <= tieMargin) by (unfold tieMargin; lra);
        assert (E2 : mu - vq <= tieMargin) by (unfold tieMargin; lra);
        destruct (roundHalfUp_bracket _ _ _ E1 E2) as [B1 B2];
        split; [exact B1|]; intros E; apply B2; [exact E|discriminate]
    end.
Qed.

End ExactMean.

(** C1 as stated fails.  With a blockchain score of 56 and a market score
    of 50 the mean is (0.35*56 + 0.25*50) / 0.6 = 53.5 exactly, which
    rounds to 54; the binary64 quotient of the engine is just below 53.5
    and the engine returns 53.  And the social score the engine averages is
    not the score of the sentiment scorer: for sentiment 0.25 (score 38)
    and a market score of 59 the engine returns 49, where the formula on 38
    and 59 gives 50. *)
Lemma overall_score_off_at_tie :
  let b := Some (MoreSamples.blockchainScored 56) in
  let m := Some (MoreSamples.marketScored 50) in
  let a := calculateComprehensiveRisk Samples.analysisTime "TKN" b None m None in
  let a' := calculateComprehensiveRisk Samples.analysisTime "TKN"
              None (Some Samples.socialData) (Some (MoreSamples.marketScored 59)) None in
  (scoresInRange b None m None = true
   /\ (exactMean (exactPresent b None m None) == 107 # 2)%Q
   /\ roundHalfUp (exactMean (exactPresent b None m None)) = 54%Z
   /\ overallRiskScore a = 53
   /\ overallRiskScore a <> of_Z 54)
  /\ (s_sentimentScore Samples.socialData = Social.averageSentiment Samples.tweets
      /\ Social.riskScore (Social.calculateTwitterRiskAssessment Samples.tweets None) = 38
      /\ roundHalfUp (exactMean [(CSocial, 38%Q); (CMarket, 59%Q)]) = 50%Z
      /\ overallRiskScore a' = 49
      /\ overallRiskScore a' <> of_Z 50).
Proof.
  cbv zeta. split.
  - split; [vm_compute; reflexivity|]. split; [vm_compute; reflexivity|].
    split; [vm_compute; reflexivity|]. split; [vm_compute; reflexivity|].
    intros H. apply (f_equal (fun x => PrimFloat.eqb x 54)) in H.
    vm_compute in H. discriminate H.
  - split; [vm_compute; reflexivity|]. split; [vm_compute; reflexivity|].
    split; [vm_compute; reflexivity|]. split; [vm_compute; reflexivity|].
    intros H. apply (f_equal (fun x => PrimFloat.eqb x 50)) in H.
    vm_compute in H. discriminate H.
Qed.

(** C1, amended: whenever at least one category signal is present, with
    every scorer's score in [0, 100] and the sentiment score in [-1, 1],
    the overall score is an integer k of 0..100 that lies between the exact
    mean mu = sum of weight*score over the present categories / sum of
    weight over the present categories rounded after moving it down and up
    by 10^-12; so it is round(mu) unless mu is within 10^-12 of a value
    halfway between two integers, and in particular whenever mu is a
    fraction of denominator at most 100 (as for integer scores) that is not
    halfway between two integers.  The weights of the code are the binary64
    numbers nearest to 0.35, 0.20, 0.25 and 0.20; the social score is the
    engine's (1 - (sentiment + 1) / 2) * 100; a category is among the
    present ones exactly when its data arrived, so an absent one enters
    neither sum. *)
Theorem overall_is_renormalized_weighted_mean now id b s m d :
  present b s m d <> [] -> scoresInRange b s m d = true ->
  let mu := exactMean (exactPresent b s m d) in
  (exists k : Z,
     overallRiskScore (calculateComprehensiveRisk now id b s m d) = of_Z k
     /\ (0 <= k <= 100)%Z
     /\ (roundHalfUp (mu - tieMargin) <= k <= roundHalfUp (mu + tieMargin))%Z
     /\ (roundHalfUp (mu - tieMargin) = roundHalfUp (mu + tieMargin)
         -> k = roundHalfUp mu)
     /\ (forall n dd : Z,
           (0 < dd <= 100)%Z -> (mu * inject_Z dd == inject_Z n)%Q ->
           ((2 * n + dd) mod (2 * dd) <> 0)%Z ->
           k = roundHalfUp mu /\ roundHalfUp mu = ((2 * n + dd) / (2 * dd))%Z))
  /\ (forall c, (valueOf (weight c) - exactWeight c <= 1 # 36028797018963968)%Q
                /\ (exactWeight c - valueOf (weight c) <= 1 # 36028797018963968)%Q)
  /\ (forall c x, In (c, x) (exactPresent b s m d) <-> exactScore c b s m d = Some x)
  /\ (forall c, exactScore c b s m d = None <-> categoryScore c b s m d = None).
Proof.
  intros Hp Hr mu. split; [|split; [|split]].
  - destruct (overall_score_value now id b s m d Hp Hr) as [k [H1 [H2 [H3 H4]]]].
    exists k. fold mu in H3, H4.
    split; [exact H1|]. split; [exact H2|]. split; [exact H3|]. split; [exact H4|].
    intros n dd Hd Hmu Hn. apply (bracket_fraction mu k n dd); assumption.
  - intros c. destruct c; split; vm_compute; congruence.
  - intros c x. unfold exactPresent.
    destruct b as [bd|], s as [sd|], m as [md|], d as [dd|], c; simpl;
      split; intros H;
      repeat match goal with
             | H : _ \/ _ |- _ => destruct H as [H|H]
             | H : False |- _ => destruct H
             | H : (_, _) = (_, _) |- _ => inversion H; clear H
             | H : Some _ = Some _ |- _ => inversion H; clear H
             | H : None = Some _ |- _ => discriminate H
             end;
      auto; tauto.
  - intros c. destruct b as [bd|], s as [sd|], m as [md|], d as [dd|], c; simpl;
      split; intros H; try reflexivity; discriminate H.
Qed.

(** Witness for C1: the social and the market signal present, with
    sentiment 0.25 (score 37.5) and market score 60: the exact mean is
    (0.2 * 37.5 + 0.25 * 60) / 0.45 = 50, and so is the overall score. *)
Lemma overall_is_renormalized_weighted_mean_witness :
  let s := Some Samples.socialData in
  let m := Some Samples.marketData in
  present None s m None <> []
  /\ scoresInRange None s m None = true
  /\ overallRiskScore (calculateComprehensiveRisk Samples.analysisTime "TKN" None s m None)
     = of_Z (roundHalfUp (exactMean (exactPresent None s m None)))
  /\ roundHalfUp (exactMean (exactPresent None s m None)) = 50%Z.
Proof.
  cbv zeta. split; [discriminate|]. split; [reflexivity|].
  destruct (overall_is_renormalized_weighted_mean Samples.analysisTime "TKN"
              None (Some Samples.socialData) (Some Samples.marketData) None)
    as [[k [H1 [_ [_ [H2 _]]]]] _]; [discriminate|reflexivity|].
  assert (E : k = roundHalfUp (exactMean (exactPresent None (Some Samples.socialData)
                                             (Some Samples.marketData) None)))
    by (apply H2; vm_compute; reflexivity).
  rewrite E in H1. split; [exact H1|]. vm_compute. reflexivity.
Defined.

(** C2 as stated fails: with only the market signal present, the three
    absent categories are in the breakdown all the same, each with value 0. *)
Lemma absent_categories_listed_as_zero :
  riskBreakdown (calculateComprehensiveRisk Samples.analysisTime "TKN"
                   None None (Some Samples.marketData) None)
  = {| blockchain := 0; social := 0; market := 60; dex := 0 |}.
Proof. reflexivity. Qed.

(** C2, amended: for an absent category the breakdown entry keeps its
    initial value 0, the detail component of the category is left out of
    the assessment, and the category is not among those the overall score
    is averaged over, so its weight is in neither sum. *)
Theorem absent_category_zero_entry_no_weight now id b s m d c :
  categoryScore c b s m d = None ->
  let a := calculateComprehensiveRisk now id b s m d in
  breakdownOf c (riskBreakdown a) = 0
  /\ componentOf c a = None
  /\ ~ In c (map fst (present b s m d))
  /\ (present b s m d <> [] ->
      overallRiskScore a = renormalizedWeightedMean (present b s m d)).
Proof.
  intros Hc a. subst a. repeat split.
  - destruct c, b as [b|], s as [sd|], m as [md|], d as [dd|];
      try discriminate Hc; reflexivity.
  - destruct c, b as [b|], s as [sd|], m as [md|], d as [dd|];
      try discriminate Hc; reflexivity.
  - intros Hin. apply in_map_iff in Hin. destruct Hin as [[c' sc] [Hfst Hin]].
    simpl in Hfst. subst c'. apply present_spec in Hin. congruence.
  - apply overall_score_mean.
Qed.

(** Witness for C2: the blockchain category absent, the market one present. *)
Lemma absent_category_zero_entry_no_weight_witness :
  let a := calculateComprehensiveRisk Samples.analysisTime "TKN"
             None None (Some Samples.marketData) None in
  blockchain (riskBreakdown a) = 0 /\ blockchainRisk a = None
  /\ overallRiskScore a = 60.
Proof.
  destruct (absent_category_zero_entry_no_weight Samples.analysisTime "TKN"
              None None (Some Samples.marketData) None CBlockchain eq_refl)
    as [H1 [H2 [_ H4]]].
  split; [exact H1|]. split; [exact H2|].
  rewrite H4 by discriminate. vm_compute. reflexivity.
Defined.

(** C3 as stated fails: with no signal at all the engine emits no factor,
    and the breakdown still has its four entries. *)
Lemma no_signal_no_factor :
  let a := calculateComprehensiveRisk Samples.analysisTime "TKN" None None None None in
  List.length (riskFactors a) <> 1%nat
  /\ riskFactors a = [] /\ positiveFactors a = []
  /\ riskBreakdown a = {| blockchain := 0; social := 0; market := 0; dex := 0 |}.
Proof. repeat split. discriminate. Qed.

(** C3, amended: with no signal present the engine returns overall score
    50 and level Medium; every breakdown entry is 0, no detail component is
    attached and both factor lists are empty. *)
Theorem no_signal_neutral_default now id :
  let a := calculateComprehensiveRisk now id None None None None in
  overallRiskScore a = 50 /\ overallRiskLevel a = Medium
  /\ riskBreakdown a = {| blockchain := 0; social := 0; market := 0; dex := 0 |}
  /\ riskFactors a = [] /\ positiveFactors a = []
  /\ blockchainRisk a = None /\ socialRisk a = None
  /\ marketRisk a = None /\ dexRisk a = None.
Proof. repeat split. Qed.

(** Weighting an integer score from 0 to 100 and dividing by the same
    weight leaves, after rounding, the score itself: checked on each of
    the 101 values, for each of the weights. *)
Lemma round_weighted_single (n : nat) :
  (n <= 100)%nat ->
  Math_round ((0 + of_nat n * 0.35) / (0 + 0.35)) = of_nat n
  /\ Math_round ((0 + of_nat n * 0.2) / (0 + 0.2)) = of_nat n
  /\ Math_round ((0 + of_nat n * 0.25) / (0 + 0.25)) = of_nat n.
Proof.
  intros Hn.
  do 101 (destruct n as [|n]; [vm_compute; repeat split|]).
  lia.
Qed.

(** C9 as stated fails: with the social signal alone and sentiment 0.25,
    the social score in the breakdown is 37.5 and the overall score is 38. *)
Lemma single_social_signal_is_rounded :
  let a := calculateComprehensiveRisk Samples.analysisTime "TKN"
             None (Some Samples.socialData) None None in
  social (riskBreakdown a) = 37.5 /\ overallRiskScore a = 38
  /\ overallRiskScore a <> social (riskBreakdown a).
Proof.
  split; [vm_compute; reflexivity|]. split; [vm_compute; reflexivity|].
  intros H. apply (f_equal (fun x => x <? 38)) in H. vm_compute in H. discriminate H.
Qed.

(** C9, amended: when exactly one category is present and its score is an
    integer from 0 to 100 (for the social category: the score on the 0-100
    scale that the engine derives from the sentiment), the overall score
    equals that score exactly. *)
Theorem single_signal_identity now id (n : nat) :
  (n <= 100)%nat ->
  (forall b, b_riskScore b = of_nat n ->
     overallRiskScore (calculateComprehensiveRisk now id (Some b) None None None) = of_nat n)
  /\ (forall sd, (1 - (s_sentimentScore sd + 1) / 2) * 100 = of_nat n ->
     overallRiskScore (calculateComprehensiveRisk now id None (Some sd) None None) = of_nat n)
  /\ (forall md, m_riskScore md = of_nat n ->
     overallRiskScore (calculateComprehensiveRisk now id None None (Some md) None) = of_nat n)
  /\ (forall dd, dex_risk_score dd = of_nat n ->
     overallRiskScore (calculateComprehensiveRisk now id None None None (Some dd)) = of_nat n).
Proof.
  intros Hn. destruct (round_weighted_single n Hn) as [H35 [H20 H25]].
  repeat split; intros x Hx;
    rewrite overall_score_mean by discriminate;
    unfold renormalizedWeightedMean, present, categoryScore;
    cbn [flat_map option_map app fold_left fst snd weight];
    rewrite Hx; assumption.
Qed.

(** Witness for C9: the market signal alone, with score 60. *)
Lemma single_signal_identity_witness :
  overallRiskScore (calculateComprehensiveRisk Samples.analysisTime "TKN"
                      None None (Some Samples.marketData) None) = 60.
Proof.
  destruct (single_signal_identity Samples.analysisTime "TKN" 60 ltac:(lia))
    as [_ [_ [Hm _]]].
  apply (Hm Samples.marketData). reflexivity.
Defined.

(** ** Risk-level bucketing *)

(** Destructs the pairs that the [let '(x, y) := ...] of the models bind. *)
Ltac split_pairs :=
  repeat match goal with
         | |- context [match ?X with pair _ _ => _ end] => destruct X
         end.

(** The chain [if (s < 40) Low; else if (s > 70) High], default Medium. *)
Lemma else_if_chain_buckets s :
  bucketsHighAbove70 s (if s <? 40 then Low else if s >? 70 then High else Medium).
Proof.
  unfold bucketsHighAbove70. repeat split.
  - intros H. rewrite H. reflexivity.
  - intros H40 H70. rewrite (leb_not_gtb _ _ H40), (leb_not_gtb _ _ H70). reflexivity.
  - intros H. destruct (s <? 40) eqn:E.
    + pose proof (ltb_trans _ _ _ H E) as F. vm_compute in F. discriminate F.
    + rewrite H. reflexivity.
Qed.

(** The two separate tests of the social agent. *)
Lemma two_tests_bucket s :
  bucketsHighAbove70 s
    (let riskLevel := Medium in
     let riskLevel := if s <? 40 then Low else riskLevel in
     if s >? 70 then High else riskLevel).
Proof.
  unfold bucketsHighAbove70. cbv zeta. repeat split.
  - intros H. rewrite H. destruct (s >? 70) eqn:E; [|reflexivity].
    pose proof (ltb_trans _ _ _ E H) as F. vm_compute in F. discriminate F.
  - intros H40 H70. rewrite (leb_not_gtb _ _ H40), (leb_not_gtb _ _ H70). reflexivity.
  - intros H. rewrite H. reflexivity.
Qed.

(** The ternary chain of the blockchain agent. *)
Lemma blockchain_buckets s : bucketsHighFrom70 s (Blockchain.riskLevel s).
Proof.
  unfold bucketsHighFrom70, Blockchain.riskLevel. repeat split.
  - intros H. rewrite (ltb_not_geb _ _ H). destruct (s >=? 70) eqn:E; [|reflexivity].
    pose proof (leb_ltb_trans _ _ _ E H) as F. vm_compute in F. discriminate F.
  - intros H40 H70. rewrite (ltb_not_geb _ _ H70), H40. reflexivity.
  - intros H. rewrite H. reflexivity.
Qed.

(** C4 as stated fails: the blockchain scorer puts score 70 in High. *)
Lemma blockchain_level_at_70 :
  Blockchain.riskLevel 70 = High /\ ~ bucketsHighAbove70 70 (Blockchain.riskLevel 70).
Proof.
  split; [reflexivity|]. intros [_ [H _]].
  specialize (H eq_refl eq_refl). discriminate H.
Qed.

(** C4, amended: the aggregation engine and the social, market and DEX
    scorers bucket their score alike (below 40 Low, 40 through 70 Medium,
    above 70 High, so 70 is Medium and 71 is High); the blockchain scorer
    agrees below 70 and above it but puts 70 itself in High. *)
Theorem risk_level_bucketing :
  (forall now id b s m d,
     let a := calculateComprehensiveRisk now id b s m d in
     bucketsHighAbove70 (overallRiskScore a) (overallRiskLevel a))
  /\ (forall tweetSentiments userInfo,
     let a := Social.calculateTwitterRiskAssessment tweetSentiments userInfo in
     bucketsHighAbove70 (Social.riskScore a) (Social.riskLevel a))
  /\ (forall coinData priceHistory,
     let a := Market.calculateMarketRiskAssessment coinData priceHistory in
     bucketsHighAbove70 (Market.riskScore a) (Market.riskLevel a))
  /\ (forall formatNumber toFixed2 natToString primaryPair allPairs,
     let a := Dex.calculateDexRiskAssessment formatNumber toFixed2 natToString
                primaryPair allPairs in
     bucketsHighAbove70 (Dex.riskScore a) (Dex.riskLevel a))
  /\ (forall riskScore, bucketsHighFrom70 riskScore (Blockchain.riskLevel riskScore))
  /\ (Blockchain.riskLevel 70 = High /\ Blockchain.riskLevel 71 = High
      /\ Blockchain.riskLevel 40 = Medium /\ Blockchain.riskLevel 39 = Low).
Proof.
  split; [|split; [|split; [|split; [|split]]]].
  - intros now id b s m d a. subst a. unfold calculateComprehensiveRisk.
    split_pairs. cbn [overallRiskScore overallRiskLevel].
    apply else_if_chain_buckets.
  - intros tweets ui a. subst a. destruct tweets as [|t rest].
    + cbn [Social.calculateTwitterRiskAssessment Social.riskScore Social.riskLevel].
      unfold bucketsHighAbove70. repeat split; intros H; try reflexivity;
        vm_compute in H; discriminate H.
    + unfold Social.calculateTwitterRiskAssessment.
      cbn [Social.riskScore Social.riskLevel]. apply two_tests_bucket.
  - intros cd ph a. subst a. unfold Market.calculateMarketRiskAssessment.
    split_pairs. cbn [Market.riskScore Market.riskLevel].
    apply else_if_chain_buckets.
  - intros fn tf ns p all a. subst a. unfold Dex.calculateDexRiskAssessment.
    split_pairs. cbn [Dex.riskScore Dex.riskLevel].
    apply else_if_chain_buckets.
  - apply blockchain_buckets.
  - repeat split.
Qed.

(** ** The chain scorer *)

(** C5 as stated fails: an unverified contract with no holder data and no
    findings, for which the contract and token lookups returned nothing,
    scores 65: the missing name and the unknown age add 10 and 5. *)
Lemma unverified_unknown_contract_scores_65 :
  Blockchain.calculateBlockchainRiskScore Samples.nowMs false
    Samples.unknownContract Samples.unknownToken [] [] [] = 65.
Proof. vm_compute. reflexivity. Qed.

(** C5, amended: for an unverified contract with an empty holder list and
    no security findings the score is at least 50; it is exactly 50 when
    no other penalty applies, that is when the contract is no proxy, the
    token has a name and a symbol, and the contract age is known and not
    below 90 days. *)
Theorem unverified_penalty_in_isolation now contractInfo tokenInfo transactionHistory :
  let score := Blockchain.calculateBlockchainRiskScore now false contractInfo
                 tokenInfo [] transactionHistory [] in
  (score >=? 50) = true
  /\ (truthy_str (Blockchain.implementation contractInfo) = false ->
      truthy_str (Blockchain.tokenName tokenInfo) = true ->
      truthy_str (Blockchain.symbol tokenInfo) = true ->
      (exists ts, Blockchain.createdTimestamp contractInfo = Some ts
                  /\ (Blockchain.ageInDaysAt now ts <? 90) = false) ->
      score = 50).
Proof.
  intros score. subst score. unfold Blockchain.calculateBlockchainRiskScore.
  cbn [Blockchain.calculateConcentrationMetrics fold_left negb
       Blockchain.topHolderPercentage Blockchain.top10Percentage].
  split.
  - destruct (truthy_str (Blockchain.implementation contractInfo));
      destruct (truthy_str (Blockchain.tokenName tokenInfo));
      destruct (truthy_str (Blockchain.symbol tokenInfo));
      destruct (Blockchain.createdTimestamp contractInfo) as [ts|];
      try (destruct (Blockchain.ageInDaysAt now ts <? 7);
           [|destruct (Blockchain.ageInDaysAt now ts <? 30);
             [|destruct (Blockchain.ageInDaysAt now ts <? 90)]]);
      vm_compute; reflexivity.
  - intros Hp Hn Hs [ts [Hts Hage]]. rewrite Hp, Hn, Hs, Hts.
    assert (H7 : (Blockchain.ageInDaysAt now ts <? 7) = false).
    { destruct (Blockchain.ageInDaysAt now ts <? 7) eqn:E; [|reflexivity].
      rewrite (ltb_trans _ 7 90 E eq_refl) in Hage. discriminate Hage. }
    assert (H30 : (Blockchain.ageInDaysAt now ts <? 30) = false).
    { destruct (Blockchain.ageInDaysAt now ts <? 30) eqn:E; [|reflexivity].
      rewrite (ltb_trans _ 30 90 E eq_refl) in Hage. discriminate Hage. }
    rewrite H7, H30, Hage. vm_compute. reflexivity.
Qed.

(** Witness for C5: an unverified contract that is no proxy, has a named
    token and is 366 days old scores exactly 50. *)
Lemma unverified_penalty_in_isolation_witness :
  Blockchain.ageInDaysAt Samples.nowMs 1704067200 = 366
  /\ Blockchain.calculateBlockchainRiskScore Samples.nowMs false
       Samples.oldContract Samples.namedToken [] [] [] = 50.
Proof.
  split; [vm_compute; reflexivity|].
  destruct (unverified_penalty_in_isolation Samples.nowMs Samples.oldContract
              Samples.namedToken []) as [_ H].
  apply H; try reflexivity.
  exists 1704067200. split; [reflexivity|vm_compute; reflexivity].
Defined.

(** ** The market scorer *)

(** A rank above 500 fails each of the three top-tier tests. *)
Lemma rank_above_500_not_top rank :
  (rank >? 500) = true ->
  (rank <=? 10) = false /\ (rank <=? 50) = false /\ (rank <=? 100) = false.
Proof.
  intros H. repeat split.
  - destruct (rank <=? 10) eqn:E; [|reflexivity].
    pose proof (ltb_leb_trans _ _ _ H E) as F. vm_compute in F. discriminate F.
  - destruct (rank <=? 50) eqn:E; [|reflexivity].
    pose proof (ltb_leb_trans _ _ _ H E) as F. vm_compute in F. discriminate F.
  - destruct (rank <=? 100) eqn:E; [|reflexivity].
    pose proof (ltb_leb_trans _ _ _ H E) as F. vm_compute in F. discriminate F.
Qed.

(** With every other factor neutral, a rank above 500 gives score 60. *)
Lemma rank_above_500_scores_60 coinData priceHistory :
  Market.otherFactorsNeutral coinData priceHistory = true ->
  (Market.market_cap_rank coinData >? 500) = true ->
  Market.riskScore (Market.calculateMarketRiskAssessment coinData priceHistory) = 60.
Proof.
  unfold Market.otherFactorsNeutral, Market.calculateMarketRiskAssessment.
  destruct (Market.assessVolatility priceHistory) as [[v l] dsc].
  cbn [fst snd]. intros Hn Hr.
  repeat (apply andb_prop in Hn; destruct Hn as [Hn ?]).
  repeat match goal with
         | H : negb _ = true |- _ => apply negb_true_iff in H
         end.
  destruct (rank_above_500_not_top _ Hr) as [Htop10 [Htop50 Htop100]].
  split_pairs. cbn [Market.riskScore].
  repeat match goal with
         | H : _ = false |- _ => rewrite H
         end.
  rewrite Hr. vm_compute. reflexivity.
Qed.

(** C6 on the code: with every other factor in its neutral tier, a rank
    above 1000 raises the base score of 50 by 10, not by 15, exactly as a
    rank between 500 and 1000 does: the test [rank > 500] comes first in
    the chain and the branch [rank > 1000] is never reached. *)
Theorem rank_above_1000_adds_10 coinData priceHistory :
  Market.otherFactorsNeutral coinData priceHistory = true ->
  ((Market.market_cap_rank coinData >? 1000) = true ->
   Market.riskScore (Market.calculateMarketRiskAssessment coinData priceHistory) = 60)
  /\ ((Market.market_cap_rank coinData >? 500) = true ->
      (Market.market_cap_rank coinData <=? 1000) = true ->
      Market.riskScore (Market.calculateMarketRiskAssessment coinData priceHistory) = 60).
Proof.
  intros Hn. split.
  - intros H. apply rank_above_500_scores_60; [assumption|].
    apply (ltb_trans 500 1000); [reflexivity|assumption].
  - intros H _. apply rank_above_500_scores_60; assumption.
Qed.

(** Witness for C6: rank 1500, market cap $500M, volume/market-cap 0.08,
    volatility about 0.03, 50% below the all-time high. *)
Lemma rank_above_1000_adds_10_witness :
  Market.otherFactorsNeutral (Samples.coinRank 1500) Samples.priceHistory = true
  /\ (Market.market_cap_rank (Samples.coinRank 1500) >? 1000) = true
  /\ Market.riskScore
       (Market.calculateMarketRiskAssessment (Samples.coinRank 1500) Samples.priceHistory)
     = 60.
Proof.
  assert (Hn : Market.otherFactorsNeutral (Samples.coinRank 1500) Samples.priceHistory = true)
    by (vm_compute; reflexivity).
  split; [exact Hn|]. split; [vm_compute; reflexivity|].
  destruct (rank_above_1000_adds_10 (Samples.coinRank 1500) Samples.priceHistory Hn)
    as [H _].
  apply H. vm_compute. reflexivity.
Defined.

(** The same coin at rank 800 scores the same 60, and its red flags differ
    from those at rank 1500 by the flag for a rank above 1000. *)
Example rank_800_and_1500 :
  let a800 := Market.calculateMarketRiskAssessment (Samples.coinRank 800) Samples.priceHistory in
  let a1500 := Market.calculateMarketRiskAssessment (Samples.coinRank 1500) Samples.priceHistory in
  Market.riskScore a800 = 60 /\ Market.riskScore a1500 = 60
  /\ Market.redFlags a800 = []
  /\ Market.redFlags a1500 = ["Very low market cap ranking"%string].
Proof. repeat split; vm_compute; reflexivity. Qed.

(** ** The DEX scorer *)

(** Case analysis on every test a goal still branches on. *)
Ltac split_tests :=
  repeat match goal with
         | |- context [if ?c then _ else _] => destruct c
         end.

(** *** When the total liquidity is a number

    A sum of binary64 numbers is NaN only when a term is NaN or when
    [Infinity] meets [-Infinity]; [x || 0] replaces a NaN figure by 0. *)

Lemma shr_1_nonneg mrs : (0 <= shr_m mrs)%Z -> (0 <= shr_m (shr_1 mrs))%Z.
Proof.
  destruct mrs as [m r s]. cbn [shr_m]. intros H.
  destruct m as [|[p|p|]|p]; cbn [shr_1 shr_m]; lia.
Qed.

Lemma iter_shr_1_nonneg p : forall mrs,
  (0 <= shr_m mrs)%Z -> (0 <= shr_m (iter_pos shr_1 p mrs))%Z.
Proof.
  induction p as [p IH|p IH|]; intros mrs H; cbn [iter_pos].
  - apply IH, IH, shr_1_nonneg, H.
  - apply IH, IH, H.
  - apply shr_1_nonneg, H.
Qed.

Lemma shr_fexp_nonneg m e l :
  (0 <= m)%Z -> (0 <= shr_m (fst (shr_fexp prec emax m e l)))%Z.
Proof.
  intros H. unfold shr_fexp, shr.
  assert (H0 : (0 <= shr_m (shr_record_of_loc m l))%Z)
    by (destruct l as [|[ | | ]]; exact H).
  destruct (fexp prec emax (Zdigits2 m + e) - e)%Z; cbn [fst]; try exact H0.
  apply iter_shr_1_nonneg, H0.
Qed.

Lemma round_nearest_even_nonneg m l : (0 <= m)%Z -> (0 <= round_nearest_even m l)%Z.
Proof.
  intros H. destruct l as [|[ | | ]]; cbn [round_nearest_even]; try lia.
  destruct (Z.even m); lia.
Qed.

(** Rounding a mantissa that is not negative never gives NaN. *)
Lemma binary_round_aux_not_nan sx mx ex lx :
  (0 <= mx)%Z -> binary_round_aux prec emax sx mx ex lx <> S754_nan.
Proof.
  intros H. rewrite binary_round_aux_unfold. cbv zeta.
  set (p1 := shr_fexp prec emax mx ex lx).
  set (m2 := round_nearest_even (shr_m (fst p1)) (loc_of_shr_record (fst p1))).
  assert (H2 : (0 <= m2)%Z)
    by (apply round_nearest_even_nonneg, shr_fexp_nonneg, H).
  pose proof (shr_fexp_nonneg m2 (snd p1) loc_Exact H2) as H3.
  destruct (shr_m (fst (shr_fexp prec emax m2 (snd p1) loc_Exact))) as [|q|q];
    [discriminate| |lia].
  destruct (_ <=? _)%Z; discriminate.
Qed.

(** Adding a finite number to a number gives a number. *)
Lemma SFadd_not_nan x y :
  x <> S754_nan -> is_finite_SF y = true -> SFadd prec emax x y <> S754_nan.
Proof.
  intros Hx Fy.
  destruct x as [sx|sx| |sx mx ex], y as [sy|sy| |sy my ey];
    try discriminate Fy; try (exfalso; apply Hx; reflexivity); cbn [SFadd];
    try discriminate.
  - destruct sx, sy; discriminate.
  - unfold binary_normalize.
    destruct (_ + _)%Z as [|m|m]; [discriminate| |];
      unfold binary_round; destruct (shl_align m _ _) as [mz ez];
      apply binary_round_aux_not_nan; lia.
Qed.

Lemma is_nan_spec x :
  is_nan x = match Prim2SF x with S754_nan => true | _ => false end.
Proof.
  unfold is_nan. rewrite FloatAxioms.eqb_spec. unfold SFeqb.
  destruct (Prim2SF x) as [s|s| |s m e]; cbn [SFcompare]; try reflexivity.
  - destruct s; reflexivity.
  - rewrite Z.compare_refl.
    change (Pos.compare_cont Eq m m) with (Pos.compare m m). rewrite Pos.compare_refl.
    destruct s; reflexivity.
Qed.

Lemma is_infinity_spec x :
  is_infinity x = match Prim2SF x with S754_infinity _ => true | _ => false end.
Proof.
  unfold is_infinity. rewrite FloatAxioms.eqb_spec, abs_spec. unfold SFeqb.
  change (Prim2SF infinity) with (S754_infinity false).
  destruct (Prim2SF x) as [s|s| |s m e]; cbn [SFabs SFcompare]; reflexivity.
Qed.

(** [x || 0] of a figure that is not an infinity is finite. *)
Lemma or_else_finite (x : option number) :
  match x with Some v => is_infinity v = false | None => True end ->
  finite (or_else x 0) = true.
Proof.
  destruct x as [v|]; [|reflexivity]. intros H. unfold or_else, truthy.
  destruct (is_nan v || is_zero v) eqn:E; cbn [negb]; [reflexivity|].
  apply orb_false_elim in E. destruct E as [En _].
  rewrite is_nan_spec in En. rewrite is_infinity_spec in H. unfold finite.
  destruct (Prim2SF v); try discriminate; reflexivity.
Qed.

(** The total liquidity of pairs whose liquidity figures are not
    infinities is a number. *)
Lemma total_liquidity_is_number allPairs :
  (forall pair, In pair allPairs ->
     match Dex.liquidity_usd pair with
     | Some v => is_infinity v = false
     | None => True
     end) ->
  is_nan (Dex.totalLiquidityOf allPairs) = false.
Proof.
  unfold Dex.totalLiquidityOf.
  assert (G : forall l acc,
             is_nan acc = false ->
             (forall pair, In pair l ->
                match Dex.liquidity_usd pair with
                | Some v => is_infinity v = false
                | None => True
                end) ->
             is_nan (fold_left (fun sum pair => sum + or_else (Dex.liquidity_usd pair) 0)
                               l acc) = false).
  { induction l as [|pair l IH]; intros acc Ha Hl; cbn [fold_left]; [exact Ha|].
    apply IH; [|intros p Hp; apply Hl; right; exact Hp].
    pose proof (or_else_finite (Dex.liquidity_usd pair) (Hl pair (or_introl eq_refl))) as F.
    rewrite is_nan_spec in *. rewrite add_spec. unfold finite in F.
    assert (N : SFadd prec emax (Prim2SF acc) (Prim2SF (or_else (Dex.liquidity_usd pair) 0))
                <> S754_nan).
    { apply SFadd_not_nan; [|exact F]. intros E. rewrite E in Ha. discriminate Ha. }
    unfold SF64add. destruct (SFadd _ _ _ _); try reflexivity. exfalso. apply N. reflexivity. }
  intros H. apply G; [reflexivity|exact H].
Qed.



(** What the hypothesis leaves out: a total that is NaN, which by
    [total_liquidity_is_number] takes an infinite liquidity figure, as when
    the list holds a pair with liquidity [Infinity] and one with
    [-Infinity].  Every tier test is then false and the liquidity sub-score
    stays at its initial 0; with high volume, a buy/sell ratio of 3 and
    four venues the score is 50 - 30 = 20. *)
Remark dex_score_20_on_nan_liquidity :
  let a := Dex.calculateDexRiskAssessment Samples.formatNumber Samples.toFixed2
             Samples.natToString Samples.nanLiquidityPrimary Samples.nanLiquidityPairs in
  is_nan (Dex.liquidity a) = true
  /\ Dex.liquidityScore a = 0
  /\ Dex.riskScore a = 20
  /\ (Dex.riskScore a >=? 30) = false.
Proof. repeat split; vm_compute; reflexivity. Qed.

(** C7 as stated fails: for 100 buys, 10 sells and a volume of $100,000
    the scorer raises no flag at all; it lists the 10:1 ratio among the
    positive indicators and lowers the score by 10 for it. *)
Lemma imbalanced_pair_not_flagged :
  let a := Dex.calculateDexRiskAssessment Samples.formatNumber Samples.toFixed2
             Samples.natToString Samples.imbalancedPair [Samples.imbalancedPair] in
  Dex.buyToSellRatio a = 10
  /\ Dex.redFlags a = []
  /\ In "More buys than sells in the last 24 hours"%string (Dex.positiveIndicators a)
  /\ Dex.riskScore a = 50.
Proof.
  split; [vm_compute; reflexivity|]. split; [vm_compute; reflexivity|].
  split; [|vm_compute; reflexivity].
  vm_compute. right. left. reflexivity.
Qed.

(** A list that lacks a message still lacks it after another one is
    pushed. *)
Lemma not_in_snoc {A} (x y : A) l : ~ In x l -> x <> y -> ~ In x (l ++ [y]).
Proof.
  intros Hl Hy Hin. apply in_app_or in Hin. destruct Hin as [Hin|[Hin|[]]]; auto.
Qed.

(** C7, amended: the scorer exposes, with its score, the ratio
    buyToSellRatio = buys / sells, taken as 2 when there are buys but no
    sells and as 1 when there are neither; for 100 buys and 10 sells it is
    10.  A ratio above 2 is listed among the positive indicators ("More
    buys than sells in the last 24 hours") and does not raise the red flag
    of the trading pattern; the red flags are the same whatever the buys and
    the sells are, as long as the ratio is not below 0.5.  (The assessment
    record has no volume per transaction and no suspicious flag.) *)
Theorem buy_sell_ratio_exposed formatNumber toFixed2 natToString primaryPair allPairs :
  let a := Dex.calculateDexRiskAssessment formatNumber toFixed2 natToString
             primaryPair allPairs in
  ((Dex.totalSellsOf primaryPair >? 0) = true ->
   Dex.buyToSellRatio a = Dex.totalBuysOf primaryPair / Dex.totalSellsOf primaryPair)
  /\ ((Dex.totalSellsOf primaryPair >? 0) = false ->
      (Dex.totalBuysOf primaryPair >? 0) = true -> Dex.buyToSellRatio a = 2)
  /\ ((Dex.totalSellsOf primaryPair >? 0) = false ->
      (Dex.totalBuysOf primaryPair >? 0) = false -> Dex.buyToSellRatio a = 1)
  /\ ((Dex.buyToSellRatio a >? 2) = true ->
      In "More buys than sells in the last 24 hours"%string (Dex.positiveIndicators a)
      /\ ~ In "Significantly more sells than buys in the last 24 hours"%string
              (Dex.redFlags a))
  /\ (Dex.totalBuysOf primaryPair = 100 -> Dex.totalSellsOf primaryPair = 10 ->
      Dex.buyToSellRatio a = 10 /\ (Dex.buyToSellRatio a >? 2) = true)
  /\ (forall otherPair,
        let a' := Dex.calculateDexRiskAssessment formatNumber toFixed2 natToString
                    otherPair allPairs in
        Dex.priceChange_h24 otherPair = Dex.priceChange_h24 primaryPair ->
        (Dex.buyToSellRatio a <? 0.5) = false ->
        (Dex.buyToSellRatio a' <? 0.5) = false ->
        Dex.redFlags a' = Dex.redFlags a).
Proof.
  intros a. subst a.
  split; [|split; [|split; [|split; [|split]]]].
  - intros Hs. unfold Dex.calculateDexRiskAssessment. split_pairs.
    cbn [Dex.buyToSellRatio]. rewrite Hs. reflexivity.
  - intros Hs Hb. unfold Dex.calculateDexRiskAssessment. split_pairs.
    cbn [Dex.buyToSellRatio]. rewrite Hs, Hb. reflexivity.
  - intros Hs Hb. unfold Dex.calculateDexRiskAssessment. split_pairs.
    cbn [Dex.buyToSellRatio]. rewrite Hs, Hb. reflexivity.
  - unfold Dex.calculateDexRiskAssessment.
    set (ratio := if Dex.totalSellsOf primaryPair >? 0
                  then Dex.totalBuysOf primaryPair / Dex.totalSellsOf primaryPair
                  else if Dex.totalBuysOf primaryPair >? 0 then 2 else 1).
    destruct (if Dex.totalLiquidityOf allPairs <? 10000 then _ else _)
      as [[[liquidityScore liquidityLevel] flags0] indicators0] eqn:E0.
    assert (F0 : ~ In "Significantly more sells than buys in the last 24 hours"%string
                      flags0).
    { clear - E0.
      repeat match type of E0 with
             | context [if ?c then _ else _] => destruct c
             end;
        injection E0 as _ _ <- _; cbn [app];
        solve [intros [] | intros [H|[]]; discriminate H]. }
    clear E0.
    destruct (if Dex.totalVolume24hOf allPairs <? 1000 then _ else _)
      as [flags1 indicators1] eqn:E1.
    assert (F1 : ~ In "Significantly more sells than buys in the last 24 hours"%string
                      flags1).
    { clear - E1 F0.
      repeat match type of E1 with
             | context [if ?c then _ else _] => destruct c
             end;
        injection E1 as <- _;
        solve [exact F0 | apply not_in_snoc; [exact F0|discriminate]]. }
    clear E1 F0.
    destruct (if (if Dex.totalLiquidityOf allPairs >? 0 then _ else _) <? _ then _ else _)
      as [flags2 indicators2] eqn:E2.
    assert (F2 : ~ In "Significantly more sells than buys in the last 24 hours"%string
                      flags2).
    { clear - E2 F1.
      repeat match type of E2 with
             | context [if ?c then _ else _] =>
                 lazymatch c with
                 | context [if _ then _ else _] => fail
                 | _ => destruct c
                 end
             end;
        injection E2 as <- _;
        solve [exact F1 | apply not_in_snoc; [exact F1|discriminate]]. }
    clear E2 F1.
    destruct (if ratio <? 0.5 then _ else _) as [flags3 indicators3] eqn:E3.
    destruct (if or_else (Dex.priceChange_h24 primaryPair) 0 <? -20 then _ else _)
      as [flags4 indicators4] eqn:E4.
    cbn [Dex.buyToSellRatio Dex.positiveIndicators Dex.redFlags].
    intros Hratio.
    assert (Hsells : (ratio <? 0.5) = false).
    { apply leb_not_gtb. apply ltb_leb. exact (ltb_trans 0.5 2 ratio eq_refl Hratio). }
    rewrite Hsells, Hratio in E3. injection E3 as <- E3.
    assert (I3 : In "More buys than sells in the last 24 hours"%string indicators3).
    { rewrite <- E3. apply in_or_app. right. left. reflexivity. }
    clear E3.
    assert (F4 : ~ In "Significantly more sells than buys in the last 24 hours"%string
                      flags4
                 /\ In "More buys than sells in the last 24 hours"%string indicators4).
    { clear - E4 F2 I3.
      repeat match type of E4 with
             | context [if ?c then _ else _] => destruct c
             end;
        injection E4 as <- <-;
        (split;
         [first [exact F2
                | apply not_in_snoc; [exact F2|intros Heq; cbn in Heq; discriminate Heq]]
         |first [exact I3 | apply in_or_app; left; exact I3]]). }
    destruct F4 as [F4 I4]. split; [|exact F4].
    unfold Dex.push_if. destruct (3 <? Dex.uniqueDexesOf allPairs)%nat; [|exact I4].
    apply in_or_app. left. exact I4.
  - intros Hb Hs. unfold Dex.calculateDexRiskAssessment. split_pairs.
    cbn [Dex.buyToSellRatio]. rewrite Hb, Hs. split; vm_compute; reflexivity.
  - intros otherPair a' Hp. subst a'. unfold Dex.calculateDexRiskAssessment.
    rewrite Hp.
    set (ratio := if Dex.totalSellsOf primaryPair >? 0
                  then Dex.totalBuysOf primaryPair / Dex.totalSellsOf primaryPair
                  else if Dex.totalBuysOf primaryPair >? 0 then 2 else 1).
    set (ratio' := if Dex.totalSellsOf otherPair >? 0
                   then Dex.totalBuysOf otherPair / Dex.totalSellsOf otherPair
                   else if Dex.totalBuysOf otherPair >? 0 then 2 else 1).
    destruct (if Dex.totalLiquidityOf allPairs <? 10000 then _ else _)
      as [[[liquidityScore liquidityLevel] flags0] indicators0].
    destruct (if Dex.totalVolume24hOf allPairs <? 1000 then _ else _)
      as [flags1 indicators1].
    destruct (if (if Dex.totalLiquidityOf allPairs >? 0 then _ else _) <? _ then _ else _)
      as [flags2 indicators2].
    destruct (if ratio <? 0.5 then _ else _) as [flags3 indicators3] eqn:E3.
    destruct (if ratio' <? 0.5 then _ else _) as [flags3' indicators3'] eqn:E3'.
    destruct (if or_else (Dex.priceChange_h24 primaryPair) 0 <? -20
              then (flags3 ++ _, _) else _) as [flags4 indicators4] eqn:E4.
    destruct (if or_else (Dex.priceChange_h24 primaryPair) 0 <? -20
              then (flags3' ++ _, _) else _) as [flags4' indicators4'] eqn:E4'.
    cbn [Dex.buyToSellRatio Dex.redFlags].
    intros Hr Hr'. rewrite Hr in E3. rewrite Hr' in E3'.
    assert (F3 : flags3 = flags2) by (destruct (2 <? ratio); injection E3 as <- _; reflexivity).
    assert (F3' : flags3' = flags2)
      by (destruct (2 <? ratio'); injection E3' as <- _; reflexivity).
    subst flags3 flags3'. clear E3 E3'.
    repeat match type of E4 with
           | context [if ?c then _ else _] => destruct c
           end;
      injection E4 as <- _; injection E4' as <- _; reflexivity.
Qed.

(** Witness for C7: the pair with 100 buys and 10 sells. *)
Lemma buy_sell_ratio_exposed_witness :
  let a := Dex.calculateDexRiskAssessment Samples.formatNumber Samples.toFixed2
             Samples.natToString Samples.imbalancedPair [Samples.imbalancedPair] in
  Dex.totalBuysOf Samples.imbalancedPair = 100
  /\ Dex.totalSellsOf Samples.imbalancedPair = 10
  /\ Dex.buyToSellRatio a = 10
  /\ In "More buys than sells in the last 24 hours"%string (Dex.positiveIndicators a)
  /\ ~ In "Significantly more sells than buys in the last 24 hours"%string
          (Dex.redFlags a).
Proof.
  cbv zeta.
  destruct (buy_sell_ratio_exposed Samples.formatNumber Samples.toFixed2
              Samples.natToString Samples.imbalancedPair [Samples.imbalancedPair])
    as [_ [_ [_ [H4 [H5 _]]]]].
  split; [reflexivity|]. split; [reflexivity|].
  destruct (H5 eq_refl eq_refl) as [E R]. split; [exact E|]. exact (H4 R).
Defined.

(** ** The sentiment scorer *)

Section SentimentScore.

Local Open Scope Q_scope.

(** The exact value is [50 * (1 - s)]. *)
Lemma exactInversion_eq s : Social.exactInversion s == 50 * (1 - s).
Proof. unfold Social.exactInversion. field. Qed.

(** The binary64 value of [((1 - s) / 2) * 100] for [s] in [-1, 1]: finite,
    between 0 and 100, and within the margin of the exact value. *)
Lemma inversion_value (s : float) :
  (-1 <=? s)%float = true -> (s <=? 1)%float = true ->
  let c := (((1 - s) / 2) * 100)%float in
  finite c = true /\ signOf c = false
  /\ valueOf c - Social.exactInversion (valueOf s) <= tieMargin
  /\ Social.exactInversion (valueOf s) - valueOf c <= tieMargin
  /\ 0 <= valueOf c /\ valueOf c <= 100.
Proof.
  intros Hlo Hhi c. subst c.
  assert (Fs : finite s = true) by (apply (between_finite (-1) s 1); auto).
  assert (Vm1 : valueOf (-1) == -1) by (vm_compute; reflexivity).
  assert (V1 : valueOf 1 == 1) by (vm_compute; reflexivity).
  assert (V2 : valueOf 2 == 2) by (vm_compute; reflexivity).
  assert (V100 : valueOf 100 == 100) by (vm_compute; reflexivity).
  apply (leb_value (-1) s eq_refl Fs) in Hlo.
  apply (leb_value s 1 Fs eq_refl) in Hhi.
  rewrite exactInversion_eq. unfold tieMargin.
  set (vs := valueOf s) in *.
  destruct (sub_value 1 s 2 eq_refl Fs ltac:(lia)) as [Fa [Sa Ra]].
  { change (pow2 2) with 4. fold vs. lra. }
  { change (pow2 2) with 4. fold vs. lra. }
  fold vs in Sa, Ra.
  assert (Sa' : signOf (1 - s) = false) by (apply Sa; [lra|left; reflexivity]).
  destruct (rounds_to_err _ _ _ (1 # 4503599627370496) Ra eq_refl) as [Ea1 Ea2].
  pose proof (rounds_to_le _ _ _ 2 1 1 Ra eq_refl ltac:(lia) ltac:(lra)) as Ua.
  pose proof (rounds_to_ge _ _ _ 0 0 0 Ra eq_refl ltac:(lia) ltac:(lra)) as La.
  set (a := (1 - s)%float) in *. set (va := valueOf a) in *.
  destruct (div_value a 2 (va * (1#2)) 1 Fa eq_refl) as [Fb [Sb Rb]].
  { rewrite V2. discriminate. }
  { lia. }
  { rewrite V2. fold va. ring. }
  { change (pow2 1) with 2. lra. }
  { change (pow2 1) with 2. lra. }
  rewrite Sa' in Sb. change (xorb false (signOf 2)) with false in Sb.
  destruct (rounds_to_err _ _ _ (1 # 9007199254740992) Rb eq_refl) as [Eb1 Eb2].
  pose proof (rounds_to_le _ _ _ 1 1 0 Rb eq_refl ltac:(lia) ltac:(lra)) as Ub.
  pose proof (rounds_to_ge _ _ _ 0 0 0 Rb eq_refl ltac:(lia) ltac:(lra)) as Lb.
  set (b := (a / 2)%float) in *. set (vb := valueOf b) in *.
  destruct (mul_value b 100 7 Fb eq_refl ltac:(lia)) as [Fc [Sc Rc]].
  { rewrite V100. change (pow2 7) with 128. fold vb. lra. }
  { rewrite V100. change (pow2 7) with 128. fold vb. lra. }
  rewrite Sb in Sc. change (xorb false (signOf 100)) with false in Sc.
  fold vb in Rc.
  assert (Rc' : rounds_to (vb * 100) (valueOf (b * 100)) 7).
  { revert Rc. apply rounds_to_ext; [rewrite V100; reflexivity|reflexivity]. }
  destruct (rounds_to_err _ _ _ (1 # 140737488355328) Rc' eq_refl) as [Ec1 Ec2].
  pose proof (rounds_to_le _ _ _ 100 100 0 Rc' eq_refl ltac:(lia) ltac:(lra)) as Uc.
  pose proof (rounds_to_ge _ _ _ 0 0 0 Rc' eq_refl ltac:(lia) ltac:(lra)) as Lc.
  split; [exact Fc|]. split; [exact Sc|].
  set (vc := valueOf (b * 100)) in *.
  repeat split; lra.
Qed.

End SentimentScore.

(** C8 as stated fails.  For a single tweet of sentiment -0.13 the exact
    value ((1 - s) / 2) * 100 of the binary64 number s is just above 56.5
    and rounds to 57; in binary64 the expression evaluates to
    56.49999999999999 and the scorer returns 56. *)
Lemma sentiment_score_off_near_tie :
  let a := Social.calculateTwitterRiskAssessment MoreSamples.nearTieTweets None in
  let s := Social.averageSentiment MoreSamples.nearTieTweets in
  s = (-0.13) /\ (-1 <=? s) = true /\ (s <=? 1) = true
  /\ roundHalfUp (Social.exactInversion (valueOf s)) = 57%Z
  /\ Social.riskScore a = 56
  /\ Social.riskScore a <> of_Z 57.
Proof.
  cbv zeta. split; [vm_compute; reflexivity|]. split; [vm_compute; reflexivity|].
  split; [vm_compute; reflexivity|]. split; [vm_compute; reflexivity|].
  split; [vm_compute; reflexivity|].
  intros H. apply (f_equal (fun x => PrimFloat.eqb x 57)) in H.
  vm_compute in H. discriminate H.
Qed.

(** C8, amended: the score is the function [linearInversion] of the
    averaged sentiment, and for every sentiment value s in [-1, 1] that
    function returns an integer k of 0..100 that lies between the exact
    value x = ((1 - s) / 2) * 100 rounded after moving it down and up by
    10^-12; so it is round(x) unless x is within 10^-12 of a value halfway
    between two integers.  With no tweet at all the scorer returns score
    50, level Medium and the single factor that notes the absence of
    activity. *)
Theorem sentiment_score_linear_inversion :
  (forall s : number,
     (-1 <=? s) = true -> (s <=? 1) = true ->
     exists k : Z,
       Social.linearInversion s = of_Z k /\ (0 <= k <= 100)%Z
       /\ (roundHalfUp (Social.exactInversion (valueOf s) - tieMargin) <= k
           <= roundHalfUp (Social.exactInversion (valueOf s) + tieMargin))%Z
       /\ (roundHalfUp (Social.exactInversion (valueOf s) - tieMargin)
           = roundHalfUp (Social.exactInversion (valueOf s) + tieMargin)
           -> k = roundHalfUp (Social.exactInversion (valueOf s))))
  /\ (forall tweet rest userInfo,
        let a := Social.calculateTwitterRiskAssessment (tweet :: rest) userInfo in
        Social.overallSentimentScore a = Social.averageSentiment (tweet :: rest)
        /\ Social.riskScore a
           = Social.linearInversion (Social.averageSentiment (tweet :: rest)))
  /\ (forall userInfo,
        let a := Social.calculateTwitterRiskAssessment [] userInfo in
        Social.riskScore a = 50 /\ Social.riskLevel a = Medium
        /\ Social.redFlags a = ["No recent Twitter activity found"%string]
        /\ Social.positiveIndicators a = []).
Proof.
  split; [|split; [intros; split; reflexivity|intros; repeat split]].
  intros s Hlo Hhi.
  destruct (inversion_value s Hlo Hhi) as [Fc [Sc [E1 [E2 [L U]]]]].
  exists (roundHalfUp (valueOf (((1 - s) / 2) * 100))).
  split.
  { unfold Social.linearInversion.
    apply Math_round_value; [exact Fc|exact Sc|].
    apply Qle_lt_trans with (1 := U). reflexivity. }
  split.
  { apply roundHalfUp_within.
    - apply Qle_trans with (2 := L). discriminate.
    - apply Qle_lt_trans with (1 := U). reflexivity. }
  destruct (roundHalfUp_bracket _ _ _ E1 E2) as [B1 B2].
  split; [exact B1|]. intros E. apply B2; [exact E|]. discriminate.
Qed.

(** Witness for C8: one tweet of sentiment 0.5; the exact value is 25
    and so is the score. *)
Lemma sentiment_score_linear_inversion_witness :
  let tweets := [Samples.tweetScored Social.positive 0.5] in
  let a := Social.calculateTwitterRiskAssessment tweets None in
  let s := Social.averageSentiment tweets in
  (-1 <=? s) = true /\ (s <=? 1) = true
  /\ Social.riskScore a = of_Z (roundHalfUp (Social.exactInversion (valueOf s)))
  /\ roundHalfUp (Social.exactInversion (valueOf s)) = 25%Z.
Proof.
  cbv zeta. split; [reflexivity|]. split; [reflexivity|].
  destruct sentiment_score_linear_inversion as [H [R _]].
  destruct (R (Samples.tweetScored Social.positive 0.5) [] None) as [_ R2].
  destruct (H (Social.averageSentiment [Samples.tweetScored Social.positive 0.5])
              eq_refl eq_refl) as [k [H1 [_ [_ H2]]]].
  assert (E : k = roundHalfUp
                    (Social.exactInversion
                       (valueOf (Social.averageSentiment
                                   [Samples.tweetScored Social.positive 0.5]))))
    by (apply H2; vm_compute; reflexivity).
  rewrite E in H1. rewrite R2, H1. split; [reflexivity|]. vm_compute. reflexivity.
Defined.

(** The inversion at the ends and the middle of the sentiment range, and
    on the sample tweets (average 0.25). *)
Example linear_inversion_samples :
  Social.linearInversion 1 = 0 /\ Social.linearInversion (-1) = 100
  /\ Social.linearInversion 0 = 50 /\ Social.linearInversion 0.5 = 25
  /\ Social.averageSentiment Samples.tweets = 0.25
  /\ Social.riskScore (Social.calculateTwitterRiskAssessment Samples.tweets None) = 38
  /\ Social.riskLevel (Social.calculateTwitterRiskAssessment Samples.tweets None) = Low.
Proof. repeat split; vm_compute; reflexivity. Qed.

(** ** The analysis agent: factor compilation and the guard before the engine *)

Import AnalysisAgent.

Lemma factors_closed_form now id b s m d :
  let a := calculateComprehensiveRisk now id b s m d in
  riskFactors a
  = tagged "[Blockchain]" 3 (option_map b_riskFactors b)
    ++ tagged "[Social]" 2 (option_map s_riskFactors s)
    ++ tagged "[Market]" 2 (option_map m_riskFactors m)
    ++ tagged "[DEX]" 2 (option_map red_flags d)
  /\ positiveFactors a
     = tagged "[Social]" 2 (option_map s_positiveFactors s)
       ++ tagged "[Market]" 2 (option_map m_positiveFactors m)
       ++ tagged "[DEX]" 2 (option_map positive_indicators d).
Proof.
  intros a. subst a.
  destruct b as [b|], s as [sd|], m as [md|], d as [dd|];
    unfold calculateComprehensiveRisk, push_tagged, tagged;
    cbn [riskFactors positiveFactors option_map];
    rewrite ?app_nil_r, ?app_nil_l, <- ?app_assoc; split; reflexivity.
Qed.

(** The risk factors of an assessment are, in the fixed order Blockchain,
    Social, Market, DEX, the first three blockchain factors and the first
    two of each other source, each behind its tag; the positive factors
    are built alike from the social, market and DEX sources only. *)
Theorem factors_in_category_order now id b s m d :
  let a := calculateComprehensiveRisk now id b s m d in
  riskFactors a
  = tagged "[Blockchain]" 3 (option_map b_riskFactors b)
    ++ tagged "[Social]" 2 (option_map s_riskFactors s)
    ++ tagged "[Market]" 2 (option_map m_riskFactors m)
    ++ tagged "[DEX]" 2 (option_map red_flags d)
  /\ positiveFactors a
     = tagged "[Social]" 2 (option_map s_positiveFactors s)
       ++ tagged "[Market]" 2 (option_map m_positiveFactors m)
       ++ tagged "[DEX]" 2 (option_map positive_indicators d).
Proof. exact (factors_closed_form now id b s m d). Qed.

Lemma tagged_length tag n factors : (List.length (tagged tag n factors) <= n)%nat.
Proof.
  destruct factors as [xs|]; simpl; [|lia].
  rewrite length_map. unfold slice0. apply firstn_le_length.
Qed.

(** However many factors the sources deliver, an assessment lists at most
    nine risk factors and at most six positive factors. *)
Theorem factor_lists_are_capped now id b s m d :
  let a := calculateComprehensiveRisk now id b s m d in
  (List.length (riskFactors a) <= 9)%nat /\ (List.length (positiveFactors a) <= 6)%nat.
Proof.
  intros a. destruct (factors_closed_form now id b s m d) as [Hr Hp].
  fold a in Hr, Hp. rewrite Hr, Hp. rewrite !length_app.
  pose proof (tagged_length "[Blockchain]" 3 (option_map b_riskFactors b)).
  pose proof (tagged_length "[Social]" 2 (option_map s_riskFactors s)).
  pose proof (tagged_length "[Market]" 2 (option_map m_riskFactors m)).
  pose proof (tagged_length "[DEX]" 2 (option_map red_flags d)).
  pose proof (tagged_length "[Social]" 2 (option_map s_positiveFactors s)).
  pose proof (tagged_length "[Market]" 2 (option_map m_positiveFactors m)).
  pose proof (tagged_length "[DEX]" 2 (option_map positive_indicators d)).
  lia.
Qed.


(** As the agent is written, with the simulated [callAgentCapability]
    that returns null, no request ever reaches the engine: for every
    identifier the capability answers with the insufficient-data error. *)
Theorem analysis_agent_never_assesses
    parseBlockchain parseSocial parseMarket parseDex now id :
  performRiskAssessment parseBlockchain parseSocial parseMarket parseDex now id
  = inl ("Insufficient data available for " ++ id)%string.
Proof.
  unfold performRiskAssessment, getBlockchainRiskData, getSocialRiskData,
    getMarketRiskData, getDexRiskData, callAgentCapability.
  destruct (negb _); reflexivity.
Qed.


Lemma incl_push_all tag xs out1 out2 :
  incl out1 out2 -> incl out1 (push_all_tagged tag xs out2).
Proof.
  intros H x Hx. unfold push_all_tagged. apply in_or_app. left. apply H. exact Hx.
Qed.


(** ** The coordinator: routing *)

Lemma last_message {A} (earlier : list A) (x : A) :
  last (map Some (earlier ++ [x])) None = Some x.
Proof. rewrite map_app. simpl. apply last_last. Qed.

(** Only the latest message counts, and only when its author is the user.
    A user message that holds one of the full-assessment phrases is always
    handed to the risk assessment handler, whichever blockchain, social or
    market keywords it holds besides; with an empty message list the
    handler throws. *)
Theorem full_assessment_request_takes_precedence toLowerCase earlier latest :
  (Coordinator.author latest = "user"%string ->
   Coordinator.isFullRiskAssessmentRequest toLowerCase (Coordinator.message latest) = true ->
   Coordinator.respondToChat toLowerCase (earlier ++ [latest])
   = Coordinator.Handled Coordinator.RiskAssessment)
  /\ (Coordinator.author latest <> "user"%string ->
      Coordinator.respondToChat toLowerCase (earlier ++ [latest]) = Coordinator.NoResponse)
  /\ Coordinator.respondToChat toLowerCase [] = Coordinator.Throws.
Proof.
  unfold Coordinator.respondToChat. rewrite last_message.
  split; [|split; [|reflexivity]].
  - intros Hu Hf. rewrite Hu. cbn [String.eqb Ascii.eqb Bool.eqb negb].
    unfold Coordinator.isBlockchainAnalysisRequest,
      Coordinator.isSocialMediaAnalysisRequest,
      Coordinator.isMarketAnalysisRequest, Coordinator.isRiskAssessmentRequest.
    rewrite Hf. cbn [negb orb]. rewrite !andb_false_r. reflexivity.
  - intros Hu. apply String.eqb_neq in Hu. rewrite Hu. reflexivity.
Qed.

(** Among the single-domain handlers the blockchain one comes first: a
    user message without a full-assessment phrase that holds a blockchain
    keyword (the letters eth are one) goes to blockchain analysis even if
    it also asks about sentiment or price. *)
Theorem blockchain_keywords_come_first toLowerCase earlier latest :
  Coordinator.author latest = "user"%string ->
  Coordinator.isFullRiskAssessmentRequest toLowerCase (Coordinator.message latest) = false ->
  Str.includesSome (toLowerCase (Coordinator.message latest)) Coordinator.blockchainKeywords = true ->
  Coordinator.respondToChat toLowerCase (earlier ++ [latest])
  = Coordinator.Handled Coordinator.BlockchainAnalysis.
Proof.
  intros Hu Hf Hb. unfold Coordinator.respondToChat. rewrite last_message.
  rewrite Hu. cbn [String.eqb Ascii.eqb Bool.eqb negb].
  unfold Coordinator.isBlockchainAnalysisRequest. rewrite Hf, Hb. reflexivity.
Qed.

(** A question about a price is handed to blockchain analysis because the
    word something holds the letters eth. *)
Lemma blockchain_keywords_come_first_witness :
  Str.includes "what is the price of something?" "price" = true
  /\ Coordinator.respondToChat MoreSamples.lowerCaseText [MoreSamples.priceOfSomething]
     = Coordinator.Handled Coordinator.BlockchainAnalysis.
Proof.
  split; [reflexivity|].
  apply (blockchain_keywords_come_first MoreSamples.lowerCaseText []
           MoreSamples.priceOfSomething); reflexivity.
Defined.

(** ** The market scorer: bounds and missing history *)

(** The market risk score lies between 0 and 100 for every input, numbers
    that are NaN or infinite included. *)
Theorem market_score_within_bounds coinData priceHistory :
  let a := Market.calculateMarketRiskAssessment coinData priceHistory in
  (Market.riskScore a >=? 0) = true /\ (Market.riskScore a <=? 100) = true.
Proof.
  intros a. subst a. unfold Market.calculateMarketRiskAssessment.
  destruct (Market.assessVolatility priceHistory) as [[v l] dsc].
  split_pairs. cbn [Market.riskScore].
  split; split_tests; vm_compute; reflexivity.
Qed.

(** Without a usable price history (none at all, or fewer than two
    points) the volatility is reported as not calculable with score 0, yet
    it is scored as low volatility: the positive indicator for price
    stability is raised. *)
Theorem missing_history_counts_as_stable coinData priceHistory :
  (forall points, priceHistory = Some points -> (List.length points <= 1)%nat) ->
  let a := Market.calculateMarketRiskAssessment coinData priceHistory in
  Market.volatility a
  = {| Market.score := 0; Market.level := Medium;
       Market.description :=
         "Price volatility could not be calculated due to insufficient historical data." |}
  /\ In "Low price volatility suggests price stability"%string (Market.positiveIndicators a).
Proof.
  intros Hshort a. subst a.
  assert (Hv : Market.assessVolatility priceHistory
               = (0, Medium,
                  "Price volatility could not be calculated due to insufficient historical data."%string)).
  { unfold Market.assessVolatility. destruct priceHistory as [points|]; [|reflexivity].
    specialize (Hshort points eq_refl).
    destruct (1 <? List.length points)%nat eqn:E; [|reflexivity].
    apply Nat.ltb_lt in E. lia. }
  unfold Market.calculateMarketRiskAssessment. rewrite Hv.
  split_pairs. cbn [Market.volatility Market.positiveIndicators]. split.
  - f_equal.
  - replace (0 <? 0.02) with true by reflexivity.
    unfold Market.push_if at 1. apply in_or_app. right. left. reflexivity.
Qed.

(** Witness: no price history at all. *)
Lemma missing_history_counts_as_stable_witness :
  In "Low price volatility suggests price stability"%string
     (Market.positiveIndicators
        (Market.calculateMarketRiskAssessment (Samples.coinRank 1500) None)).
Proof.
  apply (missing_history_counts_as_stable (Samples.coinRank 1500) None).
  intros points H. discriminate H.
Defined.

(** ** The DEX scorer: bounds and what the levels require *)

(** Case analysis on the tier of the total liquidity: the six tiers and,
    last, the case in which no tier test holds. *)
Ltac liquidity_tiers tl :=
  destruct (tl <? 10000) eqn:?Htier10K;
    [|destruct (tl <? 50000) eqn:?Htier50K;
      [|destruct (tl <? 100000) eqn:?Htier100K;
        [|destruct (tl <? 500000) eqn:?Htier500K;
          [|destruct (tl <? 1000000) eqn:?Htier1M;
            [|destruct (tl >=? 1000000) eqn:?HtierTop]]]]];
    cbv beta iota.

(** Case analysis on the tests of the inputs, leaving alone the two tests
    on the score that fix the level. *)
Ltac split_input_tests :=
  repeat match goal with
         | |- context [if ?c then _ else _] =>
             lazymatch c with
             | (_ <? 40) => fail
             | (70 <? _) => fail
             | context [if _ then _ else _] => fail
             | _ => destruct c
             end
         end.

(** The DEX risk score lies between 0 and 100 for every input. *)
Theorem dex_score_within_bounds formatNumber toFixed2 natToString primaryPair allPairs :
  let a := Dex.calculateDexRiskAssessment formatNumber toFixed2 natToString
             primaryPair allPairs in
  (Dex.riskScore a >=? 0) = true /\ (Dex.riskScore a <=? 100) = true.
Proof.
  intros a. subst a. unfold Dex.calculateDexRiskAssessment.
  liquidity_tiers (Dex.totalLiquidityOf allPairs).
  all: split_pairs; cbn [Dex.riskScore]; split; split_tests; vm_compute; reflexivity.
Qed.

(** A token whose total liquidity is below $100,000 is always rated High:
    its score is at least 80, whatever its volume, buy/sell ratio, price
    change and number of venues. *)
Theorem thin_liquidity_is_high_risk formatNumber toFixed2 natToString primaryPair allPairs :
  (Dex.totalLiquidityOf allPairs <? 100000) = true ->
  let a := Dex.calculateDexRiskAssessment formatNumber toFixed2 natToString
             primaryPair allPairs in
  Dex.riskLevel a = High /\ (Dex.riskScore a >=? 80) = true
  /\ Dex.liquidityLevel a = Low.
Proof.
  unfold Dex.calculateDexRiskAssessment.
  liquidity_tiers (Dex.totalLiquidityOf allPairs); intros H; try discriminate H.
  all: split_pairs; cbn [Dex.riskScore Dex.riskLevel Dex.liquidityLevel];
    split_input_tests; vm_compute; repeat split.
Qed.

(** Witness: one pair with $40,000 of liquidity and a strong volume. *)
Lemma thin_liquidity_is_high_risk_witness :
  Dex.riskLevel
    (Dex.calculateDexRiskAssessment Samples.formatNumber Samples.toFixed2
       Samples.natToString
       (Samples.pairOf "uniswap" (Some 40000) (Some 2000000) None)
       [Samples.pairOf "uniswap" (Some 40000) (Some 2000000) None]) = High.
Proof.
  apply (thin_liquidity_is_high_risk Samples.formatNumber Samples.toFixed2
           Samples.natToString
           (Samples.pairOf "uniswap" (Some 40000) (Some 2000000) None)
           [Samples.pairOf "uniswap" (Some 40000) (Some 2000000) None]).
  vm_compute. reflexivity.
Defined.

(** A Low rating is reached in one way only: when the total liquidity is
    a number, Low requires liquidity of at least $1,000,000 together with
    a volume above $1,000,000, a buy/sell ratio above 2 and more than
    three venues, and the score is then exactly 30. *)
Theorem low_dex_risk_needs_every_bonus formatNumber toFixed2 natToString primaryPair allPairs :
  is_nan (Dex.totalLiquidityOf allPairs) = false ->
  let a := Dex.calculateDexRiskAssessment formatNumber toFixed2 natToString
             primaryPair allPairs in
  Dex.riskLevel a = Low ->
  (Dex.totalLiquidityOf allPairs >=? 1000000) = true
  /\ (Dex.totalVolume24hOf allPairs >? 1000000) = true
  /\ (Dex.buyToSellRatio a >? 2) = true
  /\ (3 <? Dex.uniqueDexesOf allPairs)%nat = true
  /\ Dex.riskScore a = 30.
Proof.
  intros Hnan. unfold Dex.calculateDexRiskAssessment.
  liquidity_tiers (Dex.totalLiquidityOf allPairs).
  7: { rewrite (not_ltb_geb _ 1000000 Hnan eq_refl Htier1M) in HtierTop.
       discriminate HtierTop. }
  all: split_pairs; cbn [Dex.riskScore Dex.riskLevel Dex.buyToSellRatio];
    split_input_tests; vm_compute; intros H; try discriminate H; repeat split.
Qed.

(** Witness: the four-venue sample is rated Low with a score of 30. *)
Lemma low_dex_risk_needs_every_bonus_witness :
  Dex.riskScore
    (Dex.calculateDexRiskAssessment Samples.formatNumber Samples.toFixed2
       Samples.natToString MoreSamples.deepPrimary MoreSamples.deepPairs) = 30.
Proof.
  apply (low_dex_risk_needs_every_bonus Samples.formatNumber Samples.toFixed2
           Samples.natToString MoreSamples.deepPrimary MoreSamples.deepPairs);
    vm_compute; reflexivity.
Defined.

(** ** The blockchain agent: contract analysis, factors and the assessed score *)

Import BlockchainAgent.

(** A catalogue that has the five patterns of the agent, whatever their
    flags. *)
Lemma sameCatalogue_inv catalogue :
  sameCatalogue catalogue ->
  exists f1 f2 f3 f4 f5,
    catalogue = map (fun pf => setFound (fst pf) (snd pf))
                    (combine securityPatterns [f1; f2; f3; f4; f5]).
Proof.
  unfold sameCatalogue. intros H.
  destruct catalogue as [|[n1 d1 s1 f1] [|[n2 d2 s2 f2] [|[n3 d3 s3 f3]
    [|[n4 d4 s4 f4] [|[n5 d5 s5 f5] [|p6 rest]]]]]]; try discriminate H.
  cbn [map Blockchain.name Blockchain.description Blockchain.severity securityPatterns] in H.
  injection H as H1 H2 H3 H4 H5 H6 H7 H8 H9 H10 H11 H12 H13 H14 H15. subst.
  exists f1, f2, f3, f4, f5. reflexivity.
Qed.

Lemma analysis_from_any_flags sourceCode f1 f2 f3 f4 f5 :
  map (checkPattern sourceCode)
      (map (fun pf => setFound (fst pf) (snd pf))
           (combine securityPatterns [f1; f2; f3; f4; f5]))
  = map (checkPattern sourceCode) securityPatterns.
Proof. reflexivity. Qed.

(** The [found] flags that earlier analyses left on the shared catalogue
    never leak into a later one: whatever the flags, the patterns found
    are those found from the initial catalogue, and the catalogue left
    behind still has the same five patterns. *)
Theorem analysis_ignores_stale_flags catalogue sourceCode :
  sameCatalogue catalogue ->
  fst (analyzeContractCode catalogue sourceCode)
  = fst (analyzeContractCode securityPatterns sourceCode)
  /\ sameCatalogue (snd (analyzeContractCode catalogue sourceCode)).
Proof.
  intros H. destruct (sameCatalogue_inv catalogue H) as [f1 [f2 [f3 [f4 [f5 Hc]]]]].
  subst catalogue. unfold analyzeContractCode. cbn [fst snd].
  rewrite analysis_from_any_flags. split; reflexivity.
Qed.

(** Witness: the catalogue left by the analysis of a contract with an
    owner-only mint function. *)
Lemma analysis_ignores_stale_flags_witness :
  let used := snd (analyzeContractCode securityPatterns MoreSamples.ownerMintSource) in
  map Blockchain.found used = [true; true; false; false; false]
  /\ fst (analyzeContractCode used "contract C { }") = [].
Proof.
  split; [reflexivity|].
  destruct (analysis_ignores_stale_flags
              (snd (analyzeContractCode securityPatterns MoreSamples.ownerMintSource))
              "contract C { }") as [H _]; [reflexivity|].
  rewrite H. reflexivity.
Defined.

(** Every pattern the analysis returns is one of the five catalogue
    patterns, flagged as found, and of severity High or Medium: no pattern
    of severity Low or Info is ever reported, and never more than five. *)
Theorem found_patterns_are_catalogue_patterns sourceCode :
  let foundPatterns := fst (analyzeContractCode securityPatterns sourceCode) in
  (forall p, In p foundPatterns ->
     Blockchain.found p = true
     /\ (Blockchain.severity p = Blockchain.SevHigh
         \/ Blockchain.severity p = Blockchain.SevMedium)
     /\ In (setFound p false) securityPatterns)
  /\ (List.length foundPatterns <= 5)%nat.
Proof.
  intros foundPatterns. subst foundPatterns. unfold analyzeContractCode. cbn [fst].
  split.
  - intros p Hp. apply filter_In in Hp. destruct Hp as [Hin Hf].
    split; [exact Hf|].
    cbn [map securityPatterns In] in Hin.
    repeat match goal with
           | H : _ \/ _ |- _ => destruct H as [H|H]
           | H : False |- _ => destruct H
           end;
      subst p; cbn; auto 10.
  - etransitivity; [apply filter_length_le|]. rewrite length_map. cbn. lia.
Qed.

(** The patterns an analysis finds, from the five flags it sets. *)
Lemma found_from_flags catalogue isVerified contractInfo :
  sameCatalogue catalogue ->
  exists f1 f2 f3 f4 f5,
    securityAnalysisOf catalogue isVerified contractInfo
    = filter Blockchain.found
        (map (fun pf => setFound (fst pf) (snd pf))
             (combine securityPatterns [f1; f2; f3; f4; f5]))
    /\ (isVerified = false -> securityAnalysisOf catalogue isVerified contractInfo = []).
Proof.
  intros H. unfold securityAnalysisOf.
  destruct (Blockchain.sourceCode contractInfo) as [code|].
  - destruct (isVerified && truthy_str (Some code)) eqn:E.
    + destruct (sameCatalogue_inv catalogue H) as [g1 [g2 [g3 [g4 [g5 Hc]]]]].
      subst catalogue. unfold analyzeContractCode. cbn [fst].
      rewrite analysis_from_any_flags.
      eexists _, _, _, _, _. split; [reflexivity|].
      intros Hv. rewrite Hv in E. discriminate E.
    + exists false, false, false, false, false. split; reflexivity.
  - exists false, false, false, false, false. split; reflexivity.
Qed.

Lemma score_bounds_from_flags now isVerified contractInfo tokenInfo holders txs
    f1 f2 f3 f4 f5 :
  let score := Blockchain.calculateBlockchainRiskScore now isVerified contractInfo
                 tokenInfo holders txs
                 (filter Blockchain.found
                    (map (fun pf => setFound (fst pf) (snd pf))
                         (combine securityPatterns [f1; f2; f3; f4; f5]))) in
  ((score >=? 0) && (score <=? 100))%bool = true.
Proof.
  intros score. subst score. unfold Blockchain.calculateBlockchainRiskScore.
  generalize (Blockchain.calculateConcentrationMetrics holders). intros m.
  generalize (Blockchain.topHolderPercentage m) (Blockchain.top10Percentage m).
  intros top top10.
  destruct f1, f2, f3, f4, f5; cbn [filter map combine securityPatterns setFound fst snd
    Blockchain.found Blockchain.severity fold_left];
    destruct isVerified; cbn [negb];
    destruct (truthy_str (Blockchain.implementation contractInfo));
    destruct (negb (truthy_str (Blockchain.tokenName tokenInfo))
              || negb (truthy_str (Blockchain.symbol tokenInfo)))%bool;
    (destruct (Blockchain.createdTimestamp contractInfo) as [ts|];
     [generalize (Blockchain.ageInDaysAt now ts); intros age|]);
    split_tests; vm_compute; reflexivity.
Qed.

(** A list of factors is empty only if nothing was pushed. *)
Lemma push_if_nil c msg xs : push_if c msg xs = [] -> c = false /\ xs = [].
Proof.
  unfold push_if. destruct c; intros H.
  - destruct xs; discriminate H.
  - split; [reflexivity|exact H].
Qed.

Lemma snoc_not_nil {A} (xs : list A) x : xs ++ [x] <> [].
Proof. destruct xs; discriminate. Qed.

(** The loop over the patterns leaves the factors empty only if they were
    empty and no pattern is of severity High or Medium. *)
Lemma pattern_factors_nil patterns : forall riskFactors,
  fold_left (fun riskFactors pattern =>
               match Blockchain.severity pattern with
               | Blockchain.SevHigh =>
                   riskFactors ++
                     [("❌ **CRITICAL RISK:** " ++ Blockchain.name pattern ++ " - "
                       ++ Blockchain.description pattern)%string]
               | Blockchain.SevMedium =>
                   riskFactors ++
                     [("⚠️ **MEDIUM RISK:** " ++ Blockchain.name pattern ++ " - "
                       ++ Blockchain.description pattern)%string]
               | _ => riskFactors
               end) patterns riskFactors = [] ->
  riskFactors = []
  /\ forall p, In p patterns ->
       Blockchain.severity p = Blockchain.SevLow
       \/ Blockchain.severity p = Blockchain.SevInfo.
Proof.
  induction patterns as [|q rest IH]; intros riskFactors H.
  - split; [exact H|]. intros p [].
  - cbn [fold_left] in H. apply IH in H. destruct H as [Hq Hrest].
    destruct (Blockchain.severity q) eqn:E;
      try (exfalso; exact (snoc_not_nil _ _ Hq)).
    + split; [exact Hq|]. intros p [Hp|Hp]; [subst p; left; exact E|auto].
    + split; [exact Hq|]. intros p [Hp|Hp]; [subst p; right; exact E|auto].
Qed.

(** Patterns of severity Info leave the score as it is. *)
Lemma info_patterns_add_nothing patterns : forall score,
  (forall p, In p patterns -> Blockchain.severity p = Blockchain.SevInfo) ->
  fold_left (fun score pattern =>
               match Blockchain.severity pattern with
               | Blockchain.SevHigh => score + 20
               | Blockchain.SevMedium => score + 10
               | Blockchain.SevLow => score + 5
               | Blockchain.SevInfo => score
               end) patterns score = score.
Proof.
  induction patterns as [|q rest IH]; intros score H; [reflexivity|].
  cbn [fold_left]. rewrite (H q (or_introl eq_refl)). apply IH.
  intros p Hp. apply H. right. exact Hp.
Qed.

Section AssessedReports.

Variable numberToString : number -> string.
Variable parseIntOf : string -> number.
Variable etherOf : string -> option number.

(** The transaction analysis only ever adds a factor. *)
Lemma no_factor_without_transactions nowFactors dateNow isVerified contractInfo
    tokenInfo holders txs patterns :
  identifyRiskFactors numberToString parseIntOf etherOf nowFactors dateNow isVerified
    contractInfo tokenInfo holders txs patterns = Some [] ->
  identifyRiskFactors numberToString parseIntOf etherOf nowFactors dateNow isVerified
    contractInfo tokenInfo holders [] patterns = Some [].
Proof.
  destruct txs as [|tx rest]; [intros H; exact H|].
  unfold identifyRiskFactors.
  destruct (largeRecentTransactions parseIntOf etherOf _ (tx :: rest)) as [large|];
    [|discriminate].
  intros H. injection H as H. apply push_if_nil in H. destruct H as [_ H].
  f_equal. exact H.
Qed.

(** When no factor is identified, every penalty the score may still take
    is one the factors do not report: a contract between 30 and 90 days
    old (or younger at the later reading of the clock), a top holder
    between 10% and 20%, top ten holders between 70% and 80%. *)
Lemma no_factor_score_at_most_30 nowScore nowFactors dateNow isVerified contractInfo
    tokenInfo holders txs patterns :
  identifyRiskFactors numberToString parseIntOf etherOf nowFactors dateNow isVerified
    contractInfo tokenInfo holders txs patterns = Some [] ->
  (forall p, In p patterns -> Blockchain.severity p <> Blockchain.SevLow) ->
  let score := Blockchain.calculateBlockchainRiskScore nowScore isVerified contractInfo
                 tokenInfo holders txs patterns in
  isVerified = true /\ (score <=? 30) = true /\ Blockchain.riskLevel score = Low.
Proof.
  intros H Hlow score. subst score.
  apply no_factor_without_transactions in H.
  unfold identifyRiskFactors in H. injection H as H.
  apply pattern_factors_nil in H. destruct H as [H Hps].
  apply push_if_nil in H. destruct H as [H80 H].
  unfold Blockchain.calculateBlockchainRiskScore.
  rewrite info_patterns_add_nothing
    by (intros p Hp; destruct (Hps p Hp) as [E|E]; [destruct (Hlow p Hp E)|exact E]).
  set (m := Blockchain.calculateConcentrationMetrics holders) in *.
  destruct (50 <? Blockchain.topHolderPercentage m) eqn:H50;
    [destruct (snoc_not_nil _ _ H)|].
  destruct (20 <? Blockchain.topHolderPercentage m) eqn:H20;
    [destruct (snoc_not_nil _ _ H)|].
  assert (H90 : (90 <? Blockchain.top10Percentage m) = false).
  { destruct (90 <? Blockchain.top10Percentage m) eqn:E; [|reflexivity].
    rewrite (ltb_trans 80 90 _ eq_refl E) in H80. discriminate H80. }
  rewrite H80, H90.
  assert (Hrest : isVerified = true
                  /\ truthy_str (Blockchain.implementation contractInfo) = false
                  /\ (negb (truthy_str (Blockchain.tokenName tokenInfo))
                      || negb (truthy_str (Blockchain.symbol tokenInfo)))%bool = false).
  { destruct (Blockchain.createdTimestamp contractInfo) as [ts|];
      [apply push_if_nil in H; destruct H as [_ H]|];
      apply push_if_nil in H; destruct H as [Hinfo H];
      apply push_if_nil in H; destruct H as [Hproxy H];
      apply push_if_nil in H; destruct H as [Hver _];
      (split; [destruct isVerified; [reflexivity|discriminate Hver]|]);
      split; assumption. }
  destruct Hrest as [Hver [Hproxy Hinfo]]. subst isVerified.
  rewrite Hproxy, Hinfo. cbn [negb].
  split; [reflexivity|].
  destruct (Blockchain.createdTimestamp contractInfo) as [ts|];
    split_tests; split; vm_compute; reflexivity.
Qed.

(** An unverified contract starts at 50, whatever its holders. *)
Lemma unverified_score_at_least_50 now contractInfo tokenInfo holders txs :
  let score := Blockchain.calculateBlockchainRiskScore now false contractInfo
                 tokenInfo holders txs [] in
  (score >=? 50) = true /\ Blockchain.riskLevel score <> Low.
Proof.
  intros score. subst score. unfold Blockchain.calculateBlockchainRiskScore.
  generalize (Blockchain.calculateConcentrationMetrics holders). intros m.
  generalize (Blockchain.topHolderPercentage m) (Blockchain.top10Percentage m).
  intros top top10. cbn [negb fold_left].
  destruct (truthy_str (Blockchain.implementation contractInfo));
    destruct (negb (truthy_str (Blockchain.tokenName tokenInfo))
              || negb (truthy_str (Blockchain.symbol tokenInfo)))%bool;
    (destruct (Blockchain.createdTimestamp contractInfo) as [ts|];
     [generalize (Blockchain.ageInDaysAt now ts); intros age|]);
    split_tests; (split; [vm_compute; reflexivity|vm_compute; discriminate]).
Qed.

(** No pattern of the security analysis is of severity Low. *)
Lemma found_patterns_not_low catalogue isVerified contractInfo p :
  sameCatalogue catalogue ->
  In p (securityAnalysisOf catalogue isVerified contractInfo) ->
  Blockchain.severity p <> Blockchain.SevLow.
Proof.
  intros H Hp.
  destruct (found_from_flags catalogue isVerified contractInfo H)
    as [f1 [f2 [f3 [f4 [f5 [E _]]]]]].
  rewrite E in Hp. apply filter_In in Hp. destruct Hp as [Hp _].
  cbn [map combine securityPatterns In] in Hp.
  repeat match goal with
         | H : _ \/ _ |- _ => destruct H as [H|H]
         | H : False |- _ => destruct H
         end;
    subst p; cbn; discriminate.
Qed.

(** The report of [assessBlockchainRisk]: the score lies between 0 and
    100, and an unverified contract, whose source code is never analysed,
    scores at least 50 and is never rated Low. *)
Theorem assessed_score_within_bounds nowScore nowFactors dateNow catalogue tokenAddress
    isVerified contractInfo tokenInfo holders txs report :
  sameCatalogue catalogue ->
  assessBlockchainRisk numberToString parseIntOf etherOf nowScore nowFactors dateNow
    catalogue tokenAddress isVerified contractInfo tokenInfo holders txs = Some report ->
  (r_riskScore report >=? 0) = true
  /\ (r_riskScore report <=? 100) = true
  /\ (r_isVerified report = false ->
      (r_riskScore report >=? 50) = true /\ r_riskLevel report <> Low).
Proof.
  intros Hcat H. unfold assessBlockchainRisk in H.
  destruct (identifyRiskFactors _ _ _ _ _ _ _ _ _ _ _) as [riskFactors|];
    [|discriminate H].
  injection H as H. subst report.
  cbn [r_riskScore r_riskLevel r_isVerified].
  destruct (found_from_flags catalogue isVerified contractInfo Hcat)
    as [f1 [f2 [f3 [f4 [f5 [E Hun]]]]]].
  split; [|split].
  - rewrite E.
    pose proof (score_bounds_from_flags nowScore isVerified contractInfo tokenInfo
                  holders txs f1 f2 f3 f4 f5) as Hb.
    cbv zeta in Hb. apply andb_prop in Hb. exact (proj1 Hb).
  - rewrite E.
    pose proof (score_bounds_from_flags nowScore isVerified contractInfo tokenInfo
                  holders txs f1 f2 f3 f4 f5) as Hb.
    cbv zeta in Hb. apply andb_prop in Hb. exact (proj2 Hb).
  - intros Hv. subst isVerified. rewrite (Hun eq_refl).
    exact (unverified_score_at_least_50 nowScore contractInfo tokenInfo holders txs).
Qed.

(** A report of [assessBlockchainRisk] that lists no risk factor is for a
    verified contract, has a score of at most 30 and is rated Low: a
    Medium or High rating always comes with at least one factor. *)
Theorem report_without_factors_is_low nowScore nowFactors dateNow catalogue tokenAddress
    isVerified contractInfo tokenInfo holders txs report :
  sameCatalogue catalogue ->
  assessBlockchainRisk numberToString parseIntOf etherOf nowScore nowFactors dateNow
    catalogue tokenAddress isVerified contractInfo tokenInfo holders txs = Some report ->
  r_riskFactors report = [] ->
  r_isVerified report = true
  /\ (r_riskScore report <=? 30) = true
  /\ r_riskLevel report = Low.
Proof.
  intros Hcat H Hnil. unfold assessBlockchainRisk in H.
  destruct (identifyRiskFactors _ _ _ _ _ _ _ _ _ _ _) as [riskFactors|] eqn:E;
    [|discriminate H].
  injection H as H. subst report.
  cbn [r_riskScore r_riskLevel r_isVerified r_riskFactors] in *. subst riskFactors.
  apply (no_factor_score_at_most_30 nowScore nowFactors dateNow); [exact E|].
  intros p Hp. exact (found_patterns_not_low catalogue isVerified contractInfo p Hcat Hp).
Qed.
End AssessedReports.

(** Witness: the unverified contract about which nothing is known. *)
Lemma assessed_score_within_bounds_witness :
  exists report,
    assessBlockchainRisk MoreSamples.numberToString MoreSamples.parseIntOf
      MoreSamples.etherOf Samples.nowMs Samples.nowMs Samples.nowMs securityPatterns
      "0x0000000000000000000000000000000000000001" false Samples.unknownContract
      Samples.unknownToken [] [] = Some report
    /\ r_riskScore report = 65
    /\ (r_riskScore report >=? 50) = true /\ r_riskLevel report <> Low.
Proof.
  eexists. split; [reflexivity|]. split; [vm_compute; reflexivity|].
  apply (assessed_score_within_bounds MoreSamples.numberToString MoreSamples.parseIntOf
           MoreSamples.etherOf Samples.nowMs Samples.nowMs Samples.nowMs securityPatterns
           "0x0000000000000000000000000000000000000001" false Samples.unknownContract
           Samples.unknownToken [] []);
    reflexivity.
Defined.

(** Witness: a verified contract of a year's age with a named token, no
    source code at hand and no holder data. *)
Lemma report_without_factors_is_low_witness :
  exists report,
    assessBlockchainRisk MoreSamples.numberToString MoreSamples.parseIntOf
      MoreSamples.etherOf Samples.nowMs Samples.nowMs Samples.nowMs securityPatterns
      "0x0000000000000000000000000000000000000001" true Samples.oldContract
      Samples.namedToken [] [] = Some report
    /\ r_riskLevel report = Low.
Proof.
  eexists. split; [reflexivity|].
  apply (report_without_factors_is_low MoreSamples.numberToString MoreSamples.parseIntOf
           MoreSamples.etherOf Samples.nowMs Samples.nowMs Samples.nowMs securityPatterns
           "0x0000000000000000000000000000000000000001" true Samples.oldContract
           Samples.namedToken [] []);
    reflexivity.
Defined.

(** ** The social agent: the LLM pipeline and the sentiment bar *)

Import SocialAgent.

(** [map] with the index keeps the tweets when every result carries its
    tweet. *)
Lemma tweets_of_mapped (f : Social.TwitterTweet -> nat -> Social.TwitterSentimentAnalysis)
    (Hf : forall t i, Social.tweet (f t i) = t) l : forall i,
  map Social.tweet (mapWithIndex f i l) = l.
Proof.
  induction l as [|t rest IH]; intros i; [reflexivity|].
  cbn [mapWithIndex map]. rewrite Hf, IH. reflexivity.
Qed.

Section Pipeline.

Variable askLLM : nat -> list Social.TwitterTweet -> option (list LLMSentiment).

(** A batch that is analysed returns one result per tweet, in order. *)
Lemma tweets_of_batch call batch results :
  analyzeTweetBatch askLLM call batch = Some results ->
  map Social.tweet results = batch.
Proof.
  unfold analyzeTweetBatch. destruct (askLLM call batch) as [sentiments|]; [|discriminate].
  intros H. injection H as H. subst results.
  apply tweets_of_mapped. intros t i.
  destruct (find _ sentiments); reflexivity.
Qed.

(** So does the loop over the batches, given a round per tweet. *)
Lemma tweets_of_batches rounds : forall call tweetsToAnalyze,
  (List.length tweetsToAnalyze <= rounds)%nat ->
  map Social.tweet (analyzeBatches askLLM rounds call tweetsToAnalyze) = tweetsToAnalyze.
Proof.
  induction rounds as [|rounds IH]; intros call l Hlen.
  - destruct l; [reflexivity|cbn in Hlen; lia].
  - cbn [analyzeBatches]. destruct l as [|t rest]; [reflexivity|].
    remember (t :: rest) as l eqn:El. rewrite map_app.
    rewrite IH.
    + destruct (analyzeTweetBatch askLLM call (firstn batchSize l)) as [results|] eqn:E.
      * rewrite (tweets_of_batch _ _ _ E). apply firstn_skipn.
      * rewrite map_map. cbn [neutralFallback Social.tweet]. rewrite map_id.
        apply firstn_skipn.
    + rewrite length_skipn. subst l. unfold batchSize. cbn [List.length] in *. lia.
Qed.

(** The tweets of the results are the first 20 tweets. *)
Lemma tweets_of_analysis tweets :
  map Social.tweet (analyzeTweetSentimentsWithLLM askLLM tweets) = firstn 20 tweets.
Proof.
  unfold analyzeTweetSentimentsWithLLM, slice0. apply tweets_of_batches. lia.
Qed.

(** There are as many results as tweets, up to 20. *)
Lemma analysis_length tweets :
  List.length (analyzeTweetSentimentsWithLLM askLLM tweets)
  = Nat.min 20 (List.length tweets).
Proof.
  rewrite <- (length_map Social.tweet), tweets_of_analysis. apply length_firstn.
Qed.

(** Whatever the LLM answers, and whichever batches fail, the analysis
    returns exactly one result for each of the first 20 tweets, in the
    order of the tweets; with at most 20 tweets, every tweet has its
    result. *)
Theorem every_tweet_analysed_once tweets :
  map Social.tweet (analyzeTweetSentimentsWithLLM askLLM tweets) = firstn 20 tweets
  /\ List.length (analyzeTweetSentimentsWithLLM askLLM tweets)
     = Nat.min 20 (List.length tweets)
  /\ (forall t, In t tweets -> (List.length tweets <= 20)%nat ->
        exists result, In result (analyzeTweetSentimentsWithLLM askLLM tweets)
                       /\ Social.tweet result = t).
Proof.
  split; [apply tweets_of_analysis|]. split; [apply analysis_length|].
  intros t Ht Hlen.
  assert (H : In t (map Social.tweet (analyzeTweetSentimentsWithLLM askLLM tweets))).
  { rewrite tweets_of_analysis, firstn_all2 by exact Hlen. exact Ht. }
  apply in_map_iff in H. destruct H as [result [E Hin]].
  exists result. split; assumption.
Qed.

(** When every call fails, every tweet gets the neutral fallback. *)
Lemma outage_batches rounds : forall call tweetsToAnalyze,
  (forall call batch, askLLM call batch = None) ->
  (List.length tweetsToAnalyze <= rounds)%nat ->
  analyzeBatches askLLM rounds call tweetsToAnalyze = map neutralFallback tweetsToAnalyze.
Proof.
  induction rounds as [|rounds IH]; intros call l Hout Hlen.
  - destruct l; [reflexivity|cbn in Hlen; lia].
  - cbn [analyzeBatches]. destruct l as [|t rest]; [reflexivity|].
    remember (t :: rest) as l eqn:El.
    unfold analyzeTweetBatch. rewrite Hout, IH.
    + rewrite <- map_app, firstn_skipn. reflexivity.
    + exact Hout.
    + rewrite length_skipn. subst l. unfold batchSize. cbn [List.length] in *. lia.
Qed.


(** Between 1 and 20 tweets are assessed as soon as one was found. *)
Lemma assessed_tweets relatedTweets :
  relatedTweets <> [] ->
  let n := List.length (analyzeTweetSentimentsWithLLM askLLM relatedTweets) in
  (1 <= n <= 20)%nat.
Proof.
  intros Hne n. subst n.
  rewrite analysis_length.
  destruct relatedTweets; [contradiction|]. cbn [List.length]. lia.
Qed.

End Pipeline.

(** What a conditional [push] may have added. *)
Lemma in_push_if x c msg xs :
  In x (Social.push_if c msg xs) -> (c = true /\ x = msg) \/ In x xs.
Proof.
  unfold Social.push_if. destruct c; [|auto].
  intros H. apply in_app_or in H. destruct H as [H|[H|[]]]; auto.
Qed.

(** Looks for [x] among the messages pushed one after the other. *)
Ltac pushed_cases H :=
  repeat (apply in_push_if in H; destruct H as [[?Hc H]|H]; [try discriminate H|]);
  try destruct H.

(** The tweet count of an assessment is the number of results. *)
Lemma assessed_tweet_count tweetSentiments userInfo :
  Social.tweetCount (Social.calculateTwitterRiskAssessment tweetSentiments userInfo)
  = List.length tweetSentiments.
Proof. destruct tweetSentiments; reflexivity. Qed.

(** The volume indicator needs more than 50 analysed tweets. *)
Lemma no_high_volume_up_to_50 tweetSentiments userInfo :
  (List.length tweetSentiments <= 50)%nat ->
  ~ In "High volume of Twitter discussion"%string
       (Social.positiveIndicators
          (Social.calculateTwitterRiskAssessment tweetSentiments userInfo)).
Proof.
  intros Hlen. destruct tweetSentiments as [|s rest]; [intros []|].
  unfold Social.calculateTwitterRiskAssessment.
  cbn [Social.positiveIndicators]. intros H. pushed_cases H.
  apply Nat.ltb_lt in Hc. lia.
Qed.

(** The flag of the default assessment is raised nowhere else. *)
Lemma activity_flag_only_without_tweets tweetSentiments userInfo :
  tweetSentiments <> [] ->
  ~ In "No recent Twitter activity found"%string
       (Social.redFlags (Social.calculateTwitterRiskAssessment tweetSentiments userInfo)).
Proof.
  intros Hne. destruct tweetSentiments as [|s rest]; [contradiction|].
  unfold Social.calculateTwitterRiskAssessment.
  cbn [Social.redFlags]. intros H. pushed_cases H.
Qed.

(** The [assessTwitterRisk] capability either reports that no tweet was
    found, or assesses between 1 and 20 tweets: the indicator for a high
    volume of discussion (more than 50 tweets) is never reported, and the
    default assessment for no tweets is never the one returned. *)
Theorem capability_assesses_1_to_20_tweets askLLM projectIdentifier relatedTweets
    projectTwitterInfo :
  match assessTwitterRisk askLLM projectIdentifier relatedTweets projectTwitterInfo with
  | inl message =>
      relatedTweets = [] /\ message = ("No tweets found for " ++ projectIdentifier)%string
  | inr report =>
      t_tweetCount report = Nat.min 20 (List.length relatedTweets)
      /\ (1 <= t_tweetCount report <= 20)%nat
      /\ ~ In "High volume of Twitter discussion"%string (t_positiveIndicators report)
      /\ ~ In "No recent Twitter activity found"%string (t_redFlags report)
  end.
Proof.
  unfold assessTwitterRisk.
  destruct relatedTweets as [|t rest]; [split; reflexivity|].
  remember (t :: rest) as relatedTweets eqn:E.
  assert (Hne : relatedTweets <> []) by (subst; discriminate).
  pose proof (assessed_tweets askLLM relatedTweets Hne) as Hn. cbv zeta in Hn.
  pose proof (analysis_length askLLM relatedTweets) as Hlen.
  cbn [t_tweetCount t_positiveIndicators t_redFlags].
  rewrite assessed_tweet_count.
  split; [exact Hlen|]. split; [exact Hn|]. split.
  - apply no_high_volume_up_to_50. lia.
  - apply activity_flag_only_without_tweets.
    intros Hnil. rewrite Hnil in Hn. cbn in Hn. lia.
Qed.

(** The assessment of up to 20 fallback results. *)
Lemma outage_assessment tweetsToAnalyze userInfo :
  tweetsToAnalyze <> [] ->
  (List.length tweetsToAnalyze <= 20)%nat ->
  let assessment :=
    Social.calculateTwitterRiskAssessment (map neutralFallback tweetsToAnalyze) userInfo in
  Social.overallSentiment assessment = Social.neutral
  /\ Social.overallSentimentScore assessment = 0
  /\ Social.riskScore assessment = 50
  /\ Social.riskLevel assessment = Medium.
Proof.
  intros Hne Hlen assessment. subst assessment.
  destruct tweetsToAnalyze as [|t0 l]; [contradiction|].
  do 20 (destruct l as [|? l]; [repeat split; vm_compute; reflexivity|]).
  cbn in Hlen. lia.
Qed.

(** When no call to the LLM succeeds, the capability still answers: the
    tweets found are all read as neutral, so the report states a neutral
    sentiment of 0 and a risk score of 50, Medium, whatever the tweets
    say. *)
Theorem llm_outage_reads_as_neutral askLLM projectIdentifier relatedTweets
    projectTwitterInfo :
  (forall call batch, askLLM call batch = None) ->
  relatedTweets <> [] ->
  exists report,
    assessTwitterRisk askLLM projectIdentifier relatedTweets projectTwitterInfo
    = inr report
    /\ t_sentiment report = Social.neutral
    /\ t_sentimentScore report = 0
    /\ t_riskScore report = 50
    /\ t_riskLevel report = Medium.
Proof.
  intros Hout Hne. unfold assessTwitterRisk.
  destruct relatedTweets as [|t rest]; [contradiction|].
  remember (t :: rest) as relatedTweets eqn:E.
  eexists. split; [reflexivity|].
  cbn [t_sentiment t_sentimentScore t_riskScore t_riskLevel].
  unfold analyzeTweetSentimentsWithLLM, slice0.
  rewrite outage_batches by (exact Hout || lia).
  apply outage_assessment.
  - subst relatedTweets. discriminate.
  - rewrite length_firstn. lia.
Qed.

(** Every pair of whole percentages that sum to at most 100. *)
Lemma bars_as_expected :
  forallb (fun p => forallb (barAsExpected p) (seq 0 (101 - p))) (seq 0 101) = true.
Proof. vm_compute. reflexivity. Qed.

(** For whole percentages of positive and neutral tweets that sum to at
    most 100, the sentiment bar is drawn, with a symbol for every five
    percent (rounded) and 20 symbols in all; the negative percentage is
    not read. *)
Theorem sentiment_bar_has_20_symbols (p n : nat) (negative : number) :
  (p + n <= 100)%nat ->
  generateSentimentBar (of_nat p) (of_nat n) negative
  = Some (barOf (barsFor p) (barsFor n) (20 - barsFor p - barsFor n))
  /\ (barsFor p + barsFor n + (20 - barsFor p - barsFor n) = 20)%nat.
Proof.
  intros H.
  pose proof bars_as_expected as Hall.
  rewrite forallb_forall in Hall.
  assert (Hp : In p (seq 0 101)) by (apply in_seq; lia).
  specialize (Hall p Hp). rewrite forallb_forall in Hall.
  assert (Hn : In n (seq 0 (101 - p))) by (apply in_seq; lia).
  specialize (Hall n Hn). unfold barAsExpected in Hall.
  change (generateSentimentBar (of_nat p) (of_nat n) negative)
    with (generateSentimentBar (of_nat p) (of_nat n) 0).
  destruct (generateSentimentBar (of_nat p) (of_nat n) 0) as [bar|]; [|discriminate Hall].
  apply andb_prop in Hall. destruct Hall as [Hbar Hsum].
  apply String.eqb_eq in Hbar. apply Nat.leb_le in Hsum.
  split; [rewrite Hbar; reflexivity|lia].
Qed.

(** The percentages of the breakdown are rounded one by one and may sum
    to 101: for five positive and three neutral tweets out of eight the
    breakdown is 63/38/0, for which the bar asks for -1 negative symbols
    and [repeat] raises its RangeError. *)
Theorem sentiment_bar_throws_on_rounded_up_shares tweetSentiments userInfo :
  List.length tweetSentiments = 8%nat ->
  List.length (filter (Social.is_sentiment Social.positive) tweetSentiments) = 5%nat ->
  List.length (filter (Social.is_sentiment Social.negative) tweetSentiments) = 0%nat ->
  let assessment := Social.calculateTwitterRiskAssessment tweetSentiments userInfo in
  Social.sentimentBreakdown assessment
  = {| Social.sb_positive := 63; Social.sb_neutral := 38; Social.sb_negative := 0 |}
  /\ sentimentBarOf assessment = None.
Proof.
  intros Hlen Hpos Hneg assessment. subst assessment.
  assert (Hb : Social.sentimentBreakdown
                 (Social.calculateTwitterRiskAssessment tweetSentiments userInfo)
               = {| Social.sb_positive := 63; Social.sb_neutral := 38;
                    Social.sb_negative := 0 |}).
  { destruct tweetSentiments as [|s rest]; [discriminate Hlen|].
    unfold Social.calculateTwitterRiskAssessment. cbn [Social.sentimentBreakdown].
    rewrite Hlen, Hpos, Hneg. vm_compute. reflexivity. }
  split; [exact Hb|].
  unfold sentimentBarOf. rewrite Hb. vm_compute. reflexivity.
Qed.

(** Witness: three tweets and an LLM that cannot be reached. *)
Lemma llm_outage_reads_as_neutral_witness :
  exists report,
    assessTwitterRisk MoreSamples.unreachableLLM "token" MoreSamples.relatedTweets None
    = inr report
    /\ t_sentiment report = Social.neutral
    /\ t_sentimentScore report = 0
    /\ t_riskScore report = 50
    /\ t_riskLevel report = Medium.
Proof.
  apply (llm_outage_reads_as_neutral MoreSamples.unreachableLLM "token"
           MoreSamples.relatedTweets None);
    [reflexivity|discriminate].
Defined.

(** Witness: 60% positive and 30% neutral give 12, 6 and 2 symbols. *)
Lemma sentiment_bar_has_20_symbols_witness :
  generateSentimentBar 60 30 10 = Some (barOf 12 6 2).
Proof.
  destruct (sentiment_bar_has_20_symbols 60 30 10) as [H _]; [lia|exact H].
Defined.

(** Witness: five positive and three neutral tweets. *)
Lemma sentiment_bar_throws_on_rounded_up_shares_witness :
  sentimentBarOf
    (Social.calculateTwitterRiskAssessment MoreSamples.fivePositiveThreeNeutral None)
  = None.
Proof.
  destruct (sentiment_bar_throws_on_rounded_up_shares
              MoreSamples.fivePositiveThreeNeutral None) as [_ H];
    [reflexivity|reflexivity|reflexivity|exact H].
Defined.

(** ** The blockchain agent: recommendations *)

(** A string without the first character of [sub] does not include it. *)
Lemma prefix_first_char c sub s :
  Str.occurs c s = false -> prefix (String c sub) s = false.
Proof.
  destruct s as [|d rest]; [reflexivity|].
  cbn [Str.occurs prefix]. intros H. apply orb_false_elim in H. destruct H as [H _].
  destruct (Ascii.ascii_dec c d) as [E|E].
  - subst d. rewrite Ascii.eqb_refl in H. discriminate H.
  - reflexivity.
Qed.

Lemma includes_needs_first_char c sub s :
  Str.occurs c s = false -> Str.includes s (String c sub) = false.
Proof.
  induction s as [|d rest IH]; intros H.
  - reflexivity.
  - cbn [Str.includes]. rewrite (prefix_first_char c sub (String d rest) H).
    apply IH. cbn [Str.occurs] in H. apply orb_false_elim in H. exact (proj2 H).
Qed.

Lemma occurs_app c a b :
  Str.occurs c (a ++ b) = (Str.occurs c a || Str.occurs c b)%bool.
Proof.
  induction a as [|d a IH]; [reflexivity|].
  cbn [append Str.occurs]. rewrite IH, orb_assoc. reflexivity.
Qed.

(** [some] over the factors pushed one after the other. *)
Lemma existsb_push_if (P : string -> bool) c msg xs :
  existsb P (push_if c msg xs) = (existsb P xs || (c && P msg))%bool.
Proof.
  unfold push_if. destruct c.
  - rewrite existsb_app. cbn [existsb andb]. rewrite orb_false_r. reflexivity.
  - cbn [andb]. rewrite orb_false_r. reflexivity.
Qed.

Lemma existsb_snoc (P : string -> bool) xs msg :
  existsb P (xs ++ [msg]) = (existsb P xs || P msg)%bool.
Proof. rewrite existsb_app. cbn [existsb]. rewrite orb_false_r. reflexivity. Qed.

Lemma existsb_pattern_factors (P : string -> bool) patterns : forall riskFactors,
  existsb P
    (fold_left (fun riskFactors pattern =>
               match Blockchain.severity pattern with
               | Blockchain.SevHigh =>
                   riskFactors ++
                     [("❌ **CRITICAL RISK:** " ++ Blockchain.name pattern ++ " - "
                       ++ Blockchain.description pattern)%string]
               | Blockchain.SevMedium =>
                   riskFactors ++
                     [("⚠️ **MEDIUM RISK:** " ++ Blockchain.name pattern ++ " - "
                       ++ Blockchain.description pattern)%string]
               | _ => riskFactors
               end) patterns riskFactors)
  = (existsb P riskFactors
     || existsb (fun pattern => match factorOf pattern with
                                | Some factor => P factor
                                | None => false
                                end) patterns)%bool.
Proof.
  induction patterns as [|q rest IH]; intros riskFactors.
  - cbn [fold_left existsb]. rewrite orb_false_r. reflexivity.
  - cbn [fold_left existsb]. rewrite IH. unfold factorOf at 2.
    destruct (Blockchain.severity q);
      rewrite ?existsb_snoc;
      destruct (existsb P riskFactors); cbn [orb];
      try destruct (P _); reflexivity.
Qed.

(** What a string includes, it includes with anything appended. *)
Lemma prefix_app sub : forall a r,
  prefix sub a = true -> prefix sub (a ++ r) = true.
Proof.
  induction sub as [|c sub IH]; intros a r H;
    [destruct (a ++ r)%string; reflexivity|].
  destruct a as [|d a]; [discriminate H|].
  cbn [append prefix] in *. destruct (Ascii.ascii_dec c d); [|discriminate H].
  apply IH. exact H.
Qed.

Lemma includes_app_l sub a r :
  Str.includes a sub = true -> Str.includes (a ++ r) sub = true.
Proof.
  induction a as [|d a IH]; intros H.
  - cbn [Str.includes] in H. destruct (prefix sub "") eqn:E; [|discriminate H].
    destruct sub; [|discriminate E]. destruct r; reflexivity.
  - cbn [Str.includes append] in *.
    destruct (prefix sub (String d a)) eqn:E.
    + change (String d (a ++ r)) with (String d a ++ r)%string.
      rewrite (prefix_app _ _ r E). reflexivity.
    + destruct (prefix sub (String d (a ++ r))); [reflexivity|]. apply IH. exact H.
Qed.

(** What a conditional [push] adds and keeps. *)
Lemma in_pushed x c msg xs :
  In x (push_if c msg xs) -> (c = true /\ x = msg) \/ In x xs.
Proof.
  unfold push_if. destruct c; [|auto].
  intros H. apply in_app_or in H. destruct H as [H|[H|[]]]; auto.
Qed.

Lemma in_push_if_keeps x c msg xs : In x xs -> In x (push_if c msg xs).
Proof.
  unfold push_if. destruct c; [|auto]. intros H. apply in_or_app. left. exact H.
Qed.

(** The last recommendation is the only one on upgrades. *)
Lemma upgrade_advice_iff isVerified riskFactors riskScore :
  In "⚠️ Monitor announcements for contract upgrades as the contract logic can change."%string
     (generateRecommendations isVerified riskFactors riskScore)
  <-> existsb (fun factor => Str.includes factor "Proxy") riskFactors = true.
Proof.
  unfold generateRecommendations. split.
  - intros H. apply in_pushed in H. destruct H as [[Hc _]|H]; [exact Hc|].
    exfalso.
    apply in_pushed in H. destruct H as [[_ H]|H]; [discriminate H|].
    destruct (riskScore >=? 70); [|destruct (riskScore >=? 40)];
      apply in_app_or in H; destruct H as [H|[H|[]]]; try discriminate H;
      apply in_pushed in H; destruct H as [[_ H]|[]]; discriminate H.
  - intros H. rewrite H. unfold push_if at 1. apply in_or_app. right. left. reflexivity.
Qed.

(** The favorable recommendation is the one of the Low level. *)
Lemma favorable_iff_low isVerified riskFactors riskScore :
  In "✅ Blockchain indicators appear favorable, but always do additional research."%string
     (generateRecommendations isVerified riskFactors riskScore)
  <-> Blockchain.riskLevel riskScore = Low.
Proof.
  unfold generateRecommendations, Blockchain.riskLevel. split.
  - intros H.
    apply in_pushed in H. destruct H as [[_ H]|H]; [discriminate H|].
    apply in_pushed in H. destruct H as [[_ H]|H]; [discriminate H|].
    destruct (riskScore >=? 70); [|destruct (riskScore >=? 40)];
      [exfalso|exfalso|reflexivity];
      apply in_app_or in H; destruct H as [H|[H|[]]]; try discriminate H;
      apply in_pushed in H; destruct H as [[_ H]|[]]; discriminate H.
  - intros H. do 2 apply in_push_if_keeps.
    destruct (riskScore >=? 70); [discriminate H|].
    destruct (riskScore >=? 40); [discriminate H|].
    apply in_or_app. right. left. reflexivity.
Qed.

(** [Some] is injective, without touching its arguments. *)
Lemma Some_eq {A} (x y : A) : Some x = Some y -> x = y.
Proof. intros H. injection H as H. exact H. Qed.

Section Recommendations.

Variable numberToString : number -> string.
Variable parseIntOf : string -> number.
Variable etherOf : string -> option number.

(** No number is written with a capital P. *)
Hypothesis no_P_in_numbers :
  forall x, Str.occurs "P"%char (numberToString x) = false.

(** A factor around a number has no [Proxy] unless its text has a P. *)
Lemma no_proxy_in_number_factor a x b :
  Str.occurs "P"%char a = false -> Str.occurs "P"%char b = false ->
  Str.includes (a ++ numberToString x ++ b) "Proxy" = false.
Proof.
  intros Ha Hb. apply includes_needs_first_char.
  rewrite !occurs_app, Ha, Hb, no_P_in_numbers. reflexivity.
Qed.

(** The factors are those without transactions, and at most one more. *)
Lemma factors_with_transactions nowFactors dateNow isVerified contractInfo tokenInfo
    holders txs patterns riskFactors :
  identifyRiskFactors numberToString parseIntOf etherOf nowFactors dateNow isVerified
    contractInfo tokenInfo holders txs patterns = Some riskFactors ->
  exists base c,
    identifyRiskFactors numberToString parseIntOf etherOf nowFactors dateNow isVerified
      contractInfo tokenInfo holders [] patterns = Some base
    /\ riskFactors
       = push_if c "⚠️ **MEDIUM RISK:** Unusual number of large transactions in past 24 hours"
           base.
Proof.
  destruct txs as [|tx rest].
  - intros H. exists riskFactors, false. split; [exact H|reflexivity].
  - unfold identifyRiskFactors.
    destruct (largeRecentTransactions parseIntOf etherOf _ (tx :: rest)) as [large|];
      [|discriminate].
    intros H. injection H as H. eexists _, _. split; [reflexivity|].
    symmetry. exact H.
Qed.

(** Only the factor of a found pattern can include [Proxy]. *)
Lemma proxy_factor_from_patterns nowFactors dateNow isVerified contractInfo tokenInfo
    holders txs patterns riskFactors :
  identifyRiskFactors numberToString parseIntOf etherOf nowFactors dateNow isVerified
    contractInfo tokenInfo holders txs patterns = Some riskFactors ->
  existsb (fun factor => Str.includes factor "Proxy") riskFactors
  = existsb (fun pattern => match factorOf pattern with
                            | Some factor => Str.includes factor "Proxy"
                            | None => false
                            end) patterns.
Proof.
  intros H. apply factors_with_transactions in H.
  destruct H as [base [c [H E]]]. subst riskFactors.
  rewrite existsb_push_if. cbv beta.
  replace (Str.includes _ "Proxy") with false by (vm_compute; reflexivity).
  rewrite andb_false_r, orb_false_r.
  unfold identifyRiskFactors in H. apply Some_eq in H. subst base.
  rewrite existsb_pattern_factors.
  match goal with |- (?a || _)%bool = _ => assert (Hinit : a = false) end.
  { destruct (Blockchain.createdTimestamp contractInfo) as [ts|];
      (destruct (50 <? _); [|destruct (20 <? _)]);
      repeat (rewrite existsb_snoc || rewrite existsb_push_if); cbv beta;
      rewrite ?no_proxy_in_number_factor by reflexivity;
      cbn [existsb];
      repeat match goal with
             | |- context [(?c && _)%bool] => destruct c; cbn [andb]
             end;
      vm_compute; reflexivity. }
  rewrite Hinit. reflexivity.
Qed.

(** Both factors on the top holder include [concentration]. *)
Lemma concentration_factor_reported nowFactors dateNow isVerified contractInfo tokenInfo
    holders txs patterns riskFactors :
  identifyRiskFactors numberToString parseIntOf etherOf nowFactors dateNow isVerified
    contractInfo tokenInfo holders txs patterns = Some riskFactors ->
  (Blockchain.topHolderPercentage (Blockchain.calculateConcentrationMetrics holders) >? 20)
  = true ->
  existsb (fun factor => Str.includes factor "concentration") riskFactors = true.
Proof.
  intros H Htop. apply factors_with_transactions in H.
  destruct H as [base [c [H E]]]. subst riskFactors.
  rewrite existsb_push_if. apply orb_true_iff. left.
  unfold identifyRiskFactors in H. apply Some_eq in H. subst base.
  rewrite existsb_pattern_factors. apply orb_true_iff. left.
  rewrite existsb_push_if. apply orb_true_iff. left.
  rewrite Htop.
  destruct (50 <? _); rewrite existsb_snoc; apply orb_true_iff; right;
    apply includes_app_l; vm_compute; reflexivity.
Qed.

(** The recommendation to watch for contract upgrades is given exactly
    when the source code analysis found the pattern [Proxy pattern]: the
    factor for a proxy known by its implementation address is written
    with a small p and does not count, so an unverified proxy never gets
    the recommendation. *)
Theorem upgrade_advice_needs_the_proxy_pattern nowScore nowFactors dateNow catalogue
    tokenAddress isVerified contractInfo tokenInfo holders txs report :
  sameCatalogue catalogue ->
  assessBlockchainRisk numberToString parseIntOf etherOf nowScore nowFactors dateNow
    catalogue tokenAddress isVerified contractInfo tokenInfo holders txs = Some report ->
  (In "⚠️ Monitor announcements for contract upgrades as the contract logic can change."%string
      (recommendationsOf report)
   <-> exists pattern,
         In pattern (securityAnalysisOf catalogue isVerified contractInfo)
         /\ Blockchain.name pattern = "Proxy pattern"%string)
  /\ (isVerified = false ->
      ~ In "⚠️ Monitor announcements for contract upgrades as the contract logic can change."%string
           (recommendationsOf report)).
Proof.
  intros Hcat H. unfold assessBlockchainRisk in H.
  destruct (identifyRiskFactors _ _ _ _ _ _ _ _ _ _ _) as [riskFactors|] eqn:E;
    [|discriminate H].
  apply Some_eq in H. subst report. unfold recommendationsOf.
  cbn [r_riskScore r_isVerified r_riskFactors].
  assert (Hiff :
    In "⚠️ Monitor announcements for contract upgrades as the contract logic can change."%string
       (generateRecommendations isVerified riskFactors
          (Blockchain.calculateBlockchainRiskScore nowScore isVerified contractInfo
             tokenInfo holders txs (securityAnalysisOf catalogue isVerified contractInfo)))
    <-> exists pattern,
          In pattern (securityAnalysisOf catalogue isVerified contractInfo)
          /\ Blockchain.name pattern = "Proxy pattern"%string).
  { rewrite upgrade_advice_iff, (proxy_factor_from_patterns _ _ _ _ _ _ _ _ _ E).
    destruct (found_from_flags catalogue isVerified contractInfo Hcat)
      as [f1 [f2 [f3 [f4 [f5 [Ef _]]]]]].
    rewrite Ef.
    replace (existsb _ _)
      with (existsb (fun p => String.eqb (Blockchain.name p) "Proxy pattern")
              (filter Blockchain.found
                 (map (fun pf => setFound (fst pf) (snd pf))
                      (combine securityPatterns [f1; f2; f3; f4; f5]))))
      by (destruct f1, f2, f3, f4, f5; vm_compute; reflexivity).
    rewrite existsb_exists. split.
    - intros [p [Hin Hp]]. exists p. split; [exact Hin|]. apply String.eqb_eq. exact Hp.
    - intros [p [Hin Hp]]. exists p. split; [exact Hin|]. apply String.eqb_eq. exact Hp. }
  split; [exact Hiff|].
  intros Hv Hin. apply Hiff in Hin. destruct Hin as [p [Hin _]].
  destruct (found_from_flags catalogue isVerified contractInfo Hcat)
    as [f1 [f2 [f3 [f4 [f5 [_ Hun]]]]]].
  rewrite (Hun Hv) in Hin. destruct Hin.
Qed.

(** The recommendations agree with the report: the favorable one is
    given exactly at level Low; an unverified contract is told not to
    invest and never gets the favorable one; a top holder above 20% brings
    the recommendation on concentration. *)
Theorem recommendations_follow_report nowScore nowFactors dateNow catalogue
    tokenAddress isVerified contractInfo tokenInfo holders txs report :
  sameCatalogue catalogue ->
  assessBlockchainRisk numberToString parseIntOf etherOf nowScore nowFactors dateNow
    catalogue tokenAddress isVerified contractInfo tokenInfo holders txs = Some report ->
  (In "✅ Blockchain indicators appear favorable, but always do additional research."%string
      (recommendationsOf report)
   <-> r_riskLevel report = Low)
  /\ (r_isVerified report = false ->
      In "⚠️ **DO NOT INVEST** without verifying the contract source code."%string
         (recommendationsOf report)
      /\ ~ In "✅ Blockchain indicators appear favorable, but always do additional research."%string
              (recommendationsOf report))
  /\ ((Blockchain.topHolderPercentage (r_holderConcentration report) >? 20) = true ->
      In "⚠️ Consider the high token concentration when evaluating potential price manipulation risks."%string
         (recommendationsOf report)).
Proof.
  intros Hcat H. unfold assessBlockchainRisk in H.
  destruct (identifyRiskFactors _ _ _ _ _ _ _ _ _ _ _) as [riskFactors|] eqn:E;
    [|discriminate H].
  apply Some_eq in H. subst report. unfold recommendationsOf.
  cbn [r_riskScore r_isVerified r_riskFactors r_riskLevel r_holderConcentration].
  set (score := Blockchain.calculateBlockchainRiskScore _ _ _ _ _ _ _).
  assert (Hfav :
    In "✅ Blockchain indicators appear favorable, but always do additional research."%string
       (generateRecommendations isVerified riskFactors score)
    <-> Blockchain.riskLevel score = Low) by apply favorable_iff_low.
  split; [exact Hfav|]. split.
  - intros Hv. subst isVerified. split.
    + unfold generateRecommendations. cbn [negb push_if].
      repeat (apply in_push_if_keeps).
      destruct (score >=? 70); [|destruct (score >=? 40)];
        apply in_or_app; left; left; reflexivity.
    + intros Hin. apply Hfav in Hin. subst score.
      destruct (found_from_flags catalogue false contractInfo Hcat)
        as [f1 [f2 [f3 [f4 [f5 [_ Hun]]]]]].
      rewrite (Hun eq_refl) in Hin.
      exact (proj2 (unverified_score_at_least_50 nowScore contractInfo tokenInfo
                      holders txs) Hin).
  - intros Htop. unfold generateRecommendations.
    apply in_push_if_keeps.
    rewrite (concentration_factor_reported _ _ _ _ _ _ _ _ _ E Htop).
    unfold push_if. apply in_or_app. right. left. reflexivity.
Qed.
End Recommendations.

(** Witness: the verified forwarding proxy. *)
Lemma upgrade_advice_needs_the_proxy_pattern_witness :
  exists report,
    assessBlockchainRisk MoreSamples.numberToString MoreSamples.parseIntOf
      MoreSamples.etherOf Samples.nowMs Samples.nowMs Samples.nowMs securityPatterns
      "0x0000000000000000000000000000000000000001" true MoreSamples.proxyContract
      Samples.namedToken [] [] = Some report
    /\ In "⚠️ Monitor announcements for contract upgrades as the contract logic can change."%string
          (recommendationsOf report).
Proof.
  eexists. split; [reflexivity|].
  apply (proj1 (upgrade_advice_needs_the_proxy_pattern MoreSamples.numberToString
                  MoreSamples.parseIntOf MoreSamples.etherOf (fun x => eq_refl)
                  Samples.nowMs Samples.nowMs Samples.nowMs securityPatterns
                  "0x0000000000000000000000000000000000000001" true
                  MoreSamples.proxyContract Samples.namedToken [] [] _
                  eq_refl eq_refl)).
  eexists. split; [cbv; left; reflexivity|reflexivity].
Defined.

(** Witness: the unverified contract about which nothing is known. *)
Lemma recommendations_follow_report_witness :
  exists report,
    assessBlockchainRisk MoreSamples.numberToString MoreSamples.parseIntOf
      MoreSamples.etherOf Samples.nowMs Samples.nowMs Samples.nowMs securityPatterns
      "0x0000000000000000000000000000000000000001" false Samples.unknownContract
      Samples.unknownToken [] [] = Some report
    /\ In "⚠️ **DO NOT INVEST** without verifying the contract source code."%string
          (recommendationsOf report).
Proof.
  eexists. split; [reflexivity|].
  apply (recommendations_follow_report MoreSamples.numberToString
           MoreSamples.parseIntOf MoreSamples.etherOf
           Samples.nowMs Samples.nowMs Samples.nowMs securityPatterns
           "0x0000000000000000000000000000000000000001" false
           Samples.unknownContract Samples.unknownToken [] [] _ eq_refl eq_refl).
  reflexivity.
Defined.

(** ** The DEX agent: recommendations *)

Import DexAgent.

(** What a conditional [push] adds and keeps. *)
Lemma in_dex_pushed x c msg xs :
  In x (Dex.push_if c msg xs) -> (c = true /\ x = msg) \/ In x xs.
Proof.
  unfold Dex.push_if. destruct c; [|auto].
  intros H. apply in_app_or in H. destruct H as [H|[H|[]]]; auto.
Qed.

Lemma in_dex_push_keeps x c msg xs : In x xs -> In x (Dex.push_if c msg xs).
Proof.
  unfold Dex.push_if. destruct c; [|auto]. intros H. apply in_or_app. left. exact H.
Qed.

(** A [push] leaves the first element where it is. *)
Lemma hd_dex_push_keeps c msg x xs :
  hd_error xs = Some x -> hd_error (Dex.push_if c msg xs) = Some x.
Proof.
  unfold Dex.push_if. destruct c; [|auto]. destruct xs; [discriminate|auto].
Qed.

Section DexRecommendations.

Variable formatNumber : number -> string.
Variable toFixed2 : number -> string.
Variable natToString : nat -> string.

(** The fields an assessment copies from its inputs. *)
Lemma assessment_fields primaryPair allPairs :
  let a := Dex.calculateDexRiskAssessment formatNumber toFixed2 natToString
             primaryPair allPairs in
  Dex.liquidity a = Dex.totalLiquidityOf allPairs
  /\ Dex.volume24h a = Dex.totalVolume24hOf allPairs
  /\ Dex.buyToSellRatio a = buyToSellRatioOf primaryPair
  /\ Dex.priceChange24h a = priceChange24hOf primaryPair.
Proof.
  unfold Dex.calculateDexRiskAssessment. split_pairs. repeat split.
Qed.

(** The tests a Low rating settles, when the total liquidity is a number. *)
Lemma low_dex_assessment_tests primaryPair allPairs :
  is_nan (Dex.totalLiquidityOf allPairs) = false ->
  let a := Dex.calculateDexRiskAssessment formatNumber toFixed2 natToString
             primaryPair allPairs in
  Dex.riskLevel a = Low ->
  ((Dex.totalLiquidityOf allPairs <? 10000) = false
   /\ (Dex.totalLiquidityOf allPairs <? 50000) = false
   /\ (Dex.totalLiquidityOf allPairs <? 100000) = false
   /\ (Dex.totalLiquidityOf allPairs <? 500000) = false
   /\ (Dex.totalLiquidityOf allPairs <? 1000000) = false
   /\ (Dex.totalLiquidityOf allPairs >=? 1000000) = true)
  /\ ((Dex.totalVolume24hOf allPairs <? 1000) = false
      /\ (Dex.totalVolume24hOf allPairs <? 10000) = false
      /\ (Dex.totalVolume24hOf allPairs >? 1000000) = true)
  /\ ((buyToSellRatioOf primaryPair <? 0.5) = false
      /\ (buyToSellRatioOf primaryPair >? 2) = true)
  /\ ((priceChange24hOf primaryPair <? -20) = false
      /\ (priceChange24hOf primaryPair >? 50) = false).
Proof.
  intros Hnan a.
  destruct (assessment_fields primaryPair allPairs) as [_ [_ [Er Ep]]].
  fold a in Er, Ep. rewrite <- Er, <- Ep. subst a. clear Er Ep.
  unfold Dex.calculateDexRiskAssessment.
  liquidity_tiers (Dex.totalLiquidityOf allPairs).
  7: { rewrite (not_ltb_geb _ 1000000 Hnan eq_refl Htier1M) in HtierTop.
       discriminate HtierTop. }
  all: split_pairs;
    cbn [Dex.riskScore Dex.riskLevel Dex.buyToSellRatio Dex.priceChange24h];
    split_input_tests; vm_compute; intros H; try discriminate H; repeat split.
Qed.

(** A Low rating comes with the liquidity level High and at most one red
    flag (the one on the volume-to-liquidity ratio). *)
Lemma low_dex_assessment_shape primaryPair allPairs :
  is_nan (Dex.totalLiquidityOf allPairs) = false ->
  let a := Dex.calculateDexRiskAssessment formatNumber toFixed2 natToString
             primaryPair allPairs in
  Dex.riskLevel a = Low ->
  Dex.liquidityLevel a = High /\ (List.length (Dex.redFlags a) <= 1)%nat.
Proof.
  intros Hnan a Hlow.
  destruct (low_dex_assessment_tests primaryPair allPairs Hnan Hlow)
    as [[T1 [T2 [T3 [T4 [T5 T6]]]]] [[V1 [V2 V3]] [[R1 R2] [P1 P2]]]].
  subst a. clear Hlow. unfold Dex.calculateDexRiskAssessment.
  unfold buyToSellRatioOf, priceChange24hOf, number in *.
  rewrite T1, T2, T3, T4, T5, T6, V1, V2, V3.
  set (ratio := if 0 <? Dex.totalLiquidityOf allPairs
                then Dex.totalVolume24hOf allPairs / Dex.totalLiquidityOf allPairs
                else 0).
  destruct (ratio <? _); [|destruct (1 <? ratio)];
    cbv beta iota; rewrite R1, R2; cbv beta iota; rewrite P1, P2; cbv beta iota;
    split_input_tests; vm_compute; split; (reflexivity || lia).
Qed.


(** The liquidity level is Low exactly below $100,000. *)
Lemma liquidity_level_low_iff primaryPair allPairs :
  Dex.liquidityLevel (Dex.calculateDexRiskAssessment formatNumber toFixed2 natToString
                        primaryPair allPairs) = Low
  <-> (Dex.totalLiquidityOf allPairs <? 100000) = true.
Proof.
  unfold Dex.calculateDexRiskAssessment.
  liquidity_tiers (Dex.totalLiquidityOf allPairs);
    split_pairs; cbn [Dex.liquidityLevel]; split; intros H;
    try reflexivity; try discriminate H; try congruence.
  - exact (ltb_trans _ 10000 100000 Htier10K eq_refl).
  - exact (ltb_trans _ 50000 100000 Htier50K eq_refl).
Qed.

(** A liquidity level of Low makes the rating High. *)
Lemma low_liquidity_level_is_high_risk primaryPair allPairs :
  let a := Dex.calculateDexRiskAssessment formatNumber toFixed2 natToString
             primaryPair allPairs in
  Dex.liquidityLevel a = Low -> Dex.riskLevel a = High.
Proof.
  unfold Dex.calculateDexRiskAssessment.
  liquidity_tiers (Dex.totalLiquidityOf allPairs).
  all: split_pairs; cbn [Dex.riskScore Dex.riskLevel Dex.liquidityLevel];
    intros H; try discriminate H; clear H;
    split_input_tests; vm_compute; reflexivity.
Qed.

(** The recommendations for the assessment of a token.  A Low rating
    (with a total liquidity that is a number) gets the favorable
    recommendation and the one on strong liquidity and volume, and no
    warning.  The advice to use limit orders only comes under the high
    risk heading, and the warning on manipulation only with that
    advice. *)
Theorem dex_recommendations_follow_assessment primaryPair allPairs :
  let a := Dex.calculateDexRiskAssessment formatNumber toFixed2 natToString
             primaryPair allPairs in
  let recommendations := generateDexRecommendations a in
  (is_nan (Dex.totalLiquidityOf allPairs) = false ->
   Dex.riskLevel a = Low ->
   recommendations
   = ["✅ **FAVORABLE DEX METRICS** - Trading data suggests adequate liquidity and market activity.";
      "✅ Strong liquidity and volume provide favorable trading conditions with minimal slippage."]%string)
  /\ (In "⚠️ Use limit orders and small position sizes to minimize price impact and slippage."%string
         recommendations ->
      hd_error recommendations
      = Some "⚠️ **HIGH DEX RISK DETECTED** - Consider this a highly speculative investment with significant potential for loss due to liquidity and trading issues."%string)
  /\ (In "⚠️ Low volume and liquidity combination make this token vulnerable to market manipulation."%string
         recommendations ->
      In "⚠️ Use limit orders and small position sizes to minimize price impact and slippage."%string
         recommendations).
Proof.
  intros a recommendations. subst recommendations.
  destruct (assessment_fields primaryPair allPairs) as [El [Ev [Er Ep]]].
  fold a in El, Ev, Er, Ep.
  unfold generateDexRecommendations. rewrite El, Ev, Er.
  split; [|split].
  - intros Hnan Hlow.
    destruct (low_dex_assessment_tests primaryPair allPairs Hnan Hlow)
      as [[T1 [T2 [T3 [T4 [T5 T6]]]]] [[V1 [V2 V3]] [[R1 R2] [P1 P2]]]].
    destruct (low_dex_assessment_shape primaryPair allPairs Hnan Hlow) as [Hliq Hflags].
    fold a in Hlow, Hliq, Hflags.
    rewrite Hlow, Hliq, V2, T3.
    rewrite (ltb_trans 500000 1000000 _ eq_refl V3).
    replace (buyToSellRatioOf primaryPair <? 0.7) with false.
    2: { symmetry. apply leb_not_gtb. apply ltb_leb.
         exact (ltb_trans 0.7 2 _ eq_refl R2). }
    replace (2 <? List.length (Dex.redFlags a))%nat with false
      by (symmetry; apply Nat.ltb_ge; lia).
    reflexivity.
  - intros H.
    assert (Hliq : Dex.liquidityLevel a = Low).
    { destruct (Dex.liquidityLevel a); [reflexivity| |]; exfalso;
        repeat (apply in_dex_pushed in H; destruct H as [[Hc H]|H];
                [first [discriminate H | discriminate Hc]|]);
        destruct (Dex.riskLevel a); cbn in H;
        destruct H as [H|[]]; discriminate H. }
    pose proof (low_liquidity_level_is_high_risk primaryPair allPairs Hliq) as Hhigh.
    fold a in Hhigh. rewrite Hhigh.
    repeat apply hd_dex_push_keeps. reflexivity.
  - intros H.
    assert (Hc : ((Dex.totalVolume24hOf allPairs <? 10000)
                  && (Dex.totalLiquidityOf allPairs <? 100000))%bool = true).
    { apply in_dex_pushed in H. destruct H as [[_ H]|H]; [discriminate H|].
      apply in_dex_pushed in H. destruct H as [[_ H]|H]; [discriminate H|].
      apply in_dex_pushed in H. destruct H as [[_ H]|H]; [discriminate H|].
      apply in_dex_pushed in H. destruct H as [[Hc _]|H]; [exact Hc|].
      exfalso.
      apply in_dex_pushed in H. destruct H as [[_ H]|H]; [discriminate H|].
      destruct (Dex.riskLevel a); cbn in H; destruct H as [H|[]]; discriminate H. }
    apply andb_prop in Hc. destruct Hc as [_ Hc].
    apply liquidity_level_low_iff with (primaryPair := primaryPair) in Hc.
    fold a in Hc. rewrite Hc.
    do 4 apply in_dex_push_keeps.
    unfold Dex.push_if. apply in_or_app. right. left. reflexivity.
Qed.

End DexRecommendations.

(** ** The blockchain agent: the fallback holders *)

(** The fallback holders: the entry [Others] sorts first. *)
Lemma mock_metrics :
  Blockchain.calculateConcentrationMetrics getMockTokenHolders
  = {| Blockchain.topHolderPercentage := 32.5; Blockchain.top10Percentage := 97.5;
       Blockchain.holderCount := 11 |}.
Proof. vm_compute. reflexivity. Qed.

(** The loop over the patterns keeps the factors it starts with. *)
Lemma factor_kept_by_patterns x patterns : forall riskFactors,
  In x riskFactors ->
  In x (fold_left (fun riskFactors pattern =>
               match Blockchain.severity pattern with
               | Blockchain.SevHigh =>
                   riskFactors ++
                     [("❌ **CRITICAL RISK:** " ++ Blockchain.name pattern ++ " - "
                       ++ Blockchain.description pattern)%string]
               | Blockchain.SevMedium =>
                   riskFactors ++
                     [("⚠️ **MEDIUM RISK:** " ++ Blockchain.name pattern ++ " - "
                       ++ Blockchain.description pattern)%string]
               | _ => riskFactors
               end) patterns riskFactors).
Proof.
  induction patterns as [|q rest IH]; intros riskFactors H; [exact H|].
  cbn [fold_left]. apply IH.
  destruct (Blockchain.severity q); try exact H; apply in_or_app; left; exact H.
Qed.

(** With the fallback holders the score starts from 15 + 20. *)
Lemma mock_score_at_least_35 now isVerified contractInfo tokenInfo txs f1 f2 f3 f4 f5 :
  (Blockchain.calculateBlockchainRiskScore now isVerified contractInfo
     tokenInfo getMockTokenHolders txs
     (filter Blockchain.found
        (map (fun pf => setFound (fst pf) (snd pf))
             (combine securityPatterns [f1; f2; f3; f4; f5]))) >=? 35) = true.
Proof.
  unfold Blockchain.calculateBlockchainRiskScore. rewrite mock_metrics.
  cbn [Blockchain.topHolderPercentage Blockchain.top10Percentage].
  change (50 <? 32.5) with false. change (20 <? 32.5) with true.
  change (90 <? 97.5) with true. cbv iota.
  destruct f1, f2, f3, f4, f5; cbn [filter map combine securityPatterns setFound fst snd
    Blockchain.found Blockchain.severity fold_left];
    destruct isVerified; cbn [negb];
    destruct (truthy_str (Blockchain.implementation contractInfo));
    destruct (negb (truthy_str (Blockchain.tokenName tokenInfo))
              || negb (truthy_str (Blockchain.symbol tokenInfo)))%bool;
    (destruct (Blockchain.createdTimestamp contractInfo) as [ts|];
     [generalize (Blockchain.ageInDaysAt now ts); intros age|]);
    split_tests; vm_compute; reflexivity.
Qed.

Section Fallback.

Variable numberToString : number -> string.
Variable parseIntOf : string -> number.
Variable etherOf : string -> option number.

(** When the holder lookup falls back to its built-in list, the entry
    [Others] (32.5%, the rest of the holders) sorts first and is taken for
    the top holder, and the top ten sum to 97.5%: whatever the contract,
    the report then has a score of at least 35 and lists both the
    factor on concentration in a single wallet and the one on the top ten
    holders. *)
Theorem fallback_holders_count_others_as_a_wallet nowScore nowFactors dateNow catalogue
    tokenAddress isVerified contractInfo tokenInfo txs report :
  sameCatalogue catalogue ->
  assessBlockchainRisk numberToString parseIntOf etherOf nowScore nowFactors dateNow
    catalogue tokenAddress isVerified contractInfo tokenInfo getMockTokenHolders txs
  = Some report ->
  option_map Blockchain.address (hd_error (Blockchain.sortHolders getMockTokenHolders))
  = Some "Others"%string
  /\ r_holderConcentration report
     = {| Blockchain.topHolderPercentage := 32.5; Blockchain.top10Percentage := 97.5;
          Blockchain.holderCount := 11 |}
  /\ (r_riskScore report >=? 35) = true
  /\ In ("⚠️ **HIGH RISK:** High concentration of tokens (" ++ numberToString 32.5
         ++ "%) in a single wallet")%string (r_riskFactors report)
  /\ In ("⚠️ **HIGH RISK:** Top 10 holders control " ++ numberToString 97.5
         ++ "% of the tokens, indicating high centralization")%string
        (r_riskFactors report).
Proof.
  intros Hcat H. unfold assessBlockchainRisk in H.
  destruct (identifyRiskFactors _ _ _ _ _ _ _ _ _ _ _) as [riskFactors|] eqn:E;
    [|discriminate H].
  apply Some_eq in H. subst report.
  cbn [r_riskScore r_riskFactors r_holderConcentration].
  split; [vm_compute; reflexivity|]. split; [exact mock_metrics|]. split.
  - destruct (found_from_flags catalogue isVerified contractInfo Hcat)
      as [f1 [f2 [f3 [f4 [f5 [Ef _]]]]]].
    rewrite Ef. apply mock_score_at_least_35.
  - apply factors_with_transactions in E. destruct E as [base [c [E Efs]]].
    subst riskFactors. unfold identifyRiskFactors in E. apply Some_eq in E. subst base.
    rewrite mock_metrics.
    cbn [Blockchain.topHolderPercentage Blockchain.top10Percentage].
    change (50 <? 32.5) with false. change (20 <? 32.5) with true.
    change (80 <? 97.5) with true. cbv iota.
    split; apply in_push_if_keeps, factor_kept_by_patterns.
    + unfold push_if at 1. apply in_or_app. left. apply in_or_app. right. left. reflexivity.
    + unfold push_if at 1. apply in_or_app. right. left. reflexivity.
Qed.

End Fallback.

(** Witness: the unverified contract about which nothing is known. *)
Lemma fallback_holders_count_others_as_a_wallet_witness :
  exists report,
    assessBlockchainRisk MoreSamples.numberToString MoreSamples.parseIntOf
      MoreSamples.etherOf Samples.nowMs Samples.nowMs Samples.nowMs securityPatterns
      "0x0000000000000000000000000000000000000001" false Samples.unknownContract
      Samples.unknownToken getMockTokenHolders [] = Some report
    /\ r_riskScore report = 100
    /\ (r_riskScore report >=? 35) = true.
Proof.
  eexists. split; [reflexivity|]. split; [vm_compute; reflexivity|].
  apply (fallback_holders_count_others_as_a_wallet MoreSamples.numberToString
           MoreSamples.parseIntOf MoreSamples.etherOf
           Samples.nowMs Samples.nowMs Samples.nowMs securityPatterns
           "0x0000000000000000000000000000000000000001" false
           Samples.unknownContract Samples.unknownToken [] _ eq_refl eq_refl).
Defined.
